(** * Team-chat client: message feed, renderer, composer, workspaces,
      dialogs and assistant panel

    A shallow embedding of the decision logic of the React components
    [MessageList], [MessageItem], [ChatArea], [MessageInput], [App],
    [Sidebar], [CreateChannelDialog], [CreateWorkspaceDialog] and
    [AIAssistant], followed by the properties of the feed assembler, the
    renderer, the composer and the first-login bootstrap (Part II) and of
    the handlers of the other components and their compositions
    (Part III).

    Strings.  A JavaScript string is a sequence of UTF-16 code units.  The
    embedding covers the strings whose code units are all below 256 (the
    Latin-1 range), so that a code unit is an [ascii] and a string is a
    [string].  On that range [String.prototype.trim],
    [String.prototype.toLowerCase], [String.prototype.includes] and the
    case folding of regular expressions act unit by unit, and are written
    out below from ECMA-262. *)

From Stdlib Require Import Bool Arith ZArith NArith Lia List String Ascii.
From Stdlib Require Import DecimalString Sorted Permutation.
Import ListNotations.

Local Open Scope string_scope.
Local Open Scope list_scope.

(* ================================================================== *)
(** * Part I: the embedding                                            *)
(* ================================================================== *)

(** ** JavaScript built-ins used by the components *)

Module Js.

(** What a call evaluates to: a value, or a thrown exception carrying
    its message. *)
Inductive Completion (A : Type) : Type :=
| Normal (a : A)
| Throw (error : string).
Arguments Normal {A} a.
Arguments Throw {A} error.

(** Truthiness of a string: [s ? _ : _] and [!s]. *)
Definition truthy (s : string) : bool :=
  match s with
  | EmptyString => false
  | String _ _ => true
  end.

(** [WhiteSpace] and [LineTerminator] code units below 256:
    TAB, LF, VT, FF, CR, SP and NBSP. *)
Definition isWhiteSpace (c : ascii) : bool :=
  let n := N_of_ascii c in
  ((n =? 9) || (n =? 10) || (n =? 11) || (n =? 12) || (n =? 13)
   || (n =? 32) || (n =? 160))%N.

Fixpoint trimStart (s : string) : string :=
  match s with
  | EmptyString => EmptyString
  | String c s' => if isWhiteSpace c then trimStart s' else s
  end.

Fixpoint trimEnd (s : string) : string :=
  match s with
  | EmptyString => EmptyString
  | String c s' =>
      match trimEnd s' with
      | EmptyString =>
          if isWhiteSpace c then EmptyString else String c EmptyString
      | t => String c t
      end
  end.

(** [s.trim()] *)
Definition trim (s : string) : string := trimEnd (trimStart s).

(** Lower-case mapping of one code unit below 256: [A-Z] and the
    capital letters U+00C0..U+00DE (all but the multiplication sign
    U+00D7) move up by 32; everything else is left alone. *)
Definition lowerChar (c : ascii) : ascii :=
  let n := N_of_ascii c in
  if (((65 <=? n) && (n <=? 90))
      || ((192 <=? n) && (n <=? 222) && negb (n =? 215)))%N
  then ascii_of_N (n + 32)
  else c.

(** [s.toLowerCase()] *)
Fixpoint toLowerCase (s : string) : string :=
  match s with
  | EmptyString => EmptyString
  | String c s' => String (lowerChar c) (toLowerCase s')
  end.

(** [s.startsWith(t)] *)
Fixpoint startsWith (s t : string) : bool :=
  match t, s with
  | EmptyString, _ => true
  | String _ _, EmptyString => false
  | String b t', String a s' => Ascii.eqb a b && startsWith s' t'
  end.

(** [s.includes(t)] *)
Fixpoint includes (s t : string) : bool :=
  startsWith s t
  || match s with
     | EmptyString => false
     | String _ s' => includes s' t
     end.

(** *** Regular expressions: the literal fragment

    [Canonicalize] of a code unit below 256 under the [i] flag without
    the [u] flag: the upper-case mapping when it is a single code unit,
    which may lie above 255 (U+00FF maps to U+0178 and U+00B5 to
    U+039C); U+00DF, whose upper case is two units, and U+00F7 stay. *)
Definition canonicalize (c : ascii) : N :=
  let n := N_of_ascii c in
  if (((97 <=? n) && (n <=? 122))
      || ((224 <=? n) && (n <=? 254) && negb (n =? 247)))%N
  then (n - 32)%N
  else if (n =? 255)%N then 376%N
  else if (n =? 181)%N then 924%N
  else n.

(** [SyntaxCharacter], with the closing bracket and brace: the units
    that are not plain pattern characters. *)
Definition isSyntaxCharacter (c : ascii) : bool :=
  let n := N_of_ascii c in
  ((n =? 94) || (n =? 36) || (n =? 92) || (n =? 46) || (n =? 42)
   || (n =? 43) || (n =? 63) || (n =? 40) || (n =? 41) || (n =? 91)
   || (n =? 93) || (n =? 123) || (n =? 125) || (n =? 124))%N.

Fixpoint allPatternCharacters (s : string) : bool :=
  match s with
  | EmptyString => true
  | String c s' => negb (isSyntaxCharacter c) && allPatternCharacters s'
  end.

(** The pattern [source] read as one capture group around a non-empty
    run of plain pattern characters, [(lit)]; [None] for every other
    pattern. *)
Definition literalGroup (source : string) : option string :=
  match source with
  | String open body =>
      if Ascii.eqb open "("%char then
        let n := String.length body in
        match String.get (n - 1) body with
        | Some close =>
            let lit := substring 0 (n - 1) body in
            if Ascii.eqb close ")"%char
               && negb (String.length lit =? 0)%nat
               && allPatternCharacters lit
            then Some lit
            else None
        | None => None
        end
      else None
  | EmptyString => None
  end.

(** The literal [lit] matched at the start of [text] under the [i]
    flag: the matched units and what follows them. *)
Fixpoint matchesAt (lit text : string) : option (string * string) :=
  match lit with
  | EmptyString => Some (EmptyString, text)
  | String p lit' =>
      match text with
      | EmptyString => None
      | String c text' =>
          if (canonicalize p =? canonicalize c)%N then
            match matchesAt lit' text' with
            | Some (m, rest) => Some (String c m, rest)
            | None => None
            end
          else None
      end
  end.

Definition isDigit (c : ascii) : bool :=
  let n := N_of_ascii c in ((48 <=? n) && (n <=? 57))%N.

(** [GetSubstitution] for a pattern with exactly one capture group:
    [$$], [$&], [$`], [$'] and [$1] (also as [$01]) are replaced, any
    other [$] is kept as it is. *)
Fixpoint getSubstitution (matched before after capture1 template : string)
  : string :=
  match template with
  | EmptyString => EmptyString
  | String c rest =>
      if Ascii.eqb c "$"%char then
        match rest with
        | String d rest' =>
            if Ascii.eqb d "$"%char then
              String "$" (getSubstitution matched before after capture1 rest')
            else if Ascii.eqb d "&"%char then
              matched ++ getSubstitution matched before after capture1 rest'
            else if Ascii.eqb d "`"%char then
              before ++ getSubstitution matched before after capture1 rest'
            else if Ascii.eqb d "'"%char then
              after ++ getSubstitution matched before after capture1 rest'
            else if Ascii.eqb d "1"%char then
              capture1 ++ getSubstitution matched before after capture1 rest'
            else if Ascii.eqb d "0"%char then
              match rest' with
              | String e rest'' =>
                  if Ascii.eqb e "1"%char then
                    capture1
                    ++ getSubstitution matched before after capture1 rest''
                  else
                    String c (getSubstitution matched before after capture1 rest)
              | EmptyString =>
                  String c (getSubstitution matched before after capture1 rest)
              end
            else String c (getSubstitution matched before after capture1 rest)
        | EmptyString => String c EmptyString
        end
      else String c (getSubstitution matched before after capture1 rest)
  end.

(** The loop of [RegExp.prototype[Symbol.replace]] with the [g] flag for
    a literal group: find the next match at or after the current
    position, copy what precedes it, substitute, and go on after the
    match.  Every round consumes a code unit, so [fuel] = length of the
    text is enough. *)
Fixpoint replaceLoop (fuel : nat) (lit template before text : string)
  : string :=
  match fuel with
  | O => text
  | S fuel' =>
      match text with
      | EmptyString => EmptyString
      | String c text' =>
          match matchesAt lit text with
          | Some (m, rest) =>
              getSubstitution m before rest m template
              ++ replaceLoop fuel' lit template (before ++ m) rest
          | None =>
              String c
                (replaceLoop fuel' lit template
                   (before ++ String c EmptyString) text')
          end
      end
  end.

Definition replaceLiteral (lit text template : string) : string :=
  replaceLoop (String.length text) lit template EmptyString text.

(** [text.replace(new RegExp(source, 'gi'), template)].  A literal
    group is replaced by the loop above.  Any other pattern goes to the
    engine of the host, [nativeReplace], which either throws (a
    [SyntaxError] for a malformed pattern) or returns the new string;
    nothing is assumed about it. *)
Section NativeEngine.
Variable nativeReplace : string -> string -> string -> Completion string.

Definition regexpReplace (source text template : string)
  : Completion string :=
  match literalGroup source with
  | Some lit => Normal (replaceLiteral lit text template)
  | None => nativeReplace source text template
  end.
End NativeEngine.

(** *** Dates

    [new Date(s).getTime()] for the date-time format of
    [Date.prototype.toISOString], [YYYY-MM-DDTHH:mm:ss.sssZ]; [None]
    stands for [NaN].  Strings outside that format are answered [None]
    here; ECMA-262 leaves their parsing to the implementation, and the
    components are stated over an arbitrary [getTime]. *)
Definition digit (c : ascii) : option Z :=
  if isDigit c then Some (Z.of_N (N_of_ascii c) - 48)%Z else None.

Fixpoint digits (acc : Z) (s : string) : option Z :=
  match s with
  | EmptyString => Some acc
  | String c s' =>
      match digit c with
      | Some d => digits (10 * acc + d)%Z s'
      | None => None
      end
  end.

Definition field (s : string) (pos len : nat) : option Z :=
  digits 0%Z (substring pos len s).

Definition charAt (s : string) (pos : nat) (c : ascii) : bool :=
  match String.get pos s with
  | Some a => Ascii.eqb a c
  | None => false
  end.

Definition isLeapYear (y : Z) : bool :=
  ((y mod 4 =? 0) && (negb (y mod 100 =? 0) || (y mod 400 =? 0)))%Z.

Definition daysInMonth (y m : Z) : Z :=
  (if m =? 2 then (if isLeapYear y then 29 else 28)
   else if (m =? 4) || (m =? 6) || (m =? 9) || (m =? 11) then 30
   else 31)%Z.

(** Days from 1970-01-01 to the civil date [y]-[m]-[d]. *)
Definition daysFromCivil (y m d : Z) : Z :=
  (let y' := if m <=? 2 then y - 1 else y in
   let era := y' / 400 in
   let yoe := y' - era * 400 in
   let mp := if 2 <? m then m - 3 else m + 9 in
   let doy := (153 * mp + 2) / 5 + d - 1 in
   let doe := yoe * 365 + yoe / 4 - yoe / 100 + doy in
   era * 146097 + doe - 719468)%Z.

Definition isoGetTime (s : string) : option Z :=
  if (String.length s =? 24)%nat
     && charAt s 4 "-" && charAt s 7 "-" && charAt s 10 "T"
     && charAt s 13 ":" && charAt s 16 ":" && charAt s 19 "."
     && charAt s 23 "Z"
  then
    match field s 0 4, field s 5 2, field s 8 2,
          field s 11 2, field s 14 2, field s 17 2, field s 20 3 with
    | Some y, Some mo, Some d, Some h, Some mi, Some sec, Some ms =>
        if ((1 <=? mo) && (mo <=? 12) && (1 <=? d)
            && (d <=? daysInMonth y mo)
            && (h <=? 23) && (mi <=? 59) && (sec <=? 59))%Z
        then
          Some ((((daysFromCivil y mo d * 24 + h) * 60 + mi) * 60 + sec)
                * 1000 + ms)%Z
        else None
    | _, _, _, _, _, _, _ => None
    end
  else None.

(** [`${n}`] for an integer [n]. *)
Definition numberToString (n : Z) : string :=
  NilZero.string_of_int (Z.to_int n).

End Js.


(** ** Records of the data model *)

Module User.
Record t : Type := mk
  { id : string; email : string; displayName : option string }.
End User.

Module Message.
Record t : Type := mk
  { id : string;
    channelId : string;
    userId : string;
    content : string;
    messageType : string;
    threadId : option string;
    replyCount : Z;
    createdAt : string;
    updatedAt : string }.
End Message.

Module Group.
Record t : Type := mk
  { id : string;
    name : string;
    description : option string;
    createdBy : string;
    createdAt : string }.
End Group.

Module GroupMember.
Record t : Type := mk
  { id : string;
    groupId : string;
    userId : string;
    role : string;
    joinedAt : string }.
End GroupMember.

Module Channel.
Record t : Type := mk
  { id : string;
    groupId : string;
    name : string;
    description : option string;
    isPrivate : bool;
    createdBy : string;
    createdAt : string }.
End Channel.

(** ** The remote data client

    The hosted backend is outside the repository.  It is modelled as an
    in-memory store with one table per collection: [list] answers the
    records that match the [where] clause, in the order the [orderBy]
    clause asks for or else in stored order, [create] stamps the record
    and appends it, [delete] drops the records with the identifier.  A
    request may be rejected: [faults] holds, for the requests to come,
    whether each one is rejected; once the list is used up every request
    is answered. *)

Module Remote.
Import Js.

Record Db : Type := mkDb
  { groups : list Group.t;
    groupMembers : list GroupMember.t;
    channels : list Channel.t;
    messages : list Message.t;
    faults : list bool;
    serverNow : string }.

Definition withFaults (fs : list bool) (db : Db) : Db :=
  {| groups := groups db; groupMembers := groupMembers db;
     channels := channels db; messages := messages db;
     faults := fs; serverNow := serverNow db |}.

(** Modelled from the spec: a request to the backend, which is outside
    the repository (spec 6: a request/response service; spec 7: any
    request may fail).  The next entry of [faults] tells whether the
    request is rejected. *)
Definition request {A : Type} (op : Db -> A * Db) (db : Db)
  : Completion A * Db :=
  match faults db with
  | true :: rest => (Throw "request rejected", withFaults rest db)
  | false :: rest =>
      let '(a, db') := op (withFaults rest db) in (Normal a, db')
  | [] => let '(a, db') := op db in (Normal a, db')
  end.

(** Modelled from the spec: the [orderBy] clause of [list] (spec 6, [list]
    answers an ordered sequence of records); the backend that orders the
    records is outside the repository.  The records are ordered by the
    text of one field, by code unit, ascending or descending; records
    that agree on the field keep the order of the table. *)
Section OrderBy.
Context {A : Type}.
Variable field : A -> string.

Fixpoint insertAsc (x : A) (sorted : list A) : list A :=
  match sorted with
  | [] => [x]
  | y :: sorted' =>
      if (field x <=? field y)%string then x :: sorted
      else y :: insertAsc x sorted'
  end.

Definition orderAsc (l : list A) : list A := fold_right insertAsc [] l.

Fixpoint insertDesc (x : A) (sorted : list A) : list A :=
  match sorted with
  | [] => [x]
  | y :: sorted' =>
      if (field y <=? field x)%string then x :: sorted
      else y :: insertDesc x sorted'
  end.

Definition orderDesc (l : list A) : list A := fold_right insertDesc [] l.

End OrderBy.

(** Modelled from the spec: the backend's answer (spec 6, [list]) to
    [groupMembers.list({ where: { userId }, orderBy: { joinedAt: 'desc' } })]:
    the memberships of the user, last joined first. *)
Definition groupMembers_list (userId : string) : Db -> Completion (list GroupMember.t) * Db :=
  request (fun db =>
    (orderDesc GroupMember.joinedAt
       (filter (fun gm => GroupMember.userId gm =? userId) (groupMembers db)),
     db)).

(** Modelled from the spec: the backend's answer (spec 6, [list]) to
    [groups.list({ where: { id }, limit })]: the first [limit] workspaces
    with the identifier, in stored order. *)
Definition groups_list (id : string) (limit : nat) : Db -> Completion (list Group.t) * Db :=
  request (fun db =>
    (firstn limit (filter (fun g => Group.id g =? id) (groups db)), db)).

(** Modelled from the spec: the backend's answer (spec 6, [list]) to
    [channels.list({ where: { groupId }, orderBy: { createdAt: 'asc' } })]:
    the channels of the workspace, oldest first. *)
Definition channels_list (groupId : string) : Db -> Completion (list Channel.t) * Db :=
  request (fun db =>
    (orderAsc Channel.createdAt
       (filter (fun c => Channel.groupId c =? groupId) (channels db)),
     db)).

(** Modelled from the spec: the backend's answer (spec 6, [create]) to
    [groups.create(record)], [groupMembers.create(record)] and
    [channels.create(record)]: the record is stored at the end of its
    table and comes back with its creation time. *)
Definition groups_create (record : Group.t) : Db -> Completion Group.t * Db :=
  request (fun db =>
    let created :=
      {| Group.id := Group.id record; Group.name := Group.name record;
         Group.description := Group.description record;
         Group.createdBy := Group.createdBy record;
         Group.createdAt := serverNow db |} in
    (created,
     {| groups := groups db ++ [created];
        groupMembers := groupMembers db; channels := channels db;
        messages := messages db; faults := faults db;
        serverNow := serverNow db |})).

Definition groupMembers_create (record : GroupMember.t) : Db -> Completion GroupMember.t * Db :=
  request (fun db =>
    let created :=
      {| GroupMember.id := GroupMember.id record;
         GroupMember.groupId := GroupMember.groupId record;
         GroupMember.userId := GroupMember.userId record;
         GroupMember.role := GroupMember.role record;
         GroupMember.joinedAt := serverNow db |} in
    (created,
     {| groups := groups db;
        groupMembers := groupMembers db ++ [created];
        channels := channels db; messages := messages db;
        faults := faults db; serverNow := serverNow db |})).

Definition channels_create (record : Channel.t) : Db -> Completion Channel.t * Db :=
  request (fun db =>
    let created :=
      {| Channel.id := Channel.id record;
         Channel.groupId := Channel.groupId record;
         Channel.name := Channel.name record;
         Channel.description := Channel.description record;
         Channel.isPrivate := Channel.isPrivate record;
         Channel.createdBy := Channel.createdBy record;
         Channel.createdAt := serverNow db |} in
    (created,
     {| groups := groups db; groupMembers := groupMembers db;
        channels := channels db ++ [created];
        messages := messages db; faults := faults db;
        serverNow := serverNow db |})).

(** Modelled from the spec: the backend's answer (spec 6, [delete]) to
    [messages.delete(id)]: the records with the identifier are dropped. *)
Definition messages_delete (id : string) : Db -> Completion unit * Db :=
  request (fun db =>
    (tt,
     {| groups := groups db; groupMembers := groupMembers db;
        channels := channels db;
        messages :=
          filter (fun m => negb (Message.id m =? id)) (messages db);
        faults := faults db; serverNow := serverNow db |})).

End Remote.

(** ** The state the handlers act on *)

Module Toast.
Record t : Type := mk
  { title : string; description : string; variant : option string }.
End Toast.

Module World.

(** [useState] cells of [App]. *)
Record AppState : Type := mkApp
  { user : option User.t;
    loading : bool;
    groups : list Group.t;
    channels : list Channel.t;
    activeGroup : option string;
    activeChannel : option string;
    isAIOpen : bool }.

(** [useState] cells of [ChatArea]. *)
Record ChatState : Type := mkChat
  { messages : list Message.t;
    chatLoading : bool;
    searchQuery : string }.

(** [useState] cells of the [MessageItem] whose menu is open. *)
Record ItemState : Type := mkItem
  { isHovered : bool;
    showDeleteDialog : bool;
    isDeleting : bool }.

Record t : Type := mk
  { db : Remote.Db;
    clock : nat -> Z;
    ticks : nat;
    console : list string;
    toasts : list Toast.t;
    app : AppState;
    chat : ChatState;
    item : ItemState }.

Definition withDb (x : Remote.Db) (w : t) : t :=
  {| db := x; clock := clock w; ticks := ticks w; console := console w;
     toasts := toasts w; app := app w; chat := chat w; item := item w |}.

Definition withTicks (x : nat) (w : t) : t :=
  {| db := db w; clock := clock w; ticks := x; console := console w;
     toasts := toasts w; app := app w; chat := chat w; item := item w |}.

Definition withConsole (x : list string) (w : t) : t :=
  {| db := db w; clock := clock w; ticks := ticks w; console := x;
     toasts := toasts w; app := app w; chat := chat w; item := item w |}.

Definition withToasts (x : list Toast.t) (w : t) : t :=
  {| db := db w; clock := clock w; ticks := ticks w; console := console w;
     toasts := x; app := app w; chat := chat w; item := item w |}.

Definition withApp (x : AppState) (w : t) : t :=
  {| db := db w; clock := clock w; ticks := ticks w; console := console w;
     toasts := toasts w; app := x; chat := chat w; item := item w |}.

Definition withChat (x : ChatState) (w : t) : t :=
  {| db := db w; clock := clock w; ticks := ticks w; console := console w;
     toasts := toasts w; app := app w; chat := x; item := item w |}.

Definition withItem (x : ItemState) (w : t) : t :=
  {| db := db w; clock := clock w; ticks := ticks w; console := console w;
     toasts := toasts w; app := app w; chat := chat w; item := x |}.

End World.

(** ** Handlers as state transformers that may throw

    An [async] handler is run to completion: [await] of a rejected
    request throws at the point of the call, and the state written before
    the throw stays written. *)

Module Eff.
Import Js.

Definition M (A : Type) : Type := World.t -> Completion A * World.t.

Definition ret {A : Type} (a : A) : M A := fun w => (Normal a, w).

Definition bind {A B : Type} (m : M A) (k : A -> M B) : M B :=
  fun w =>
    match m w with
    | (Normal a, w') => k a w'
    | (Throw e, w') => (Throw e, w')
    end.

(** [try { body } catch (error) { handler }] *)
Definition tryCatch {A : Type} (body : M A) (handler : string -> M A)
  : M A :=
  fun w =>
    match body w with
    | (Normal a, w') => (Normal a, w')
    | (Throw e, w') => handler e w'
    end.

(** [try { body } finally { final }] *)
Definition tryFinally {A : Type} (body : M A) (final : M unit) : M A :=
  fun w =>
    match body w with
    | (r, w') =>
        match final w' with
        | (Normal _, w'') => (r, w'')
        | (Throw e, w'') => (Throw e, w'')
        end
    end.

Definition modify (f : World.t -> World.t) : M unit :=
  fun w => (Normal tt, f w).

(** [await] of a request to the remote data client. *)
Definition await {A : Type} (req : Remote.Db -> Completion A * Remote.Db)
  : M A :=
  fun w =>
    match req (World.db w) with
    | (r, db') => (r, World.withDb db' w)
    end.

(** [Date.now()]: the next reading of the clock. *)
Definition dateNow : M Z :=
  fun w =>
    (Normal (World.clock w (World.ticks w)),
     World.withTicks (S (World.ticks w)) w).

Definition consoleWrite (line : string) : M unit :=
  modify (fun w => World.withConsole (World.console w ++ [line]) w).

Definition toast (t : Toast.t) : M unit :=
  modify (fun w => World.withToasts (World.toasts w ++ [t]) w).

(** The state a fire-and-forget call leaves behind. *)
Definition exec {A : Type} (m : M A) (w : World.t) : World.t := snd (m w).

End Eff.

Declare Scope eff_scope.
Delimit Scope eff_scope with eff.
Notation "x <- m ;; k" := (Eff.bind m (fun x => k))
  (at level 61, m at next level, right associativity) : eff_scope.
Notation "m ;; k" := (Eff.bind m (fun _ => k))
  (at level 61, right associativity) : eff_scope.

(** ** MessageItem: the body of one message *)

Module MessageItem.
Import Js.

(** What the body of a message is rendered as: the text handed to the
    markdown renderer as its children, or the placeholder line. *)
Inductive Body : Type :=
| MarkdownContent (children : string)
| UnsupportedMessageType (text : string).

Definition doubleQuote : string := String (ascii_of_nat 34) EmptyString.

Definition markOpen : string :=
  "<mark class=" ++ doubleQuote ++ "bg-yellow-200 dark:bg-yellow-800"
  ++ doubleQuote ++ ">".

Definition markClose : string := "</mark>".

Definition markTemplate : string := markOpen ++ "$1" ++ markClose.

Section Render.
Variable nativeReplace : string -> string -> string -> Completion string.

Definition highlightSearchTerm (text searchTerm : string)
  : Completion string :=
  if negb (truthy (trim searchTerm)) then Normal text
  else
    regexpReplace nativeReplace ("(" ++ searchTerm ++ ")") text
      markTemplate.

(** The children of the message body in the JSX of [MessageItem]. *)
Definition renderBody (message : Message.t) (searchQuery : string)
  : Completion Body :=
  if Message.messageType message =? "text" then
    match
      (if truthy searchQuery
       then highlightSearchTerm (Message.content message) searchQuery
       else Normal (Message.content message))
    with
    | Normal children => Normal (MarkdownContent children)
    | Throw error => Throw error
    end
  else
    Normal
      (UnsupportedMessageType
         ("Unsupported message type: " ++ Message.messageType message)).
End Render.

(** *** The delete dialog *)

Definition setShowDeleteDialog (b : bool) : Eff.M unit :=
  Eff.modify (fun w =>
    World.withItem
      {| World.isHovered := World.isHovered (World.item w);
         World.showDeleteDialog := b;
         World.isDeleting := World.isDeleting (World.item w) |} w).

Definition setIsDeleting (b : bool) : Eff.M unit :=
  Eff.modify (fun w =>
    World.withItem
      {| World.isHovered := World.isHovered (World.item w);
         World.showDeleteDialog := World.showDeleteDialog (World.item w);
         World.isDeleting := b |} w).

Definition deletedToast : Toast.t :=
  {| Toast.title := "Message deleted";
     Toast.description := "The message has been deleted successfully.";
     Toast.variant := None |}.

Definition deleteFailedToast : Toast.t :=
  {| Toast.title := "Error";
     Toast.description := "Failed to delete message. Please try again.";
     Toast.variant := Some "destructive" |}.

(** [confirmDelete] of the item showing [message]; [onMessageDeleted] is
    the optional callback prop. *)
Definition confirmDelete (message : Message.t)
  (onMessageDeleted : option (string -> Eff.M unit)) : Eff.M unit :=
  (setIsDeleting true ;;
   Eff.tryFinally
     (Eff.tryCatch
        (Eff.await (Remote.messages_delete (Message.id message)) ;;
         Eff.toast deletedToast ;;
         match onMessageDeleted with
         | Some callback => callback (Message.id message)
         | None => Eff.ret tt
         end ;;
         setShowDeleteDialog false)
        (fun error =>
           Eff.consoleWrite ("Error deleting message: " ++ error) ;;
           Eff.toast deleteFailedToast))
     (setIsDeleting false))%eff.


End MessageItem.

(** ** MessageList: filter and grouping *)

Module MessageList.
Import Js.

(** The props handed to one [MessageItem]. *)
Record ItemProps : Type := mkItem
  { message : Message.t;
    showAvatar : bool;
    searchQuery : string }.

Inductive View : Type :=
| NoMessagesFound (searchQuery : string)
| BeginningOfConversation
| Feed (items : list ItemProps).

(** [l.map((x, index) => f x index)] *)
Fixpoint mapIndexFrom {A B : Type} (f : A -> nat -> B) (index : nat)
  (l : list A) : list B :=
  match l with
  | [] => []
  | x :: l' => f x index :: mapIndexFrom f (S index) l'
  end.

Definition mapIndex {A B : Type} (f : A -> nat -> B) (l : list A)
  : list B := mapIndexFrom f 0 l.

Definition passesFilter (searchQuery : string) (message : Message.t)
  : bool :=
  if negb (truthy (trim searchQuery)) then true
  else includes (toLowerCase (Message.content message))
         (toLowerCase searchQuery).

Definition filteredMessages (messages : list Message.t)
  (searchQuery : string) : list Message.t :=
  filter (passesFilter searchQuery) messages.

Section Grouping.
(** [s => new Date(s).getTime()], [None] for [NaN]. *)
Variable getTime : string -> option Z.

(** [getTime(later) - getTime(earlier) > 300000]; a comparison with
    [NaN] is false. *)
Definition gapExceeds5Minutes (later earlier : string) : bool :=
  match getTime later, getTime earlier with
  | Some a, Some b => (300000 <? a - b)%Z
  | _, _ => false
  end.

Definition showAvatarOf (prevMessage : option Message.t)
  (message : Message.t) : bool :=
  match prevMessage with
  | None => true
  | Some prev =>
      negb (Message.userId prev =? Message.userId message)
      || gapExceeds5Minutes (Message.createdAt message)
           (Message.createdAt prev)
  end.

Definition prevMessageAt (filtered : list Message.t) (index : nat)
  : option Message.t :=
  if (0 <? index)%nat then nth_error filtered (index - 1) else None.

Definition items (filtered : list Message.t) (searchQuery : string)
  : list ItemProps :=
  mapIndex
    (fun message index =>
       {| message := message;
          showAvatar :=
            showAvatarOf (prevMessageAt filtered index) message;
          searchQuery := searchQuery |})
    filtered.

Definition MessageList (messages : list Message.t)
  (searchQuery : string) : View :=
  let filtered := filteredMessages messages searchQuery in
  if (List.length filtered =? 0)%nat then
    if truthy (trim searchQuery) then NoMessagesFound searchQuery
    else BeginningOfConversation
  else Feed (items filtered searchQuery).

(** The feed as the assembler's contract has it: the displayed
    messages with their grouping decision. *)
Definition assemble (messages : list Message.t) (searchQuery : string)
  : list (Message.t * bool) :=
  map (fun it => (message it, showAvatar it))
    (items (filteredMessages messages searchQuery) searchQuery).
End Grouping.

(** What is on screen: the empty states, or for each displayed message
    its grouping decision and its rendered body. *)
Inductive Screen : Type :=
| ScreenNoMessagesFound (searchQuery : string)
| ScreenBeginningOfConversation
| ScreenFeed
    (rows : list (Message.t * bool * Completion MessageItem.Body)).

Definition display
  (nativeReplace : string -> string -> string -> Completion string)
  (view : View) : Screen :=
  match view with
  | NoMessagesFound q => ScreenNoMessagesFound q
  | BeginningOfConversation => ScreenBeginningOfConversation
  | Feed its =>
      ScreenFeed
        (map (fun it =>
                (message it, showAvatar it,
                 MessageItem.renderBody nativeReplace (message it)
                   (searchQuery it)))
           its)
  end.

End MessageList.

(** ** ChatArea: the conversation controller *)

Module ChatArea.

(** [setMessages(prev => prev.filter(msg => msg.id !== messageId))] *)
Definition handleMessageDeleted (messageId : string) : Eff.M unit :=
  Eff.modify (fun w =>
    World.withChat
      {| World.messages :=
           filter (fun msg => negb (Message.id msg =? messageId))
             (World.messages (World.chat w));
         World.chatLoading := World.chatLoading (World.chat w);
         World.searchQuery := World.searchQuery (World.chat w) |} w).

(** The delete confirmation as it is wired in the component tree:
    [ChatArea] hands [handleMessageDeleted] to [MessageList], which hands
    it to every [MessageItem]. *)
Definition deleteConfirmed (message : Message.t) : Eff.M unit :=
  MessageItem.confirmDelete message (Some handleMessageDeleted).

End ChatArea.

(** ** App: workspace navigation and the first-login bootstrap *)

Module App.
Import Js.

(** [!x] for a cell holding a string or [null]. *)
Definition falsy (x : option string) : bool :=
  match x with
  | None => true
  | Some s => negb (truthy s)
  end.

Definition setGroups (x : list Group.t) : Eff.M unit :=
  Eff.modify (fun w =>
    let a := World.app w in
    World.withApp
      {| World.user := World.user a; World.loading := World.loading a;
         World.groups := x; World.channels := World.channels a;
         World.activeGroup := World.activeGroup a;
         World.activeChannel := World.activeChannel a;
         World.isAIOpen := World.isAIOpen a |} w).

Definition setChannels (x : list Channel.t) : Eff.M unit :=
  Eff.modify (fun w =>
    let a := World.app w in
    World.withApp
      {| World.user := World.user a; World.loading := World.loading a;
         World.groups := World.groups a; World.channels := x;
         World.activeGroup := World.activeGroup a;
         World.activeChannel := World.activeChannel a;
         World.isAIOpen := World.isAIOpen a |} w).

Definition setActiveGroup (x : option string) : Eff.M unit :=
  Eff.modify (fun w =>
    let a := World.app w in
    World.withApp
      {| World.user := World.user a; World.loading := World.loading a;
         World.groups := World.groups a; World.channels := World.channels a;
         World.activeGroup := x;
         World.activeChannel := World.activeChannel a;
         World.isAIOpen := World.isAIOpen a |} w).

Definition setActiveChannel (x : option string) : Eff.M unit :=
  Eff.modify (fun w =>
    let a := World.app w in
    World.withApp
      {| World.user := World.user a; World.loading := World.loading a;
         World.groups := World.groups a; World.channels := World.channels a;
         World.activeGroup := World.activeGroup a;
         World.activeChannel := x;
         World.isAIOpen := World.isAIOpen a |} w).

Definition setUser (x : option User.t) : Eff.M unit :=
  Eff.modify (fun w =>
    let a := World.app w in
    World.withApp
      {| World.user := x; World.loading := World.loading a;
         World.groups := World.groups a; World.channels := World.channels a;
         World.activeGroup := World.activeGroup a;
         World.activeChannel := World.activeChannel a;
         World.isAIOpen := World.isAIOpen a |} w).

Definition setLoading (x : bool) : Eff.M unit :=
  Eff.modify (fun w =>
    let a := World.app w in
    World.withApp
      {| World.user := World.user a; World.loading := x;
         World.groups := World.groups a; World.channels := World.channels a;
         World.activeGroup := World.activeGroup a;
         World.activeChannel := World.activeChannel a;
         World.isAIOpen := World.isAIOpen a |} w).

(** [ChatArea] is part of what [App] renders unless [loading] is set or
    there is no user: the two early returns of [App]. *)
Definition showsChat (a : World.AppState) : bool :=
  negb (World.loading a)
  && match World.user a with
     | Some _ => true
     | None => false
     end.

(** The values the cells of [ChatArea] and of a [MessageItem] start
    from when the component is mounted. *)
Definition initialChat : World.ChatState :=
  {| World.messages := []; World.chatLoading := false;
     World.searchQuery := EmptyString |}.

Definition initialItem : World.ItemState :=
  {| World.isHovered := false; World.showDeleteDialog := false;
     World.isDeleting := false |}.

(** The render that follows a change of [user] or [loading], [before]
    being the state of the render before it.  Unless [ChatArea] is
    rendered in both, React has unmounted it with its items, or mounts
    it anew: the cells it had are discarded, and are held here at the
    values a mount starts from. *)
Definition remountChat (before : World.AppState) : Eff.M unit :=
  Eff.modify (fun w =>
    if showsChat before && showsChat (World.app w) then w
    else World.withItem initialItem (World.withChat initialChat w)).

(** The loop over [groupIds] with its inner [try]/[catch]. *)
Fixpoint fetchGroups (groupIds : list string) (groupsData : list Group.t)
  : Eff.M (list Group.t) :=
  match groupIds with
  | [] => Eff.ret groupsData
  | groupId :: rest =>
      (groupsData' <-
         Eff.tryCatch
           (group <- Eff.await (Remote.groups_list groupId 1) ;;
            match group with
            | g :: _ => Eff.ret (groupsData ++ [g])
            | [] => Eff.ret groupsData
            end)
           (fun error =>
              Eff.consoleWrite
                ("Failed to fetch group " ++ groupId ++ ": " ++ error) ;;
              Eff.ret groupsData) ;;
       fetchGroups rest groupsData')%eff
  end.

Section WithDate.
(** [s => new Date(s).getTime()], [None] for [NaN]. *)
Variable getTime : string -> option Z.

(** The comparator of [groupsData.sort]: is
    [getTime(b.createdAt) - getTime(a.createdAt)] positive?  A [NaN]
    difference counts as zero. *)
Definition sortsAfter (a b : Group.t) : bool :=
  match getTime (Group.createdAt b), getTime (Group.createdAt a) with
  | Some tb, Some ta => (0 <? tb - ta)%Z
  | _, _ => false
  end.

Fixpoint insertGroup (x : Group.t) (sorted : list Group.t) : list Group.t :=
  match sorted with
  | [] => [x]
  | y :: sorted' =>
      if sortsAfter x y then y :: insertGroup x sorted' else x :: sorted
  end.

(** [Array.prototype.sort] is stable: newest first, ties in the order
    they had. *)
Definition sortGroups (l : list Group.t) : list Group.t :=
  fold_right insertGroup [] l.

(** [loadGroups] as the effect's closure has it: [user] and
    [activeGroup] are the values of the render the effect belongs to. *)
Definition loadGroups (user : User.t) (activeGroup : option string)
  : Eff.M unit :=
  Eff.tryCatch
    (userGroups <- Eff.await (Remote.groupMembers_list (User.id user)) ;;
     if (0 <? List.length userGroups)%nat then
       (let groupIds := map GroupMember.groupId userGroups in
        fetched <- fetchGroups groupIds [] ;;
        let groupsData := sortGroups fetched in
        setGroups groupsData ;;
        match groupsData with
        | g :: _ =>
            if falsy activeGroup then setActiveGroup (Some (Group.id g))
            else Eff.ret tt
        | [] => Eff.ret tt
        end)
     else
       (now1 <- Eff.dateNow ;;
        defaultGroup <-
          Eff.await
            (Remote.groups_create
               {| Group.id := "group_" ++ numberToString now1;
                  Group.name := "General";
                  Group.description := Some "Default workspace";
                  Group.createdBy := User.id user;
                  Group.createdAt := EmptyString |}) ;;
        now2 <- Eff.dateNow ;;
        Eff.await
          (Remote.groupMembers_create
             {| GroupMember.id := "member_" ++ numberToString now2;
                GroupMember.groupId := Group.id defaultGroup;
                GroupMember.userId := User.id user;
                GroupMember.role := "admin";
                GroupMember.joinedAt := EmptyString |}) ;;
        now3 <- Eff.dateNow ;;
        defaultChannel <-
          Eff.await
            (Remote.channels_create
               {| Channel.id := "channel_" ++ numberToString now3;
                  Channel.groupId := Group.id defaultGroup;
                  Channel.name := "general";
                  Channel.description := Some "General discussion";
                  Channel.isPrivate := false;
                  Channel.createdBy := User.id user;
                  Channel.createdAt := EmptyString |}) ;;
        setGroups [defaultGroup] ;;
        setChannels [defaultChannel] ;;
        setActiveGroup (Some (Group.id defaultGroup)) ;;
        setActiveChannel (Some (Channel.id defaultChannel))))%eff
    (fun error => Eff.consoleWrite ("Error loading groups: " ++ error)).

(** [loadChannels] with the [activeGroup] and [activeChannel] of its
    render. *)
Definition loadChannels (activeGroup : string) (activeChannel : option string)
  : Eff.M unit :=
  Eff.tryCatch
    (channelsData <- Eff.await (Remote.channels_list activeGroup) ;;
     setChannels channelsData ;;
     match channelsData with
     | c :: _ =>
         if falsy activeChannel then setActiveChannel (Some (Channel.id c))
         else Eff.ret tt
     | [] => Eff.ret tt
     end)%eff
    (fun error => Eff.consoleWrite ("Error loading channels: " ++ error)).

(** The two effects of [App] for the render showing state [a]. *)
Definition groupsEffect (a : World.AppState) : Eff.M unit :=
  match World.user a with
  | Some u =>
      if truthy (User.id u) then loadGroups u (World.activeGroup a)
      else Eff.ret tt
  | None => Eff.ret tt
  end.

Definition channelsEffect (a : World.AppState) : Eff.M unit :=
  match World.activeGroup a with
  | Some g =>
      if truthy g then loadChannels g (World.activeChannel a)
      else Eff.ret tt
  | None => Eff.ret tt
  end.

(** Dependency arrays: [[user?.id, activeGroup]] and
    [[activeGroup, activeChannel]]. *)
Definition Deps : Type := (option string * option string)%type.

Definition groupsDeps (a : World.AppState) : Deps :=
  (option_map User.id (World.user a), World.activeGroup a).

Definition channelsDeps (a : World.AppState) : Deps :=
  (World.activeGroup a, World.activeChannel a).

Definition sameCell (x y : option string) : bool :=
  match x, y with
  | None, None => true
  | Some s, Some t => s =? t
  | _, _ => false
  end.

Definition sameDeps (x y : Deps) : bool :=
  sameCell (fst x) (fst y) && sameCell (snd x) (snd y).

(** The dependencies each effect last ran with. *)
Record Memo : Type := mkMemo
  { groupsMemo : Deps; channelsMemo : Deps }.

Definition memoOf (a : World.AppState) : Memo :=
  {| groupsMemo := groupsDeps a; channelsMemo := channelsDeps a |}.

(** Rendering until nothing changes: after a render, each effect whose
    dependencies differ from those it last ran with is run, in the order
    of declaration and to completion, and the state they leave is
    rendered again.  [fuel] bounds the number of renders. *)
Fixpoint commit (fuel : nat) (memo : Memo) (w : World.t) : World.t :=
  match fuel with
  | O => w
  | S fuel' =>
      let a := World.app w in
      let runGroups := negb (sameDeps (groupsMemo memo) (groupsDeps a)) in
      let runChannels :=
        negb (sameDeps (channelsMemo memo) (channelsDeps a)) in
      if negb runGroups && negb runChannels then w
      else
        let w1 := if runGroups then Eff.exec (groupsEffect a) w else w in
        let w2 :=
          if runChannels then Eff.exec (channelsEffect a) w1 else w1 in
        commit fuel' (memoOf a) w2
  end.

(** The auth subscription callback, [setUser(state.user)] and
    [setLoading(state.isLoading)], with the render it causes. *)
Definition authChanged (user : option User.t) (isLoading : bool)
  : Eff.M unit :=
  fun w =>
    (setUser user ;; setLoading isLoading ;;
     remountChat (World.app w))%eff w.

(** The callback followed by the effects and renders it causes; the
    application was at rest in the state it is called in. *)
Definition onAuthStateChanged (fuel : nat) (user : option User.t)
  (isLoading : bool) (w : World.t) : World.t :=
  commit fuel (memoOf (World.app w)) (Eff.exec (authChanged user isLoading) w).

End WithDate.

End App.

(** ** MessageInput: the composer *)

Module MessageInput.
Import Js.

Record State : Type := mkState
  { message : string;
    isPreviewMode : bool;
    isExpanded : bool }.

Section Composer.
(** The environment the send callback of the parent acts on. *)
Context {Env : Type}.
Variable onSendMessage : string -> Env -> Env.

Definition handleSend (st : State) (env : Env) : State * Env :=
  if negb (truthy (trim (message st))) then (st, env)
  else
    ({| message := EmptyString;
        isPreviewMode := false;
        isExpanded := false |},
     onSendMessage (trim (message st)) env).

(** [handleKeyDown] for a key event [(key, shiftKey)]. *)
Definition handleKeyDown (key : string) (shiftKey : bool) (st : State)
  (env : Env) : State * Env :=
  let '(st1, env1) :=
    if (key =? "Enter") && negb shiftKey then handleSend st env
    else (st, env) in
  if (key =? "Enter") && shiftKey then
    ({| message := message st1;
        isPreviewMode := isPreviewMode st1;
        isExpanded := true |}, env1)
  else (st1, env1).
End Composer.

(** The click handler of the preview button:
    [setIsPreviewMode(!isPreviewMode)]. *)
Definition togglePreview (st : State) : State :=
  {| message := message st;
     isPreviewMode := negb (isPreviewMode st);
     isExpanded := isExpanded st |}.

(** [onChange] and [onFocus] of the text area. *)
Definition handleChange (value : string) (st : State) : State :=
  {| message := value;
     isPreviewMode := isPreviewMode st;
     isExpanded := isExpanded st |}.

Definition handleFocus (st : State) : State :=
  {| message := message st;
     isPreviewMode := isPreviewMode st;
     isExpanded := true |}.

Fixpoint iterate {A : Type} (n : nat) (f : A -> A) (a : A) : A :=
  match n with
  | O => a
  | S n' => iterate n' f (f a)
  end.

End MessageInput.

(** ** The properties, in the words of the specification *)

Module Spec.
Import Js.

(** [mid] and [term] are the same text up to the case of letters. *)
Definition ciEqual (mid term : string) : Prop :=
  toLowerCase mid = toLowerCase term.

(** [term] occurs in [body] as a case-insensitive substring. *)
Definition ciOccurs (term body : string) : Prop :=
  exists pre mid post : string,
    body = (pre ++ mid ++ post)%string /\ ciEqual mid term.

(** [term] occurs in [body] at offset [String.length pre]. *)
Definition ciOccursAt (term pre body : string) : Prop :=
  exists mid post : string,
    body = (pre ++ mid ++ post)%string /\ ciEqual mid term.

(** [out] is exactly the subsequence of [l] made of the elements that
    satisfy [P], in the order of [l]. *)
Inductive Selected {A : Type} (P : A -> Prop) : list A -> list A -> Prop :=
| Selected_nil : Selected P [] []
| Selected_keep x l out :
    P x -> Selected P l out -> Selected P (x :: l) (x :: out)
| Selected_drop x l out :
    ~ P x -> Selected P l out -> Selected P (x :: l) out.

(** [out] is [body] with the occurrences of [term] wrapped in the
    highlight marker, found from left to right, each search starting
    where the previous occurrence ended. *)
Inductive Highlighted (term : string) : string -> string -> Prop :=
| Highlighted_none body :
    ~ ciOccurs term body -> Highlighted term body body
| Highlighted_hit pre mid rest out :
    ciEqual mid term ->
    (forall pre', ciOccursAt term pre' (pre ++ mid ++ rest)%string ->
                  String.length pre <= String.length pre') ->
    Highlighted term rest out ->
    Highlighted term (pre ++ mid ++ rest)%string
      (pre ++ MessageItem.markOpen ++ mid ++ MessageItem.markClose
       ++ out)%string.

(** The next request to the remote data client is rejected. *)
Definition nextRequestRejected (db : Remote.Db) : bool :=
  match Remote.faults db with
  | true :: _ => true
  | _ => false
  end.

(** The tables of the store, without the record of coming faults. *)
Definition sameTables (x y : Remote.Db) : Prop :=
  Remote.groups x = Remote.groups y
  /\ Remote.groupMembers x = Remote.groupMembers y
  /\ Remote.channels x = Remote.channels y
  /\ Remote.messages x = Remote.messages y.

(** The workspace memberships of [userId] in the store. *)
Definition membershipsOf (userId : string) (db : Remote.Db)
  : list GroupMember.t :=
  filter (fun gm => GroupMember.userId gm =? userId)
    (Remote.groupMembers db).

(** The signed-in user [u] has a workspace, a workspace and a channel
    are selected, and the requests to come are answered. *)
Definition settledFor (u : User.t) (w : World.t) : Prop :=
  World.user (World.app w) = Some u
  /\ membershipsOf (User.id u) (World.db w) <> []
  /\ App.falsy (World.activeGroup (World.app w)) = false
  /\ App.falsy (World.activeChannel (World.app w)) = false
  /\ Remote.faults (World.db w) = [].

(** [w'] has the store, the user and the selections of [w]. *)
Definition sameSelection (w' w : World.t) : Prop :=
  World.db w' = World.db w
  /\ World.user (World.app w') = World.user (World.app w)
  /\ World.activeGroup (World.app w') = World.activeGroup (World.app w)
  /\ World.activeChannel (World.app w') = World.activeChannel (World.app w).

(** [w'] differs from [w] at most in the record of coming faults, the
    console and the clock. *)
Definition quiet (w' w : World.t) : Prop :=
  sameTables (World.db w') (World.db w) /\ World.app w' = World.app w.

(** Every table of [db'] is the table of [db] with at most one record
    added at its end; no message is touched. *)
Definition grownByAtMostOne (db' db : Remote.Db) : Prop :=
  exists gs ms cs,
    Remote.groups db' = Remote.groups db ++ gs
    /\ Remote.groupMembers db' = Remote.groupMembers db ++ ms
    /\ Remote.channels db' = Remote.channels db ++ cs
    /\ Remote.messages db' = Remote.messages db
    /\ List.length gs <= 1 /\ List.length ms <= 1 /\ List.length cs <= 1.

End Spec.

(** ** Sample data *)

Module Sample.
Import Js.

Definition msg (id userId content createdAt : string) : Message.t :=
  {| Message.id := id; Message.channelId := "channel_1";
     Message.userId := userId; Message.content := content;
     Message.messageType := "text"; Message.threadId := None;
     Message.replyCount := 0%Z; Message.createdAt := createdAt;
     Message.updatedAt := createdAt |}.

Definition m1 : Message.t :=
  msg "msg_1" "user_ada" "say hello world" "2024-03-01T10:00:00.000Z".
Definition m2 : Message.t :=
  msg "msg_2" "user_bob" "lunch?" "2024-03-01T10:01:00.000Z".
Definition m3 : Message.t :=
  msg "msg_3" "user_ada" "Hello again" "2024-03-01T10:02:00.000Z".
Definition m4 : Message.t :=
  msg "msg_4" "user_ada" "five minutes later" "2024-03-01T10:07:00.000Z".
Definition m5 : Message.t :=
  msg "msg_5" "user_ada" "and one millisecond" "2024-03-01T10:12:00.001Z".

Definition sticker : Message.t :=
  {| Message.id := "msg_6"; Message.channelId := "channel_1";
     Message.userId := "user_bob"; Message.content := "party";
     Message.messageType := "sticker"; Message.threadId := None;
     Message.replyCount := 0%Z;
     Message.createdAt := "2024-03-01T10:13:00.000Z";
     Message.updatedAt := "2024-03-01T10:13:00.000Z" |}.

(** An engine that rejects every pattern handed to it; the samples only
    use search terms of the literal fragment, which never reach it. *)
Definition rejectingEngine (source text template : string)
  : Completion string :=
  Throw ("SyntaxError: Invalid regular expression: /" ++ source ++ "/").

(** A send callback that records the content it is called with. *)
Definition recordCall (content : string) (calls : list string)
  : list string := calls ++ [content].

Definition ada : User.t :=
  {| User.id := "user_ada"; User.email := "ada@example.org";
     User.displayName := Some "Ada" |}.

Definition emptyDb : Remote.Db :=
  {| Remote.groups := []; Remote.groupMembers := [];
     Remote.channels := []; Remote.messages := [m1; m2; m3];
     Remote.faults := []; Remote.serverNow := "2024-03-01T10:00:00.000Z" |}.

Definition freshWorld : World.t :=
  {| World.db := emptyDb;
     World.clock := fun n => (1709287200000 + Z.of_nat n)%Z;
     World.ticks := 0;
     World.console := [];
     World.toasts := [];
     World.app :=
       {| World.user := None; World.loading := true; World.groups := [];
          World.channels := []; World.activeGroup := None;
          World.activeChannel := None; World.isAIOpen := false |};
     World.chat :=
       {| World.messages := [m1; m2; m3]; World.chatLoading := false;
          World.searchQuery := EmptyString |};
     World.item :=
       {| World.isHovered := true; World.showDeleteDialog := true;
          World.isDeleting := false |} |}.

(** The same world with the next request rejected. *)
Definition offlineWorld : World.t :=
  World.withDb (Remote.withFaults [true] emptyDb) freshWorld.

End Sample.

(** ** Further built-ins *)

Module JsMore.
Import Js.

(** The line feed, [\n]. *)
Definition newline : string := String "010"%char EmptyString.

(** [s.substring(a, b)]: the two indices are swapped when [a > b], and
    an index past the end stands for the end. *)
Definition substringBetween (s : string) (a b : nat) : string :=
  substring (Nat.min a b) (Nat.max a b - Nat.min a b) s.

(** [s.substring(a)] *)
Definition substringFrom (s : string) (a : nat) : string :=
  substring a (String.length s - a) s.

(** [s.slice(-n)] for a positive [n]: the last [n] code units, or all of
    [s] when it is shorter. *)
Definition sliceLast (s : string) (n : nat) : string :=
  substring (String.length s - n) n s.

(** [a || b] on strings. *)
Definition orString (a b : string) : string :=
  if truthy a then a else b.

(** [a || b] where [a] may be [undefined]. *)
Definition orElse (a : option string) (b : string) : string :=
  match a with
  | Some s => orString s b
  | None => b
  end.

(** [s || undefined] *)
Definition orUndefined (s : string) : option string :=
  if truthy s then Some s else None.

(** [s.replace(/\s+/g, '-')]: every maximal run of white space becomes
    one hyphen; [inRun] tells that the previous code unit was white
    space. *)
Fixpoint replaceWhitespaceRuns (inRun : bool) (s : string) : string :=
  match s with
  | EmptyString => EmptyString
  | String c s' =>
      if isWhiteSpace c then
        if inRun then replaceWhitespaceRuns true s'
        else String "-" (replaceWhitespaceRuns true s')
      else String c (replaceWhitespaceRuns false s')
  end.

End JsMore.

(** ** Further requests to the remote data client *)

Module RemoteMore.
Import Js.

(** Modelled from the spec: the backend's answer (spec 6, [list]) to
    [channels.list({ where: { id }, limit })]: the first [limit] channels
    with the identifier, in stored order. *)
Definition channels_list_by_id (id : string) (limit : nat)
  : Remote.Db -> Completion (list Channel.t) * Remote.Db :=
  Remote.request (fun db =>
    (firstn limit (filter (fun c => Channel.id c =? id) (Remote.channels db)),
     db)).

(** Modelled from the spec: the [limit] clause of a [list] that is
    ordered by creation time; the backend that answers it is outside
    the repository.  By spec 4.4 the request of [ChatArea] answers "up
    to 100 most-recent-ascending messages": of the records in ascending
    order, the [limit] most recent ones are kept, oldest first. *)
Definition mostRecent {A : Type} (limit : nat) (ascending : list A)
  : list A :=
  skipn (List.length ascending - limit) ascending.

(** Modelled from the spec: the backend's answer (spec 4.4 and 6) to
    [messages.list({ where: { channelId }, orderBy: { createdAt: 'asc' },
    limit })]: up to [limit] most recent messages of the channel, in
    ascending order of creation. *)
Definition messages_list (channelId : string) (limit : nat)
  : Remote.Db -> Completion (list Message.t) * Remote.Db :=
  Remote.request (fun db =>
    (mostRecent limit
       (Remote.orderAsc Message.createdAt
          (filter (fun m => Message.channelId m =? channelId)
             (Remote.messages db))),
     db)).

(** Modelled from the spec: the backend's answer (spec 6, [create]) to
    [messages.create(record)]: the record is stored at the end of the
    table and comes back with its creation and update time. *)
Definition messages_create (record : Message.t)
  : Remote.Db -> Completion Message.t * Remote.Db :=
  Remote.request (fun db =>
    let created :=
      {| Message.id := Message.id record;
         Message.channelId := Message.channelId record;
         Message.userId := Message.userId record;
         Message.content := Message.content record;
         Message.messageType := Message.messageType record;
         Message.threadId := Message.threadId record;
         Message.replyCount := Message.replyCount record;
         Message.createdAt := Remote.serverNow db;
         Message.updatedAt := Remote.serverNow db |} in
    (created,
     {| Remote.groups := Remote.groups db;
        Remote.groupMembers := Remote.groupMembers db;
        Remote.channels := Remote.channels db;
        Remote.messages := Remote.messages db ++ [created];
        Remote.faults := Remote.faults db;
        Remote.serverNow := Remote.serverNow db |})).

End RemoteMore.

(** ** Handlers of components with state cells of their own

    The state is the pair of the component's cells and the world. *)

Module Local.
Import Js.

Section WithCells.
Context {L : Type}.

Definition M (A : Type) : Type :=
  L * World.t -> Completion A * (L * World.t).

Definition ret {A : Type} (a : A) : M A := fun s => (Normal a, s).

Definition bind {A B : Type} (m : M A) (k : A -> M B) : M B :=
  fun s =>
    match m s with
    | (Normal a, s') => k a s'
    | (Throw e, s') => (Throw e, s')
    end.

Definition tryCatch {A : Type} (body : M A) (handler : string -> M A)
  : M A :=
  fun s =>
    match body s with
    | (Normal a, s') => (Normal a, s')
    | (Throw e, s') => handler e s'
    end.

Definition tryFinally {A : Type} (body : M A) (final : M unit) : M A :=
  fun s =>
    match body s with
    | (r, s') =>
        match final s' with
        | (Normal _, s'') => (r, s'')
        | (Throw e, s'') => (Throw e, s'')
        end
    end.

(** A write to the cells of the component. *)
Definition modify (f : L -> L) : M unit :=
  fun s => (Normal tt, (f (fst s), snd s)).

(** An effect on the world. *)
Definition lift {A : Type} (m : Eff.M A) : M A :=
  fun s =>
    match m (snd s) with
    | (r, w') => (r, (fst s, w'))
    end.

(** The cells as the handler's closure reads them. *)
Definition get : M L := fun s => (Normal (fst s), s).

(** The outcome of a call that does not touch the state. *)
Definition fromCompletion {A : Type} (c : Completion A) : M A :=
  fun s => (c, s).

Definition exec {A : Type} (m : M A) (s : L * World.t) : L * World.t :=
  snd (m s).

End WithCells.

Arguments M L A : clear implicits.

End Local.

Declare Scope local_scope.
Delimit Scope local_scope with local.
Notation "x <- m ;; k" := (Local.bind m (fun x => k))
  (at level 61, m at next level, right associativity) : local_scope.
Notation "m ;; k" := (Local.bind m (fun _ => k))
  (at level 61, right associativity) : local_scope.

(** ** MessageItem: the author label *)

Module Author.
Import Js JsMore.

(** [getUserDisplayName] *)
Definition getUserDisplayName (currentUser : User.t) (userId : string)
  : string :=
  if userId =? User.id currentUser then
    orElse (User.displayName currentUser) (User.email currentUser)
  else "User " ++ sliceLast userId 4.

(** [isOwnMessage] *)
Definition isOwnMessage (currentUser : User.t) (message : Message.t)
  : bool :=
  Message.userId message =? User.id currentUser.

End Author.

(** ** MessageItem: what one item shows *)

Module ItemView.
Import Js JsMore.

(** What one [MessageItem] shows: the avatar column (the initials, or
    the time of day when the header is hidden), the header (author label
    and age) when the avatar is shown, the body, the thread line, and
    whether the action bar and the owner's menu entries are there. *)
Record View : Type := mkView
  { gutter : string;
    header : option (string * string);
    body : MessageItem.Body;
    thread : option string;
    actions : bool;
    ownerEntries : bool }.

Section Render.
Variable nativeReplace : string -> string -> string -> Completion string.
(** [s => new Date(s).getTime()], [None] for [NaN]. *)
Variable getTime : string -> option Z.
(** What date-fns and the host answer for a valid date, and the
    upper-casing of the host, which leaves the range of code units
    below 256: the wording of the age of a date, of its time of day,
    and [String.prototype.toUpperCase]. *)
Variable distanceToNow : Z -> string.
Variable toLocaleTimeString : Z -> string.
Variable toUpperCase : string -> string.

(** [formatDistanceToNow(messageTime, { addSuffix: true })]: date-fns
    raises a [RangeError] on an invalid date. *)
Definition formatDistanceToNow (messageTime : option Z)
  : Completion string :=
  match messageTime with
  | Some t => Normal (distanceToNow t)
  | None => Throw "RangeError: Invalid time value"
  end.

(** [messageTime.toLocaleTimeString([], { hour, minute })] *)
Definition timeOfDay (messageTime : option Z) : string :=
  match messageTime with
  | Some t => toLocaleTimeString t
  | None => "Invalid Date"
  end.

(** [s[0]], [None] for [undefined]. *)
Definition firstUnit (s : string) : option string :=
  match s with
  | EmptyString => None
  | String c _ => Some (String c EmptyString)
  end.

(** [getUserInitials]: [currentUser.displayName?.[0] ||
    currentUser.email[0].toUpperCase()] reads [toUpperCase] of
    [undefined] when there is no display name and the address is
    empty. *)
Definition getUserInitials (currentUser : User.t) (userId : string)
  : Completion string :=
  if userId =? User.id currentUser then
    match
      match User.displayName currentUser with
      | Some name => firstUnit name
      | None => None
      end
    with
    | Some initial => Normal initial
    | None =>
        match firstUnit (User.email currentUser) with
        | Some initial => Normal (toUpperCase initial)
        | None =>
            Throw
              "TypeError: Cannot read properties of undefined (reading 'toUpperCase')"
        end
    end
  else Normal (toUpperCase (sliceLast userId 2)).

(** The component function of [MessageItem] for the props [message],
    [currentUser], [showAvatar] and [searchQuery] and the cell
    [isHovered]: the age of the message is worded first, then the JSX
    is built from the avatar column to the body. *)
Definition render (currentUser : User.t) (isHovered showAvatar : bool)
  (message : Message.t) (searchQuery : string) : Completion View :=
  let messageTime := getTime (Message.createdAt message) in
  match formatDistanceToNow messageTime with
  | Throw error => Throw error
  | Normal timeAgo =>
      match
        (if showAvatar
         then getUserInitials currentUser (Message.userId message)
         else Normal (timeOfDay messageTime))
      with
      | Throw error => Throw error
      | Normal column =>
          match MessageItem.renderBody nativeReplace message searchQuery with
          | Throw error => Throw error
          | Normal content =>
              Normal
                {| gutter := column;
                   header :=
                     if showAvatar
                     then Some (Author.getUserDisplayName currentUser
                                  (Message.userId message), timeAgo)
                     else None;
                   body := content;
                   thread :=
                     if (0 <? Message.replyCount message)%Z
                     then Some (numberToString (Message.replyCount message)
                                ++ " "
                                ++ (if (Message.replyCount message =? 1)%Z
                                    then "reply" else "replies"))%string
                     else None;
                   actions :=
                     isHovered || Author.isOwnMessage currentUser message;
                   ownerEntries := Author.isOwnMessage currentUser message |}
          end
      end
  end.

End Render.

End ItemView.

(** ** MessageInput: the formatting commands *)

Module Toolbar.
Import Js JsMore.

(** The selection of the text area the ref points to. *)
Record Textarea : Type := mkTextarea
  { selectionStart : nat; selectionEnd : nat }.

(** The text area is rendered unless the composer is expanded and in
    preview mode; the ref is [null] otherwise. *)
Definition textareaRef (st : MessageInput.State) (selection : Textarea)
  : option Textarea :=
  if MessageInput.isExpanded st && MessageInput.isPreviewMode st
  then None
  else Some selection.

(** [insertMarkdown]: the new state, and the cursor position handed to
    the deferred [setSelectionRange] when the draft was rewritten. *)
Definition insertMarkdown (textarea : option Textarea)
  (syntax placeholder : string) (st : MessageInput.State)
  : MessageInput.State * option nat :=
  match textarea with
  | None => (st, None)
  | Some area =>
      let message := MessageInput.message st in
      let start := selectionStart area in
      let end_ := selectionEnd area in
      let selectedText := substringBetween message start end_ in
      let inner := orString selectedText placeholder in
      let chosen : option (string * nat) :=
        if syntax =? "bold" then
          Some (("**" ++ inner ++ "**")%string, start + 2 + String.length inner)
        else if syntax =? "italic" then
          Some (("*" ++ inner ++ "*")%string, start + 1 + String.length inner)
        else if syntax =? "code" then
          if includes selectedText newline then
            Some (("```" ++ newline ++ inner ++ newline ++ "```")%string,
                  start + 4 + String.length inner)
          else
            Some (("`" ++ inner ++ "`")%string, start + 1 + String.length inner)
        else if syntax =? "list" then
          Some (("- " ++ inner)%string, start + 2 + String.length inner)
        else None in
      match chosen with
      | None => (st, None)
      | Some (newText, cursorPos) =>
          ({| MessageInput.message :=
                (substringBetween message 0 start ++ newText
                 ++ substringFrom message end_)%string;
              MessageInput.isPreviewMode := MessageInput.isPreviewMode st;
              MessageInput.isExpanded := MessageInput.isExpanded st |},
           Some cursorPos)
      end
  end.

(** The four buttons of the toolbar. *)
Definition toolbar : list (string * string) :=
  [("bold", "bold text"); ("italic", "italic text"); ("code", "code");
   ("list", "list item")].

(** [disabled={!message.trim()}] of the send button. *)
Definition sendDisabled (st : MessageInput.State) : bool :=
  negb (truthy (trim (MessageInput.message st))).

End Toolbar.

(** ** ChatArea: sending and loading *)

Module Conversation.
Import Js JsMore.

Definition setMessages (f : list Message.t -> list Message.t) : Eff.M unit :=
  Eff.modify (fun w =>
    World.withChat
      {| World.messages := f (World.messages (World.chat w));
         World.chatLoading := World.chatLoading (World.chat w);
         World.searchQuery := World.searchQuery (World.chat w) |} w).

Definition setLoading (b : bool) : Eff.M unit :=
  Eff.modify (fun w =>
    World.withChat
      {| World.messages := World.messages (World.chat w);
         World.chatLoading := b;
         World.searchQuery := World.searchQuery (World.chat w) |} w).

(** [handleSendMessage] with the props [activeChannel] and [user];
    [random] is the value of
    [Math.random().toString(36).substr(2, 9)] at the call. *)
Definition handleSendMessage (activeChannel : option string) (user : User.t)
  (random : string) (content messageType : string) : Eff.M unit :=
  match activeChannel with
  | None => Eff.ret tt
  | Some channel =>
      if negb (truthy channel) || negb (truthy (trim content))
      then Eff.ret tt
      else
        Eff.tryCatch
          (now <- Eff.dateNow ;;
           newMessage <-
             Eff.await
               (RemoteMore.messages_create
                  {| Message.id :=
                       "msg_" ++ numberToString now ++ "_" ++ random;
                     Message.channelId := channel;
                     Message.userId := User.id user;
                     Message.content := trim content;
                     Message.messageType := messageType;
                     Message.threadId := None;
                     Message.replyCount := 0%Z;
                     Message.createdAt := EmptyString;
                     Message.updatedAt := EmptyString |}) ;;
           setMessages (fun prev => prev ++ [newMessage]))%eff
          (fun error =>
             Eff.consoleWrite ("Error sending message: " ++ error))
  end.

(** The composer's callback as [ChatArea] wires it:
    [onSendMessage={handleSendMessage}], the message type left to its
    default. *)
Definition onSendMessage (activeChannel : option string) (user : User.t)
  (random : string) (content : string) (w : World.t) : World.t :=
  Eff.exec (handleSendMessage activeChannel user random content "text") w.

(** [loadChannelData] of the effect on [activeChannel]; the component's
    own cell is [channel]. *)
Definition loadChannelData (activeChannel : string)
  : Local.M (option Channel.t) unit :=
  (Local.lift (setLoading true) ;;
   Local.tryFinally
     (Local.tryCatch
        (channelData <-
           Local.lift
             (Eff.await (RemoteMore.channels_list_by_id activeChannel 1)) ;;
         match channelData with
         | c :: _ => Local.modify (fun _ => Some c)
         | [] => Local.ret tt
         end ;;
         messagesData <-
           Local.lift
             (Eff.await (RemoteMore.messages_list activeChannel 100)) ;;
         Local.lift (setMessages (fun _ => messagesData)))
        (fun error =>
           Local.lift
             (Eff.consoleWrite ("Error loading channel data: " ++ error))))
     (Local.lift (setLoading false)))%local.

(** The effect on [[activeChannel]]. *)
Definition channelEffect (activeChannel : option string)
  : Local.M (option Channel.t) unit :=
  match activeChannel with
  | Some channel =>
      if truthy channel then loadChannelData channel else Local.ret tt
  | None => Local.ret tt
  end.

End Conversation.

(** ** Sidebar *)

Module Sidebar.
Import Js JsMore.

(** [g.id === activeGroup], the right side being a string or [null]. *)
Definition isActive (id : string) (active : option string) : bool :=
  match active with
  | Some a => id =? a
  | None => false
  end.

(** [groups.find(g => g.id === activeGroup)] *)
Definition activeGroupData (groups : list Group.t)
  (activeGroup : option string) : option Group.t :=
  find (fun g => isActive (Group.id g) activeGroup) groups.

(** [channels.filter(c => c.groupId === activeGroup)] *)
Definition groupChannels (channels : list Channel.t)
  (activeGroup : option string) : list Channel.t :=
  filter (fun c => isActive (Channel.groupId c) activeGroup) channels.

(** [activeGroupData?.name || 'Select Workspace'] *)
Definition workspaceLabel (groups : list Group.t)
  (activeGroup : option string) : string :=
  orElse (option_map Group.name (activeGroupData groups activeGroup))
    "Select Workspace".

(** [user.displayName || user.email] *)
Definition userLabel (user : User.t) : string :=
  orElse (User.displayName user) (User.email user).

(** [onGroupSelect={setActiveGroup}] and
    [onChannelSelect={setActiveChannel}], followed by the renders they
    cause. *)
Definition onGroupSelect (getTime : string -> option Z) (fuel : nat)
  (groupId : string) (w : World.t) : World.t :=
  App.commit getTime fuel (App.memoOf (World.app w))
    (Eff.exec (App.setActiveGroup (Some groupId)) w).

Definition onChannelSelect (getTime : string -> option Z) (fuel : nat)
  (channelId : string) (w : World.t) : World.t :=
  App.commit getTime fuel (App.memoOf (World.app w))
    (Eff.exec (App.setActiveChannel (Some channelId)) w).

End Sidebar.

(** ** CreateChannelDialog *)

Module CreateChannelDialog.
Import Js JsMore.

(** The cells of the dialog; [open] is the cell of the parent behind the
    props [open] and [onOpenChange], and [reloaded] records the call of
    [window.location.reload()]. *)
Record State : Type := mk
  { name : string;
    description : string;
    isPrivate : bool;
    isLoading : bool;
    open : bool;
    reloaded : bool }.

Definition setName (x : string) : Local.M State unit :=
  Local.modify (fun d =>
    {| name := x; description := description d; isPrivate := isPrivate d;
       isLoading := isLoading d; open := open d; reloaded := reloaded d |}).

Definition setDescription (x : string) : Local.M State unit :=
  Local.modify (fun d =>
    {| name := name d; description := x; isPrivate := isPrivate d;
       isLoading := isLoading d; open := open d; reloaded := reloaded d |}).

Definition setIsPrivate (x : bool) : Local.M State unit :=
  Local.modify (fun d =>
    {| name := name d; description := description d; isPrivate := x;
       isLoading := isLoading d; open := open d; reloaded := reloaded d |}).

Definition setIsLoading (x : bool) : Local.M State unit :=
  Local.modify (fun d =>
    {| name := name d; description := description d;
       isPrivate := isPrivate d; isLoading := x; open := open d;
       reloaded := reloaded d |}).

Definition onOpenChange (x : bool) : Local.M State unit :=
  Local.modify (fun d =>
    {| name := name d; description := description d;
       isPrivate := isPrivate d; isLoading := isLoading d; open := x;
       reloaded := reloaded d |}).

Definition reload : Local.M State unit :=
  Local.modify (fun d =>
    {| name := name d; description := description d;
       isPrivate := isPrivate d; isLoading := isLoading d; open := open d;
       reloaded := true |}).

(** [name.trim().toLowerCase().replace(/\s+/g, '-')] *)
Definition channelName (name : string) : string :=
  replaceWhitespaceRuns false (toLowerCase (trim name)).

Definition createdToast (name : string) : Toast.t :=
  {| Toast.title := "Channel created";
     Toast.description :=
       "#" ++ channelName name ++ " has been created successfully.";
     Toast.variant := None |}.

Definition failedToast : Toast.t :=
  {| Toast.title := "Error";
     Toast.description := "Failed to create channel. Please try again.";
     Toast.variant := Some "destructive" |}.

(** [handleSubmit]; the flag [isPrivate] is sent as 1 or 0, read here as
    the boolean it stands for; [random] is the value of
    [Math.random().toString(36).substr(2, 9)] at the call. *)
Definition handleSubmit (activeGroup : option string) (user : User.t)
  (random : string) : Local.M State unit :=
  (d <- Local.get ;;
   match activeGroup with
   | None => Local.ret tt
   | Some group =>
       if negb (truthy (trim (name d))) || negb (truthy group)
       then Local.ret tt
       else
         setIsLoading true ;;
         Local.tryFinally
           (Local.tryCatch
              (now <- Local.lift Eff.dateNow ;;
               Local.lift
                 (Eff.await
                    (Remote.channels_create
                       {| Channel.id :=
                            "channel_" ++ numberToString now ++ "_"
                            ++ random;
                          Channel.groupId := group;
                          Channel.name := channelName (name d);
                          Channel.description :=
                            orUndefined (trim (description d));
                          Channel.isPrivate := isPrivate d;
                          Channel.createdBy := User.id user;
                          Channel.createdAt := EmptyString |})) ;;
               Local.lift (Eff.toast (createdToast (name d))) ;;
               setName EmptyString ;;
               setDescription EmptyString ;;
               setIsPrivate false ;;
               onOpenChange false ;;
               reload)
              (fun error =>
                 Local.lift
                   (Eff.consoleWrite ("Error creating channel: " ++ error)) ;;
                 Local.lift (Eff.toast failedToast)))
           (setIsLoading false)
   end)%local.

End CreateChannelDialog.

(** ** CreateWorkspaceDialog *)

Module CreateWorkspaceDialog.
Import Js JsMore.

Record State : Type := mk
  { name : string;
    description : string;
    isLoading : bool;
    open : bool;
    reloaded : bool }.

Definition setName (x : string) : Local.M State unit :=
  Local.modify (fun d =>
    {| name := x; description := description d; isLoading := isLoading d;
       open := open d; reloaded := reloaded d |}).

Definition setDescription (x : string) : Local.M State unit :=
  Local.modify (fun d =>
    {| name := name d; description := x; isLoading := isLoading d;
       open := open d; reloaded := reloaded d |}).

Definition setIsLoading (x : bool) : Local.M State unit :=
  Local.modify (fun d =>
    {| name := name d; description := description d; isLoading := x;
       open := open d; reloaded := reloaded d |}).

Definition onOpenChange (x : bool) : Local.M State unit :=
  Local.modify (fun d =>
    {| name := name d; description := description d;
       isLoading := isLoading d; open := x; reloaded := reloaded d |}).

Definition reload : Local.M State unit :=
  Local.modify (fun d =>
    {| name := name d; description := description d;
       isLoading := isLoading d; open := open d; reloaded := true |}).

Definition createdToast (name : string) : Toast.t :=
  {| Toast.title := "Workspace created";
     Toast.description :=
       trim name ++ " workspace has been created successfully.";
     Toast.variant := None |}.

Definition failedToast : Toast.t :=
  {| Toast.title := "Error";
     Toast.description := "Failed to create workspace. Please try again.";
     Toast.variant := Some "destructive" |}.

(** [handleSubmit]; [random1], [random2] and [random3] are the values
    of [Math.random().toString(36).substr(2, 9)] at the three calls, and
    [onWorkspaceCreated] is the optional callback prop. *)
Definition handleSubmit (user : User.t) (random1 random2 random3 : string)
  (onWorkspaceCreated : option (Local.M State unit))
  : Local.M State unit :=
  (d <- Local.get ;;
   if negb (truthy (trim (name d))) then Local.ret tt
   else
     setIsLoading true ;;
     Local.tryFinally
       (Local.tryCatch
          (now1 <- Local.lift Eff.dateNow ;;
           newGroup <-
             Local.lift
               (Eff.await
                  (Remote.groups_create
                     {| Group.id :=
                          "group_" ++ numberToString now1 ++ "_" ++ random1;
                        Group.name := trim (name d);
                        Group.description :=
                          orUndefined (trim (description d));
                        Group.createdBy := User.id user;
                        Group.createdAt := EmptyString |})) ;;
           now2 <- Local.lift Eff.dateNow ;;
           Local.lift
             (Eff.await
                (Remote.groupMembers_create
                   {| GroupMember.id :=
                        "member_" ++ numberToString now2 ++ "_" ++ random2;
                      GroupMember.groupId := Group.id newGroup;
                      GroupMember.userId := User.id user;
                      GroupMember.role := "admin";
                      GroupMember.joinedAt := EmptyString |})) ;;
           now3 <- Local.lift Eff.dateNow ;;
           Local.lift
             (Eff.await
                (Remote.channels_create
                   {| Channel.id :=
                        "channel_" ++ numberToString now3 ++ "_" ++ random3;
                      Channel.groupId := Group.id newGroup;
                      Channel.name := "general";
                      Channel.description := Some "General discussion";
                      Channel.isPrivate := false;
                      Channel.createdBy := User.id user;
                      Channel.createdAt := EmptyString |})) ;;
           Local.lift (Eff.toast (createdToast (name d))) ;;
           setName EmptyString ;;
           setDescription EmptyString ;;
           onOpenChange false ;;
           match onWorkspaceCreated with
           | Some callback => callback
           | None => Local.ret tt
           end ;;
           reload)
          (fun error =>
             Local.lift
               (Eff.consoleWrite ("Error creating workspace: " ++ error)) ;;
             Local.lift (Eff.toast failedToast)))
       (setIsLoading false))%local.

End CreateWorkspaceDialog.

(** ** AIAssistant: the side-panel conversation *)

Module AIAssistant.
Import Js JsMore.

Inductive Role : Type := user | assistant.

Record AIMessage : Type := mkMessage
  { id : string; role : Role; content : string; timestamp : Z }.

Record State : Type := mk
  { messages : list AIMessage; input : string; isLoading : bool }.

Definition QUICK_PROMPTS : list (string * string) :=
  [("Improve Message",
    "Help me improve this message to be more professional and clear:");
   ("Summarize", "Please summarize the key points from this conversation:");
   ("Code Review", "Review this code and suggest improvements:");
   ("Brainstorm", "Help me brainstorm ideas for:")].

Definition setMessages (f : list AIMessage -> list AIMessage)
  : Local.M State unit :=
  Local.modify (fun d =>
    {| messages := f (messages d); input := input d;
       isLoading := isLoading d |}).

Definition setInput (x : string) : Local.M State unit :=
  Local.modify (fun d =>
    {| messages := messages d; input := x; isLoading := isLoading d |}).

Definition setIsLoading (x : bool) : Local.M State unit :=
  Local.modify (fun d =>
    {| messages := messages d; input := input d; isLoading := x |}).

(** The eight blanks that indent the lines of the prompt. *)
Definition indent : string := "        ".

(** The prompt handed to [generateText]. *)
Definition prompt (u : User.t) (input : string) : string :=
  "You are a helpful AI assistant integrated into a Slack-like team collaboration platform. "
  ++ newline ++ indent
  ++ newline ++ indent ++ "User context:"
  ++ newline ++ indent ++ "- User: "
  ++ orElse (User.displayName u) (User.email u)
  ++ newline ++ indent
  ++ "- Platform: Team collaboration app with markdown support"
  ++ newline ++ indent
  ++ newline ++ indent ++ "User message: " ++ trim input
  ++ newline ++ indent
  ++ newline ++ indent
  ++ "Please provide a helpful, concise response. If the user is asking for help with writing, code, or content creation, provide specific actionable suggestions. Format your response using markdown when appropriate.".

Definition apology : string :=
  "Sorry, I encountered an error while processing your request. Please try again.".

Section WithModel.
(** [blink.ai.generateText({ prompt, maxTokens })]: the text of the
    response, or a rejection. *)
Variable generateText : string -> nat -> Completion string.

(** [handleSendMessage]; [new Date()] reads the clock as [Date.now()]
    does. *)
Definition handleSendMessage (u : User.t) : Local.M State unit :=
  (d <- Local.get ;;
   if negb (truthy (trim (input d))) || isLoading d then Local.ret tt
   else
     now1 <- Local.lift Eff.dateNow ;;
     time1 <- Local.lift Eff.dateNow ;;
     setMessages (fun prev =>
       prev ++ [{| id := numberToString now1; role := user;
                   content := trim (input d); timestamp := time1 |}]) ;;
     setInput EmptyString ;;
     setIsLoading true ;;
     Local.tryFinally
       (Local.tryCatch
          (response <-
             Local.fromCompletion (generateText (prompt u (input d)) 500) ;;
           now2 <- Local.lift Eff.dateNow ;;
           time2 <- Local.lift Eff.dateNow ;;
           setMessages (fun prev =>
             prev ++ [{| id := numberToString (now2 + 1); role := assistant;
                         content := response; timestamp := time2 |}]))
          (fun error =>
             Local.lift
               (Eff.consoleWrite ("Error getting AI response: " ++ error)) ;;
             now3 <- Local.lift Eff.dateNow ;;
             time3 <- Local.lift Eff.dateNow ;;
             setMessages (fun prev =>
               prev ++ [{| id := numberToString (now3 + 1);
                           role := assistant; content := apology;
                           timestamp := time3 |}])))
       (setIsLoading false))%local.

(** [handleKeyDown] for a key event [(key, shiftKey)]. *)
Definition handleKeyDown (u : User.t) (key : string) (shiftKey : bool)
  : Local.M State unit :=
  if (key =? "Enter") && negb shiftKey then handleSendMessage u
  else Local.ret tt.

End WithModel.

(** [handleQuickPrompt] *)
Definition handleQuickPrompt (prompt : string) : Local.M State unit :=
  setInput (prompt ++ " ").

End AIAssistant.

(** ** Further properties, in words *)

Module SpecMore.
Import Js.

(** [s] is made of white space only. *)
Fixpoint isBlank (s : string) : bool :=
  match s with
  | EmptyString => true
  | String c s' => isWhiteSpace c && isBlank s'
  end.

(** [s] holds no white space. *)
Fixpoint noWhiteSpace (s : string) : bool :=
  match s with
  | EmptyString => true
  | String c s' => negb (isWhiteSpace c) && noWhiteSpace s'
  end.

(** [a] was created no later than [b], by the text of the two times. *)
Definition createdNoLater (a b : Message.t) : Prop :=
  (Message.createdAt a <=? Message.createdAt b)%string = true.

(** The same for two channels. *)
Definition channelCreatedNoLater (a b : Channel.t) : Prop :=
  (Channel.createdAt a <=? Channel.createdAt b)%string = true.

(** The viewer has a display name or an e-mail address. *)
Definition hasName (u : User.t) : bool :=
  truthy (JsMore.orElse (User.displayName u) (User.email u)).

(** [s] does not start with white space. *)
Definition startsClean (s : string) : Prop :=
  match s with
  | EmptyString => True
  | String c _ => isWhiteSpace c = false
  end.

(** [a] was created at the time of [b] or later, both times being
    known. *)
Definition notOlder (getTime : string -> option Z) (a b : Group.t) : Prop :=
  exists ta tb,
    getTime (Group.createdAt a) = Some ta
    /\ getTime (Group.createdAt b) = Some tb
    /\ (tb <= ta)%Z.

(** A side-panel conversation: a first message of the assistant, then
    pairs of a user message and the assistant's answer. *)
Inductive Dialogue : list AIAssistant.AIMessage -> Prop :=
| Dialogue_greeting m :
    AIAssistant.role m = AIAssistant.assistant -> Dialogue [m]
| Dialogue_exchange l question answer :
    Dialogue l ->
    AIAssistant.role question = AIAssistant.user ->
    AIAssistant.role answer = AIAssistant.assistant ->
    Dialogue (l ++ [question; answer]).

(** The first two requests to come: is the first, is the second
    rejected? *)
Definition secondRequestRejected (db : Remote.Db) : bool :=
  match Remote.faults db with
  | false :: true :: _ => true
  | _ => false
  end.

(** The rank, from 0, of the first request to come that is rejected;
    [None] when every request to come is answered. *)
Fixpoint firstTrue (l : list bool) : option nat :=
  match l with
  | [] => None
  | true :: _ => Some 0
  | false :: rest => option_map S (firstTrue rest)
  end.

Definition firstRejection (db : Remote.Db) : option nat :=
  firstTrue (Remote.faults db).

End SpecMore.

(** ** Further sample data *)

Module SampleMore.
Import Js.

Definition draft : MessageInput.State :=
  {| MessageInput.message := "say hello world";
     MessageInput.isPreviewMode := false;
     MessageInput.isExpanded := true |}.

(** The word [hello] of the draft selected. *)
Definition helloSelected : Toolbar.Textarea :=
  {| Toolbar.selectionStart := 4; Toolbar.selectionEnd := 9 |}.

Definition g1 : Group.t :=
  {| Group.id := "group_1"; Group.name := "Acme";
     Group.description := None; Group.createdBy := "user_ada";
     Group.createdAt := "2024-01-01T00:00:00.000Z" |}.

Definition g2 : Group.t :=
  {| Group.id := "group_2"; Group.name := "Side project";
     Group.description := None; Group.createdBy := "user_ada";
     Group.createdAt := "2024-02-01T00:00:00.000Z" |}.

Definition membership (groupId : string) : GroupMember.t :=
  {| GroupMember.id := "member_" ++ groupId; GroupMember.groupId := groupId;
     GroupMember.userId := "user_ada"; GroupMember.role := "admin";
     GroupMember.joinedAt := "2024-02-01T00:00:00.000Z" |}.

Definition channel (id groupId name : string) : Channel.t :=
  {| Channel.id := id; Channel.groupId := groupId; Channel.name := name;
     Channel.description := None; Channel.isPrivate := false;
     Channel.createdBy := "user_ada";
     Channel.createdAt := "2024-02-01T00:00:00.000Z" |}.

(** A store with two workspaces of the sample user. *)
Definition teamDb : Remote.Db :=
  {| Remote.groups := [g1; g2];
     Remote.groupMembers := [membership "group_1"; membership "group_2"];
     Remote.channels :=
       [channel "channel_1" "group_1" "general";
        channel "channel_2" "group_2" "general";
        channel "channel_3" "group_2" "random"];
     Remote.messages := [Sample.m1; Sample.m2; Sample.m3];
     Remote.faults := [];
     Remote.serverNow := "2024-03-01T10:00:00.000Z" |}.

Definition teamWorld : World.t :=
  World.withDb teamDb Sample.freshWorld.

(** The sample user signed in, in the first workspace. *)
Definition signedInWorld : World.t :=
  World.withApp
    {| World.user := Some Sample.ada; World.loading := false;
       World.groups := [g2; g1];
       World.channels := [channel "channel_1" "group_1" "general"];
       World.activeGroup := Some "group_1";
       World.activeChannel := Some "channel_1";
       World.isAIOpen := false |} teamWorld.

Definition channelForm : CreateChannelDialog.State :=
  {| CreateChannelDialog.name := "  Marketing  Team ";
     CreateChannelDialog.description := " plans ";
     CreateChannelDialog.isPrivate := true;
     CreateChannelDialog.isLoading := false;
     CreateChannelDialog.open := true;
     CreateChannelDialog.reloaded := false |}.

Definition workspaceForm : CreateWorkspaceDialog.State :=
  {| CreateWorkspaceDialog.name := " Acme Corp ";
     CreateWorkspaceDialog.description := EmptyString;
     CreateWorkspaceDialog.isLoading := false;
     CreateWorkspaceDialog.open := true;
     CreateWorkspaceDialog.reloaded := false |}.

Definition greeting : AIAssistant.AIMessage :=
  {| AIAssistant.id := "1"; AIAssistant.role := AIAssistant.assistant;
     AIAssistant.content := "Hi Ada!"; AIAssistant.timestamp := 0%Z |}.

Definition panel : AIAssistant.State :=
  {| AIAssistant.messages := [greeting];
     AIAssistant.input := "  what is a monad?  ";
     AIAssistant.isLoading := false |}.

(** A sticker whose creation time is no date, a viewer without a name
    and without an address, and that viewer's own sticker. *)
Definition undated : Message.t :=
  {| Message.id := "msg_7"; Message.channelId := "channel_1";
     Message.userId := "user_bob"; Message.content := "party";
     Message.messageType := "sticker"; Message.threadId := None;
     Message.replyCount := 0%Z;
     Message.createdAt := "not a date";
     Message.updatedAt := "not a date" |}.

Definition nameless : User.t :=
  {| User.id := "user_eve"; User.email := EmptyString;
     User.displayName := None |}.

Definition ownSticker : Message.t :=
  {| Message.id := "msg_8"; Message.channelId := "channel_1";
     Message.userId := "user_eve"; Message.content := "party";
     Message.messageType := "sticker"; Message.threadId := None;
     Message.replyCount := 0%Z;
     Message.createdAt := "2024-03-01T10:13:00.000Z";
     Message.updatedAt := "2024-03-01T10:13:00.000Z" |}.

(** Stand-ins for the wording of dates and for upper-casing; the
    samples do not depend on what they answer. *)
Definition someTimeAgo (t : Z) : string := "3 minutes ago".
Definition someTimeOfDay (t : Z) : string := "10:13 AM".
Definition asIs (s : string) : string := s.

(** A model that answers every prompt with the same text, and one that
    rejects every call. *)
Definition echoModel (prompt : string) (maxTokens : nat)
  : Completion string := Normal "A monoid in the category of endofunctors.".

Definition brokenModel (prompt : string) (maxTokens : nat)
  : Completion string := Throw "network error".

End SampleMore.

(** ** Proof automation *)

(** Closes a goal [Spec.grownByAtMostOne db' db] for explicit stores. *)
Ltac grown_by :=
  unfold Spec.grownByAtMostOne;
  cbn [Remote.groups Remote.groupMembers Remote.channels Remote.messages];
  do 3 eexists;
  repeat split;
  first [ exact (eq_sym (app_nil_r _)) | reflexivity | simpl; lia ].

(** Unfolds the combinators of the two effect monads, so that a handler
    applied to an explicit state computes. *)
Ltac unfold_handlers :=
  unfold Local.exec, Local.bind, Local.tryFinally, Local.tryCatch,
    Local.lift, Local.modify, Local.ret, Local.get, Local.fromCompletion,
    Eff.exec, Eff.bind, Eff.tryFinally, Eff.tryCatch, Eff.await, Eff.toast,
    Eff.consoleWrite, Eff.modify, Eff.ret, Eff.dateNow, Remote.request.

Ltac unfold_createWorkspace :=
  unfold CreateWorkspaceDialog.handleSubmit,
    CreateWorkspaceDialog.setIsLoading, CreateWorkspaceDialog.setName,
    CreateWorkspaceDialog.setDescription, CreateWorkspaceDialog.onOpenChange,
    CreateWorkspaceDialog.reload, Remote.groups_create,
    Remote.groupMembers_create, Remote.channels_create;
  unfold_handlers.

Ltac unfold_assistant :=
  unfold AIAssistant.handleSendMessage, AIAssistant.setMessages,
    AIAssistant.setInput, AIAssistant.setIsLoading;
  unfold_handlers.

(* ================================================================== *)
(** * Part II: properties                                              *)
(* ================================================================== *)

Import Js.

(** ** Strings *)

Lemma append_nil_r (s : string) : (s ++ EmptyString)%string = s.
Proof. induction s as [|c s IH]; simpl; [reflexivity | now rewrite IH]. Qed.

Lemma append_assoc (a b c : string) :
  ((a ++ b) ++ c)%string = (a ++ (b ++ c))%string.
Proof. induction a as [|x a IH]; simpl; [reflexivity | now rewrite IH]. Qed.

Lemma length_append (a b : string) :
  String.length (a ++ b) = String.length a + String.length b.
Proof. induction a as [|x a IH]; simpl; [reflexivity | now rewrite IH]. Qed.

Lemma truthy_false (s : string) : truthy s = false <-> s = EmptyString.
Proof. destruct s; simpl; split; intro H; congruence. Qed.

Lemma truthy_true (s : string) : truthy s = true <-> s <> EmptyString.
Proof. destruct s; simpl; split; intro H; congruence. Qed.

Lemma toLowerCase_append (a b : string) :
  toLowerCase (a ++ b) = (toLowerCase a ++ toLowerCase b)%string.
Proof. induction a as [|x a IH]; simpl; [reflexivity | now rewrite IH]. Qed.

Lemma toLowerCase_length (s : string) :
  String.length (toLowerCase s) = String.length s.
Proof. induction s as [|c s IH]; simpl; [reflexivity | now rewrite IH]. Qed.

(** A lowered string splits where its source splits. *)
Lemma toLowerCase_split (s x y : string) :
  toLowerCase s = (x ++ y)%string ->
  exists a b, s = (a ++ b)%string /\ toLowerCase a = x /\ toLowerCase b = y.
Proof.
  revert s; induction x as [|c x IH]; intros s H.
  - exists EmptyString, s. simpl in *. auto.
  - destruct s as [|d s]; simpl in H; [discriminate|].
    injection H as Hc Hs. destruct (IH s Hs) as (a & b & -> & Ha & Hb).
    exists (String d a), b. simpl. rewrite Hc, Ha. auto.
Qed.

Lemma startsWith_spec (s t : string) :
  startsWith s t = true <-> exists post, s = (t ++ post)%string.
Proof.
  revert s; induction t as [|b t IH]; intros s.
  - split; [intros _; exists s; reflexivity | now destruct s].
  - destruct s as [|a s]; simpl.
    + split; [discriminate | intros [post H]; discriminate].
    + rewrite andb_true_iff, Ascii.eqb_eq, IH. split.
      * intros [-> [post ->]]. exists post. reflexivity.
      * intros [post H]. injection H as -> ->. split; eauto.
Qed.

Lemma includes_spec (s t : string) :
  includes s t = true <->
  exists pre post, s = (pre ++ t ++ post)%string.
Proof.
  induction s as [|a s IH].
  - cbn [includes]. rewrite orb_false_r, startsWith_spec. split.
    + intros [post H]. exists EmptyString, post. exact H.
    + intros (pre & post & H). destruct pre; simpl in H; [eauto | discriminate].
  - cbn [includes]. rewrite orb_true_iff, startsWith_spec, IH. split.
    + intros [[post H] | (pre & post & H)].
      * exists EmptyString, post. exact H.
      * exists (String a pre), post. simpl. now rewrite H.
    + intros (pre & post & H). destruct pre as [|c pre]; simpl in H.
      * left. eauto.
      * right. injection H as _ H. eauto.
Qed.

(** The test of the filter is the case-insensitive substring relation. *)
Lemma includes_ciOccurs (body term : string) :
  includes (toLowerCase body) (toLowerCase term) = true
  <-> Spec.ciOccurs term body.
Proof.
  rewrite includes_spec. unfold Spec.ciOccurs, Spec.ciEqual. split.
  - intros (x & y & H).
    destruct (toLowerCase_split _ _ _ H) as (pre & r & -> & Hx & Hr).
    destruct (toLowerCase_split _ _ _ Hr) as (mid & post & -> & Hm & Hp).
    exists pre, mid, post. auto.
  - intros (pre & mid & post & -> & H).
    exists (toLowerCase pre), (toLowerCase post).
    now rewrite !toLowerCase_append, H.
Qed.

(** ** The feed assembler *)

Lemma passesFilter_blank (q : string) (m : Message.t) :
  trim q = EmptyString -> MessageList.passesFilter q m = true.
Proof. unfold MessageList.passesFilter. intros ->. reflexivity. Qed.

Lemma passesFilter_term (q : string) (m : Message.t) :
  trim q <> EmptyString ->
  (MessageList.passesFilter q m = true <-> Spec.ciOccurs q (Message.content m)).
Proof.
  intro H. unfold MessageList.passesFilter.
  apply truthy_true in H. rewrite H. simpl. apply includes_ciOccurs.
Qed.

Lemma passesFilter_iff (q : string) (m : Message.t) :
  MessageList.passesFilter q m = true
  <-> (trim q = EmptyString \/ Spec.ciOccurs q (Message.content m)).
Proof.
  destruct (string_dec (trim q) EmptyString) as [E|E].
  - rewrite (passesFilter_blank q m E). tauto.
  - rewrite (passesFilter_term q m E). tauto.
Qed.

Lemma filter_Selected {A : Type} (f : A -> bool) (P : A -> Prop) :
  (forall x, f x = true <-> P x) ->
  forall l, Spec.Selected P l (filter f l).
Proof.
  intros Hf l. induction l as [|x l IH]; simpl.
  - constructor.
  - destruct (f x) eqn:E.
    + apply Spec.Selected_keep; [now apply Hf | exact IH].
    + apply Spec.Selected_drop; [|exact IH].
      intro HP. apply Hf in HP. congruence.
Qed.

Lemma filter_all {A : Type} (f : A -> bool) (l : list A) :
  (forall x, f x = true) -> filter f l = l.
Proof.
  intro H. induction l as [|x l IH]; simpl; [reflexivity|].
  now rewrite H, IH.
Qed.

Lemma filter_length_lt {A : Type} (f : A -> bool) (l : list A) (x : A) :
  In x l -> f x = false -> List.length (filter f l) < List.length l.
Proof.
  induction l as [|y l IH]; simpl; [tauto|].
  intros [->|Hin] Hx.
  - rewrite Hx. pose proof (filter_length_le f l). lia.
  - specialize (IH Hin Hx). destruct (f y); simpl; lia.
Qed.

Lemma mapIndexFrom_length {A B : Type} (f : A -> nat -> B) (k : nat)
  (l : list A) : List.length (MessageList.mapIndexFrom f k l) = List.length l.
Proof.
  revert k; induction l as [|x l IH]; intro k; simpl;
    [reflexivity | now rewrite IH].
Qed.

Lemma mapIndexFrom_nth {A B : Type} (f : A -> nat -> B) (l : list A) :
  forall k i,
    nth_error (MessageList.mapIndexFrom f k l) i
    = option_map (fun x => f x (k + i)) (nth_error l i).
Proof.
  induction l as [|x l IH]; intros k i; simpl.
  - now destruct i.
  - destruct i as [|i]; simpl.
    + now rewrite Nat.add_0_r.
    + rewrite IH. now rewrite Nat.add_succ_r.
Qed.

Lemma mapIndexFrom_map {A B C : Type} (f : A -> nat -> B) (g : B -> C)
  (k : nat) (l : list A) :
  map g (MessageList.mapIndexFrom f k l) = MessageList.mapIndexFrom (fun x i => g (f x i)) k l.
Proof.
  revert k; induction l as [|x l IH]; intro k; simpl;
    [reflexivity | now rewrite IH].
Qed.

Lemma mapIndexFrom_const {A B : Type} (g : A -> B) (k : nat) (l : list A) :
  MessageList.mapIndexFrom (fun x _ => g x) k l = map g l.
Proof.
  revert k; induction l as [|x l IH]; intro k; simpl;
    [reflexivity | now rewrite IH].
Qed.

Section Feed.
Import MessageList.
Variable getTime : string -> option Z.

(** The messages of the assembled feed are the filtered messages. *)
Lemma assemble_messages (messages : list Message.t) (q : string) :
  map fst (assemble getTime messages q) = filteredMessages messages q.
Proof.
  unfold assemble, items, mapIndex.
  rewrite map_map, mapIndexFrom_map. simpl.
  rewrite (mapIndexFrom_const (fun x => x)). apply map_id.
Qed.

(** Row [i] of the assembled feed: the [i]-th filtered message, grouped
    against its predecessor in the filtered list. *)
Lemma assemble_nth (messages : list Message.t) (q : string) (i : nat) :
  nth_error (assemble getTime messages q) i
  = option_map
      (fun m =>
         (m,
          showAvatarOf getTime
            (prevMessageAt (filteredMessages messages q) i) m))
      (nth_error (filteredMessages messages q) i).
Proof.
  unfold assemble, items, mapIndex.
  rewrite nth_error_map, mapIndexFrom_nth. simpl.
  now destruct (nth_error (filteredMessages messages q) i).
Qed.

Lemma prevMessageAt_S (l : list Message.t) (i : nat) :
  prevMessageAt l (S i) = nth_error l i.
Proof. unfold prevMessageAt. simpl. now rewrite Nat.sub_0_r. Qed.

End Feed.

(** What [MessageList] shows is the assembled feed or, when nothing is
    left to show, one of the two empty states. *)
Lemma MessageList_view (getTime : string -> option Z)
  (messages : list Message.t) (q : string) :
  match MessageList.MessageList getTime messages q with
  | MessageList.Feed its =>
      map (fun it => (MessageList.message it, MessageList.showAvatar it)) its
      = MessageList.assemble getTime messages q
      /\ MessageList.filteredMessages messages q <> []
  | MessageList.NoMessagesFound q' =>
      q' = q /\ MessageList.filteredMessages messages q = []
      /\ trim q <> EmptyString
  | MessageList.BeginningOfConversation =>
      MessageList.filteredMessages messages q = []
      /\ trim q = EmptyString
  end.
Proof.
  unfold MessageList.MessageList, MessageList.assemble.
  destruct (MessageList.filteredMessages messages q) as [|m l] eqn:E; simpl.
  - destruct (truthy (trim q)) eqn:T.
    + apply truthy_true in T. auto.
    + apply truthy_false in T. auto.
  - split; [reflexivity | discriminate].
Qed.

(** C1 (amended).  For two consecutive displayed messages of one author
    whose creation times both parse, the second message's [showAvatar] is
    false exactly when the second was created at most 300000 ms after the
    first (a gap of exactly 300000 ms included), and true exactly when
    the gap is strictly above 300000 ms. *)
Theorem C1_grouping_threshold :
  forall (getTime : string -> option Z) (messages : list Message.t)
         (q : string) (i : nat) (prev cur : Message.t) (t1 t2 : Z),
    nth_error (MessageList.filteredMessages messages q) i = Some prev ->
    nth_error (MessageList.filteredMessages messages q) (S i) = Some cur ->
    Message.userId prev = Message.userId cur ->
    getTime (Message.createdAt prev) = Some t1 ->
    getTime (Message.createdAt cur) = Some t2 ->
    exists sa : bool,
      nth_error (MessageList.assemble getTime messages q) (S i)
      = Some (cur, sa)
      /\ (sa = false <-> (t2 - t1 <= 300000)%Z)
      /\ (sa = true <-> (300000 < t2 - t1)%Z).
Proof.
  intros getTime messages q i prev cur t1 t2 Hp Hc Hu H1 H2.
  exists (300000 <? t2 - t1)%Z. split; [|split].
  - rewrite assemble_nth, Hc, prevMessageAt_S, Hp. simpl.
    unfold MessageList.gapExceeds5Minutes.
    rewrite Hu, String.eqb_refl, H1, H2. reflexivity.
  - rewrite Z.ltb_ge. tauto.
  - rewrite Z.ltb_lt. tauto.
Qed.

Lemma C1_grouping_threshold_witness :
  exists sa : bool,
    nth_error
      (MessageList.assemble isoGetTime [Sample.m3; Sample.m4; Sample.m5]
         EmptyString) 2
    = Some (Sample.m5, sa)
    /\ (sa = false <-> (1709287920001 - 1709287620000 <= 300000)%Z)
    /\ (sa = true <-> (300000 < 1709287920001 - 1709287620000)%Z).
Proof.
  apply (C1_grouping_threshold isoGetTime
           [Sample.m3; Sample.m4; Sample.m5] EmptyString 1
           Sample.m4 Sample.m5); reflexivity.
Defined.

(** C1 as stated fails at a gap of exactly 300000 ms: [Sample.m4] comes
    exactly five minutes after [Sample.m3], from the same author, and is
    grouped with it ([showAvatar] is false, where the claim has true). *)
Lemma C1_exact_gap_counterexample :
  isoGetTime (Message.createdAt Sample.m3) = Some 1709287320000%Z
  /\ isoGetTime (Message.createdAt Sample.m4)
     = Some (1709287320000 + 300000)%Z
  /\ Message.userId Sample.m3 = Message.userId Sample.m4
  /\ MessageList.assemble isoGetTime [Sample.m3; Sample.m4] EmptyString
     = [(Sample.m3, true); (Sample.m4, false)]
  /\ ~ ((300000 <= 300000)%Z ->
        nth_error
          (MessageList.assemble isoGetTime [Sample.m3; Sample.m4]
             EmptyString) 1
        = Some (Sample.m4, true)).
Proof.
  repeat split; try reflexivity.
  intro H. specialize (H (Z.le_refl _)). vm_compute in H. discriminate.
Qed.

(** C2.  The grouping decision of every displayed message is taken
    against its predecessor in the filtered sequence: row [i] of the feed
    is the [i]-th filtered message together with [showAvatarOf] of its
    filtered predecessor; the first row always has [showAvatar] true; and
    a filtered predecessor with a different author forces [showAvatar]
    true, whatever the filter has hidden in between. *)
Theorem C2_grouping_uses_filtered_adjacency :
  forall (getTime : string -> option Z) (messages : list Message.t)
         (q : string),
    (forall i m sa,
        nth_error (MessageList.assemble getTime messages q) i = Some (m, sa) ->
        nth_error (MessageList.filteredMessages messages q) i = Some m
        /\ sa = MessageList.showAvatarOf getTime
                  (MessageList.prevMessageAt
                     (MessageList.filteredMessages messages q) i) m)
    /\ (forall m sa,
           nth_error (MessageList.assemble getTime messages q) 0
           = Some (m, sa) -> sa = true)
    /\ (forall i prev m sa,
           nth_error (MessageList.filteredMessages messages q) i = Some prev ->
           nth_error (MessageList.assemble getTime messages q) (S i)
           = Some (m, sa) ->
           Message.userId prev <> Message.userId m -> sa = true).
Proof.
  intros getTime messages q.
  assert (Hrow : forall i m sa,
    nth_error (MessageList.assemble getTime messages q) i = Some (m, sa) ->
    nth_error (MessageList.filteredMessages messages q) i = Some m
    /\ sa = MessageList.showAvatarOf getTime
              (MessageList.prevMessageAt
                 (MessageList.filteredMessages messages q) i) m).
  { intros i m sa H. rewrite assemble_nth in H.
    destruct (nth_error (MessageList.filteredMessages messages q) i)
      as [m'|]; simpl in H; [|discriminate].
    injection H as -> <-. auto. }
  split; [exact Hrow | split].
  - intros m sa H. apply Hrow in H. destruct H as [_ ->]. reflexivity.
  - intros i prev m sa Hp H Hne. apply Hrow in H. destruct H as [_ ->].
    rewrite prevMessageAt_S, Hp. simpl.
    apply String.eqb_neq in Hne. now rewrite Hne.
Qed.

(** With the filter [hello], [Sample.m2] is hidden and [Sample.m3] is
    grouped with [Sample.m1], its predecessor among the displayed
    messages; without a filter its predecessor is [Sample.m2], of another
    author, and it keeps its avatar. *)
Example grouping_after_filtering :
  MessageList.assemble isoGetTime [Sample.m1; Sample.m2; Sample.m3] "hello"
  = [(Sample.m1, true); (Sample.m3, false)]
  /\ MessageList.assemble isoGetTime [Sample.m1; Sample.m2; Sample.m3]
       EmptyString
     = [(Sample.m1, true); (Sample.m2, true); (Sample.m3, true)].
Proof. split; reflexivity. Qed.

Lemma C2_grouping_uses_filtered_adjacency_witness :
  nth_error (MessageList.filteredMessages [Sample.m1; Sample.m2; Sample.m3]
               "hello") 1 = Some Sample.m3
  /\ false
     = MessageList.showAvatarOf isoGetTime
         (MessageList.prevMessageAt
            (MessageList.filteredMessages
               [Sample.m1; Sample.m2; Sample.m3] "hello") 1) Sample.m3.
Proof.
  apply (proj1 (C2_grouping_uses_filtered_adjacency isoGetTime
                  [Sample.m1; Sample.m2; Sample.m3] "hello")).
  reflexivity.
Defined.

(** C3 (amended).  The assembled output is exactly the subsequence of the
    input messages that pass the filter, in the original order, where a
    message passes when the filter is blank (empty after trimming) or its
    body contains the filter text as a case-insensitive substring; a
    blank filter passes every message; the output is never longer than
    the input, and it is strictly shorter whenever the filter is not
    blank and at least one message fails the match. *)
Theorem C3_filter_is_ordered_subsequence :
  forall (getTime : string -> option Z) (messages : list Message.t)
         (q : string),
    Spec.Selected
      (fun m => trim q = EmptyString \/ Spec.ciOccurs q (Message.content m))
      messages (map fst (MessageList.assemble getTime messages q))
    /\ (trim q = EmptyString ->
        map fst (MessageList.assemble getTime messages q) = messages)
    /\ List.length (MessageList.assemble getTime messages q)
       <= List.length messages
    /\ (trim q <> EmptyString ->
        (exists m, In m messages /\ ~ Spec.ciOccurs q (Message.content m)) ->
        List.length (MessageList.assemble getTime messages q)
        < List.length messages).
Proof.
  intros getTime messages q.
  assert (L : List.length (MessageList.assemble getTime messages q)
              = List.length (MessageList.filteredMessages messages q)).
  { rewrite <- (assemble_messages getTime). now rewrite length_map. }
  rewrite L, assemble_messages. unfold MessageList.filteredMessages.
  split; [|split; [|split]].
  - apply filter_Selected. intro m. apply passesFilter_iff.
  - intro E. apply filter_all. intro m. now apply passesFilter_blank.
  - apply filter_length_le.
  - intros E (m & Hin & Hno). apply (filter_length_lt _ _ m Hin).
    destruct (MessageList.passesFilter q m) eqn:P; [|reflexivity].
    exfalso. apply Hno. now apply (passesFilter_term q m E).
Qed.

Lemma C3_filter_is_ordered_subsequence_witness :
  List.length
    (MessageList.assemble isoGetTime [Sample.m1; Sample.m2; Sample.m3]
       "Hello")
  < List.length [Sample.m1; Sample.m2; Sample.m3].
Proof.
  apply (proj2 (proj2 (proj2
           (C3_filter_is_ordered_subsequence isoGetTime
              [Sample.m1; Sample.m2; Sample.m3] "Hello")))).
  - vm_compute. discriminate.
  - exists Sample.m2. split; [simpl; auto|].
    rewrite <- includes_ciOccurs. vm_compute. discriminate.
Defined.

(** C3 as stated fails for a filter made of white space: the body of
    [Sample.m2] does not contain a space, yet the message is displayed
    under the filter made of one space, so the output is not the
    subsequence of the messages whose body contains the filter text, and
    it is not shorter than the input although a message fails the
    match. *)
Lemma C3_blank_filter_counterexample :
  ~ Spec.ciOccurs " " (Message.content Sample.m2)
  /\ map fst (MessageList.assemble isoGetTime [Sample.m2] " ")
     = [Sample.m2]
  /\ ~ Spec.Selected (fun m => Spec.ciOccurs " " (Message.content m))
         [Sample.m2]
         (map fst (MessageList.assemble isoGetTime [Sample.m2] " ")).
Proof.
  assert (N : ~ Spec.ciOccurs " " (Message.content Sample.m2)).
  { rewrite <- includes_ciOccurs. vm_compute. discriminate. }
  split; [exact N | split; [reflexivity|]].
  intro H. change (map fst (MessageList.assemble isoGetTime [Sample.m2] " "))
    with [Sample.m2] in H.
  inversion H; subst.
  - now apply N.
  - match goal with X : Spec.Selected _ [] (_ :: _) |- _ => inversion X end.
Qed.

(** ** The composer *)

(** A plain [Enter] submits; [Shift]+[Enter] expands and sends nothing. *)
Lemma handleKeyDown_enter {Env : Type} (onSendMessage : string -> Env -> Env)
  (st : MessageInput.State) (env : Env) :
  MessageInput.handleKeyDown onSendMessage "Enter" false st env
  = MessageInput.handleSend onSendMessage st env
  /\ MessageInput.handleKeyDown onSendMessage "Enter" true st env
     = ({| MessageInput.message := MessageInput.message st;
           MessageInput.isPreviewMode := MessageInput.isPreviewMode st;
           MessageInput.isExpanded := true |}, env).
Proof.
  unfold MessageInput.handleKeyDown. simpl.
  now destruct (MessageInput.handleSend onSendMessage st env).
Qed.

(** C5.  Submitting a draft that is empty after trimming changes nothing
    and does not call the send callback; submitting any other draft calls
    the send callback once, with the trimmed draft, and leaves the
    composer with an empty draft, preview off and collapsed. *)
Theorem C5_submit_trims_and_resets :
  forall (Env : Type) (onSendMessage : string -> Env -> Env)
         (st : MessageInput.State) (env : Env),
    (trim (MessageInput.message st) = EmptyString ->
     MessageInput.handleSend onSendMessage st env = (st, env))
    /\ (trim (MessageInput.message st) <> EmptyString ->
        MessageInput.handleSend onSendMessage st env
        = ({| MessageInput.message := EmptyString;
              MessageInput.isPreviewMode := false;
              MessageInput.isExpanded := false |},
           onSendMessage (trim (MessageInput.message st)) env)).
Proof.
  intros Env onSendMessage st env. unfold MessageInput.handleSend. split.
  - intros ->. reflexivity.
  - intro H. apply truthy_true in H. now rewrite H.
Qed.

Lemma C5_submit_trims_and_resets_witness :
  MessageInput.handleSend Sample.recordCall
    {| MessageInput.message := "  hi  ";
       MessageInput.isPreviewMode := true;
       MessageInput.isExpanded := true |} []
  = ({| MessageInput.message := EmptyString;
        MessageInput.isPreviewMode := false;
        MessageInput.isExpanded := false |}, ["hi"])
  /\ MessageInput.handleSend Sample.recordCall
       {| MessageInput.message := "   ";
          MessageInput.isPreviewMode := true;
          MessageInput.isExpanded := true |} []
     = ({| MessageInput.message := "   ";
           MessageInput.isPreviewMode := true;
           MessageInput.isExpanded := true |}, []).
Proof.
  split.
  - apply (proj2 (C5_submit_trims_and_resets (list string) Sample.recordCall
                    {| MessageInput.message := "  hi  ";
                       MessageInput.isPreviewMode := true;
                       MessageInput.isExpanded := true |} [])).
    vm_compute. discriminate.
  - apply (proj1 (C5_submit_trims_and_resets (list string) Sample.recordCall
                    {| MessageInput.message := "   ";
                       MessageInput.isPreviewMode := true;
                       MessageInput.isExpanded := true |} [])).
    reflexivity.
Defined.

(** C9.  Toggling the preview any number of times leaves the draft and
    the expansion as they were; only the preview flag changes, and it is
    back to its value after an even number of toggles. *)
Theorem C9_toggle_preview_keeps_draft :
  forall (n : nat) (st : MessageInput.State),
    MessageInput.message
      (MessageInput.iterate n MessageInput.togglePreview st)
    = MessageInput.message st
    /\ MessageInput.isExpanded
         (MessageInput.iterate n MessageInput.togglePreview st)
       = MessageInput.isExpanded st
    /\ MessageInput.isPreviewMode
         (MessageInput.iterate n MessageInput.togglePreview st)
       = if Nat.even n then MessageInput.isPreviewMode st
         else negb (MessageInput.isPreviewMode st).
Proof.
  induction n as [|n IH]; intro st.
  - simpl. auto.
  - cbn [MessageInput.iterate].
    destruct (IH (MessageInput.togglePreview st)) as (Hm & He & Hp).
    rewrite Hm, He, Hp. cbn [MessageInput.togglePreview
      MessageInput.message MessageInput.isExpanded MessageInput.isPreviewMode].
    repeat split. rewrite Nat.even_succ, <- Nat.negb_even.
    destruct (Nat.even n); simpl; [reflexivity | apply negb_involutive].
Qed.

(** ** The renderer *)

Lemma get_append_last (s : string) (c : ascii) :
  String.get (String.length s) (s ++ String c EmptyString) = Some c.
Proof. induction s as [|x s IH]; simpl; [reflexivity | exact IH]. Qed.

Lemma substring_append_prefix (s t : string) :
  substring 0 (String.length s) (s ++ t) = s.
Proof.
  induction s as [|x s IH]; simpl.
  - now destruct t.
  - now rewrite IH.
Qed.

(** A search term made of plain pattern characters, wrapped in
    parentheses, is a literal group. *)
Lemma literalGroup_wrap (q : string) :
  q <> EmptyString -> allPatternCharacters q = true ->
  literalGroup ("(" ++ q ++ ")") = Some q.
Proof.
  intros Hne Hall. unfold literalGroup.
  change ("(" ++ q ++ ")")%string with (String "(" (q ++ ")")).
  cbv beta iota. change (Ascii.eqb "(" "(") with true. cbv iota.
  rewrite length_append. change (String.length ")") with 1.
  rewrite Nat.add_sub, get_append_last, substring_append_prefix.
  change (Ascii.eqb ")" ")") with true. rewrite Hall.
  destruct q; [congruence | reflexivity].
Qed.

(** Case folding of the [i] flag and lower-casing identify the same
    pairs of code units. *)
Lemma canonicalize_lowerChar_table :
  forallb
    (fun a =>
       forallb
         (fun b =>
            Bool.eqb (canonicalize a =? canonicalize b)%N
              (Ascii.eqb (lowerChar a) (lowerChar b)))
         (map ascii_of_nat (seq 0 256)))
    (map ascii_of_nat (seq 0 256))
  = true.
Proof. vm_compute. reflexivity. Qed.

Lemma In_all_ascii (a : ascii) : In a (map ascii_of_nat (seq 0 256)).
Proof.
  rewrite <- (ascii_nat_embedding a). apply in_map, in_seq.
  pose proof (nat_ascii_bounded a). lia.
Qed.

Lemma canonicalize_lowerChar (a b : ascii) :
  (canonicalize a =? canonicalize b)%N = true <-> lowerChar a = lowerChar b.
Proof.
  pose proof canonicalize_lowerChar_table as T.
  rewrite forallb_forall in T. specialize (T a (In_all_ascii a)).
  rewrite forallb_forall in T. specialize (T b (In_all_ascii b)).
  apply Bool.eqb_prop in T. rewrite T. apply Ascii.eqb_eq.
Qed.

Lemma matchesAt_sound (lit text m rest : string) :
  matchesAt lit text = Some (m, rest) ->
  text = (m ++ rest)%string /\ Spec.ciEqual m lit.
Proof.
  unfold Spec.ciEqual.
  revert text m rest; induction lit as [|p lit IH]; intros text m rest H.
  - simpl in H. injection H as <- <-. auto.
  - simpl in H. destruct text as [|c text]; [discriminate|].
    destruct (canonicalize p =? canonicalize c)%N eqn:E; [|discriminate].
    destruct (matchesAt lit text) as [[m' r']|] eqn:M; [|discriminate].
    injection H as <- <-. destruct (IH _ _ _ M) as [-> Hm].
    apply canonicalize_lowerChar in E. simpl. now rewrite Hm, E.
Qed.

Lemma matchesAt_complete (lit mid post : string) :
  Spec.ciEqual mid lit -> matchesAt lit (mid ++ post) = Some (mid, post).
Proof.
  unfold Spec.ciEqual.
  revert mid; induction lit as [|p lit IH]; intros mid H.
  - destruct mid; [reflexivity | discriminate].
  - destruct mid as [|c mid]; [discriminate|].
    simpl in H. injection H as Hc Hm. simpl.
    assert (E : (canonicalize p =? canonicalize c)%N = true)
      by (apply canonicalize_lowerChar; congruence).
    now rewrite E, (IH mid Hm).
Qed.

Lemma matchesAt_None (lit text : string) :
  matchesAt lit text = None -> ~ Spec.ciOccursAt lit EmptyString text.
Proof.
  intros H (mid & post & -> & E). simpl in H.
  rewrite (matchesAt_complete lit mid post E) in H. discriminate.
Qed.

(** The replacement template puts the matched text between the opening
    and the closing marker. *)
Lemma getSubstitution_mark (m before after : string) :
  getSubstitution m before after m MessageItem.markTemplate
  = (MessageItem.markOpen ++ m ++ MessageItem.markClose)%string.
Proof. reflexivity. Qed.

Lemma ciEqual_length (m lit : string) :
  Spec.ciEqual m lit -> String.length m = String.length lit.
Proof.
  unfold Spec.ciEqual. intro H.
  now rewrite <- (toLowerCase_length m), H, toLowerCase_length.
Qed.

Lemma no_occurrence_in_empty (lit : string) :
  lit <> EmptyString -> ~ Spec.ciOccurs lit EmptyString.
Proof.
  intros Hne (pre & mid & post & H & E).
  apply ciEqual_length in E.
  destruct pre; [|discriminate]. destruct mid; [|discriminate].
  destruct lit; [congruence | discriminate].
Qed.

Lemma ciOccurs_at (lit body : string) :
  Spec.ciOccurs lit body <-> exists pre, Spec.ciOccursAt lit pre body.
Proof.
  unfold Spec.ciOccurs, Spec.ciOccursAt. split.
  - intros (pre & mid & post & H). exists pre, mid, post. exact H.
  - intros (pre & mid & post & H). exists pre, mid, post. exact H.
Qed.

Lemma ciOccursAt_cons (lit pre body : string) (c : ascii) :
  Spec.ciOccursAt lit (String c pre) (String c body)
  <-> Spec.ciOccursAt lit pre body.
Proof.
  unfold Spec.ciOccursAt. split.
  - intros (mid & post & H & E). simpl in H. injection H as H. eauto.
  - intros (mid & post & -> & E). exists mid, post. auto.
Qed.

Lemma ciOccursAt_head (lit pre body : string) (c : ascii) :
  Spec.ciOccursAt lit pre (String c body) ->
  pre = EmptyString
  \/ exists pre', pre = String c pre' /\ Spec.ciOccursAt lit pre' body.
Proof.
  intro H. destruct pre as [|d pre]; [now left | right].
  assert (d = c).
  { destruct H as (mid & post & H & _). simpl in H. congruence. }
  subst d. exists pre. split; [reflexivity|]. now apply ciOccursAt_cons in H.
Qed.

(** A code unit at which the term does not start is copied, and the
    highlighting of the rest follows. *)
Lemma Highlighted_cons (lit body out : string) (c : ascii) :
  ~ Spec.ciOccursAt lit EmptyString (String c body) ->
  Spec.Highlighted lit body out ->
  Spec.Highlighted lit (String c body) (String c out).
Proof.
  intros Hhead H. destruct H as [body Hno | pre mid rest out Heq Hleft Hrest].
  - apply Spec.Highlighted_none. rewrite ciOccurs_at. intros [pre Hp].
    destruct (ciOccursAt_head _ _ _ _ Hp) as [-> | (pre' & -> & Hp')].
    + now apply Hhead.
    + apply Hno. rewrite ciOccurs_at. eauto.
  - change (String c (pre ++ mid ++ rest))
      with (String c pre ++ mid ++ rest)%string.
    change (String c (pre ++ MessageItem.markOpen ++ mid
                      ++ MessageItem.markClose ++ out))
      with (String c pre ++ MessageItem.markOpen ++ mid
            ++ MessageItem.markClose ++ out)%string.
    apply Spec.Highlighted_hit; [exact Heq | | exact Hrest].
    intros pre' Hp. simpl in Hp.
    destruct (ciOccursAt_head _ _ _ _ Hp) as [-> | (p & -> & Hp')].
    + exfalso. now apply Hhead.
    + simpl. apply le_n_S. now apply Hleft.
Qed.

(** The replacement loop wraps the occurrences of the term from left to
    right, for any fuel that covers the text. *)
Lemma replaceLoop_Highlighted (lit : string) :
  lit <> EmptyString ->
  forall (fuel : nat) (before text : string),
    String.length text <= fuel ->
    Spec.Highlighted lit text
      (replaceLoop fuel lit MessageItem.markTemplate before text).
Proof.
  intros Hne fuel. induction fuel as [|fuel IH]; intros before text Hlen.
  - destruct text; [|simpl in Hlen; lia].
    apply Spec.Highlighted_none. now apply no_occurrence_in_empty.
  - destruct text as [|c text].
    + apply Spec.Highlighted_none. now apply no_occurrence_in_empty.
    + cbn [replaceLoop].
      destruct (matchesAt lit (String c text)) as [[m rest]|] eqn:M.
      * destruct (matchesAt_sound _ _ _ _ M) as [Htext Hm].
        rewrite getSubstitution_mark, Htext, !append_assoc.
        apply (Spec.Highlighted_hit lit EmptyString m rest).
        -- exact Hm.
        -- intros pre' _. simpl. lia.
        -- apply IH. apply ciEqual_length in Hm.
           assert (String.length (String c text)
                   = String.length m + String.length rest)
             by (rewrite Htext; apply length_append).
           destruct lit; [congruence|]. simpl in *. lia.
      * apply Highlighted_cons.
        -- now apply matchesAt_None.
        -- apply IH. simpl in Hlen. lia.
Qed.

Lemma replaceLiteral_Highlighted (lit text : string) :
  lit <> EmptyString ->
  Spec.Highlighted lit text
    (replaceLiteral lit text MessageItem.markTemplate).
Proof.
  intro Hne. unfold replaceLiteral. now apply replaceLoop_Highlighted.
Qed.

Lemma trim_nonempty (q : string) : trim q <> EmptyString -> q <> EmptyString.
Proof. intros H ->. now apply H. Qed.

Section Renderer.
Variable nativeReplace : string -> string -> string -> Completion string.

Lemma highlightSearchTerm_blank (text q : string) :
  trim q = EmptyString ->
  MessageItem.highlightSearchTerm nativeReplace text q = Normal text.
Proof. unfold MessageItem.highlightSearchTerm. intros ->. reflexivity. Qed.

Lemma highlightSearchTerm_literal (text q : string) :
  trim q <> EmptyString -> allPatternCharacters q = true ->
  MessageItem.highlightSearchTerm nativeReplace text q
  = Normal (replaceLiteral q text MessageItem.markTemplate).
Proof.
  intros Hq Hall. unfold MessageItem.highlightSearchTerm, regexpReplace.
  pose proof (proj2 (truthy_true _) Hq) as T. rewrite T. cbv beta iota.
  change (negb true) with false. cbv iota.
  now rewrite (literalGroup_wrap q (trim_nonempty q Hq) Hall).
Qed.

Lemma renderBody_text (message : Message.t) (q : string) :
  Message.messageType message = "text" ->
  MessageItem.renderBody nativeReplace message q
  = match
      (if truthy q
       then MessageItem.highlightSearchTerm nativeReplace
              (Message.content message) q
       else Normal (Message.content message))
    with
    | Normal children => Normal (MessageItem.MarkdownContent children)
    | Throw error => Throw error
    end.
Proof.
  intro H. unfold MessageItem.renderBody. rewrite H. reflexivity.
Qed.

Lemma renderBody_other (message : Message.t) (q : string) :
  Message.messageType message <> "text" ->
  MessageItem.renderBody nativeReplace message q
  = Normal
      (MessageItem.UnsupportedMessageType
         ("Unsupported message type: " ++ Message.messageType message)).
Proof.
  intro H. unfold MessageItem.renderBody.
  apply String.eqb_neq in H. now rewrite H.
Qed.

(** Under a blank search term every body is rendered as it is without a
    search term. *)
Lemma renderBody_blank (message : Message.t) (q : string) :
  trim q = EmptyString ->
  MessageItem.renderBody nativeReplace message q
  = MessageItem.renderBody nativeReplace message EmptyString.
Proof.
  intro Hq. unfold MessageItem.renderBody.
  destruct (Message.messageType message =? "text"); [|reflexivity].
  destruct (truthy q); [|reflexivity].
  now rewrite (highlightSearchTerm_blank _ q Hq).
Qed.

End Renderer.

Lemma Highlighted_length (term body out : string) :
  Spec.Highlighted term body out -> String.length body <= String.length out.
Proof.
  induction 1 as [body _ | pre mid rest out _ _ _ IH]; [lia|].
  rewrite !length_append. lia.
Qed.

(** A body that comes out unchanged held no occurrence of the term. *)
Lemma Highlighted_same (term body : string) :
  Spec.Highlighted term body body -> ~ Spec.ciOccurs term body.
Proof.
  assert (G : forall b o, Spec.Highlighted term b o -> b = o ->
                          ~ Spec.ciOccurs term b).
  { intros b o H.
    destruct H as [b Hno | pre mid rest out Heq Hleft Hrest]; intro E;
      [exact Hno|].
    exfalso. apply Highlighted_length in Hrest.
    apply (f_equal String.length) in E. rewrite !length_append in E.
    assert (0 < String.length MessageItem.markOpen) by (vm_compute; lia).
    lia. }
  intro H. now apply (G body body H).
Qed.

(** C6 (amended).  For a text message and a search term that is not
    blank and is made of plain pattern characters, the text handed to
    the markdown renderer is the raw body in which the case-insensitive
    occurrences of the term, found from left to right without overlap,
    are each wrapped in the highlight marker. *)
Theorem C6_highlight_before_markdown :
  forall (nativeReplace : string -> string -> string -> Completion string)
         (message : Message.t) (q : string),
    Message.messageType message = "text" ->
    trim q <> EmptyString ->
    allPatternCharacters q = true ->
    exists out : string,
      MessageItem.renderBody nativeReplace message q
      = Normal (MessageItem.MarkdownContent out)
      /\ Spec.Highlighted q (Message.content message) out.
Proof.
  intros nativeReplace message q Htype Hq Hall.
  exists (replaceLiteral q (Message.content message)
            MessageItem.markTemplate).
  split.
  - rewrite (renderBody_text nativeReplace message q Htype).
    pose proof (trim_nonempty q Hq) as Hne. apply truthy_true in Hne.
    rewrite Hne.
    now rewrite (highlightSearchTerm_literal nativeReplace _ q Hq Hall).
  - apply replaceLiteral_Highlighted. now apply trim_nonempty.
Qed.

Lemma C6_highlight_before_markdown_witness :
  exists out : string,
    MessageItem.renderBody Sample.rejectingEngine Sample.m1 "Hello"
    = Normal (MessageItem.MarkdownContent out)
    /\ Spec.Highlighted "Hello" (Message.content Sample.m1) out.
Proof.
  apply (C6_highlight_before_markdown Sample.rejectingEngine Sample.m1
           "Hello").
  - reflexivity.
  - vm_compute. discriminate.
  - reflexivity.
Defined.

Example highlight_hello :
  MessageItem.renderBody Sample.rejectingEngine Sample.m1 "Hello"
  = Normal
      (MessageItem.MarkdownContent
         ("say " ++ MessageItem.markOpen ++ "hello" ++ MessageItem.markClose
          ++ " world")).
Proof. reflexivity. Qed.

(** Occurrences that overlap an earlier one are not wrapped again. *)
Example highlight_overlap :
  MessageItem.highlightSearchTerm Sample.rejectingEngine "aAa" "aa"
  = Normal
      (MessageItem.markOpen ++ "aA" ++ MessageItem.markClose ++ "a")%string.
Proof. reflexivity. Qed.

(** C6 as stated fails for a search term made of white space: the term
    of one space is not empty and occurs in the body of [Sample.m1], yet
    the text handed to the markdown renderer is the body itself, with no
    marker in it. *)
Lemma C6_blank_term_counterexample :
  truthy " " = true
  /\ Spec.ciOccurs " " (Message.content Sample.m1)
  /\ MessageItem.renderBody Sample.rejectingEngine Sample.m1 " "
     = Normal (MessageItem.MarkdownContent (Message.content Sample.m1))
  /\ includes (Message.content Sample.m1) MessageItem.markOpen = false
  /\ ~ Spec.Highlighted " " (Message.content Sample.m1)
         (Message.content Sample.m1).
Proof.
  assert (O : Spec.ciOccurs " " (Message.content Sample.m1))
    by (rewrite <- includes_ciOccurs; reflexivity).
  repeat split; try reflexivity; try exact O.
  intro H. now apply (Highlighted_same _ _ H).
Qed.

(** *** The item as a whole *)

Section Item.
Variable nativeReplace : string -> string -> string -> Completion string.
Variable getTime : string -> option Z.
Variables distanceToNow toLocaleTimeString : Z -> string.
Variable toUpperCase : string -> string.

(** A viewer with a name always has initials. *)
Lemma getUserInitials_named (currentUser : User.t) (userId : string) :
  SpecMore.hasName currentUser = true ->
  exists initials,
    ItemView.getUserInitials toUpperCase currentUser userId
    = Normal initials.
Proof.
  unfold SpecMore.hasName, ItemView.getUserInitials, JsMore.orElse,
    JsMore.orString.
  intro H. destruct (userId =? User.id currentUser); [|eauto].
  destruct (User.displayName currentUser) as [[|c name]|]; simpl in *;
    try (now eauto);
    destruct (User.email currentUser); simpl in *;
    try discriminate; eauto.
Qed.

(** With a creation time that parses and a viewer with a name, the item
    is rendered exactly when its body is, and with that body. *)
Lemma render_of_body (currentUser : User.t) (isHovered showAvatar : bool)
  (message : Message.t) (q : string) (content : MessageItem.Body) :
  getTime (Message.createdAt message) <> None ->
  SpecMore.hasName currentUser = true ->
  MessageItem.renderBody nativeReplace message q = Normal content ->
  exists view,
    ItemView.render nativeReplace getTime distanceToNow toLocaleTimeString
      toUpperCase currentUser isHovered showAvatar message q
    = Normal view
    /\ ItemView.body view = content.
Proof.
  intros Ht Hn Hb. unfold ItemView.render, ItemView.formatDistanceToNow.
  destruct (getTime (Message.createdAt message)) as [t|]; [|contradiction].
  destruct (getUserInitials_named currentUser (Message.userId message) Hn)
    as [initials Hi].
  rewrite Hi, Hb. destruct showAvatar; eexists; split; reflexivity.
Qed.

Lemma body_of_render (currentUser : User.t) (isHovered showAvatar : bool)
  (message : Message.t) (q : string) (view : ItemView.View) :
  ItemView.render nativeReplace getTime distanceToNow toLocaleTimeString
    toUpperCase currentUser isHovered showAvatar message q
  = Normal view ->
  MessageItem.renderBody nativeReplace message q
  = Normal (ItemView.body view).
Proof.
  unfold ItemView.render, ItemView.formatDistanceToNow.
  destruct (getTime (Message.createdAt message)) as [t|]; [|discriminate].
  destruct (if showAvatar then _ else _); [|discriminate].
  destruct (MessageItem.renderBody nativeReplace message q);
    [|discriminate].
  intro H. injection H as <-. reflexivity.
Qed.

End Item.

(** C8.  For a message whose creation time parses, shown to a viewer
    who has a display name or an e-mail address: a message of any type
    but [text] is rendered, under every search term and without an
    exception, with the line [Unsupported message type: ] followed by
    its tag as its body; a [text] message is rendered with the markdown
    of its content when the search term is blank, and with markdown
    when the term is made of plain pattern characters; and whenever an
    item is rendered, its body is markdown exactly when its type is
    [text]. *)
Theorem C8_render_by_type :
  forall (nativeReplace : string -> string -> string -> Completion string)
         (getTime : string -> option Z)
         (distanceToNow toLocaleTimeString : Z -> string)
         (toUpperCase : string -> string) (currentUser : User.t)
         (isHovered showAvatar : bool) (message : Message.t) (q : string),
    getTime (Message.createdAt message) <> None ->
    SpecMore.hasName currentUser = true ->
    (Message.messageType message <> "text" ->
     exists view,
       ItemView.render nativeReplace getTime distanceToNow
         toLocaleTimeString toUpperCase currentUser isHovered showAvatar
         message q
       = Normal view
       /\ ItemView.body view
          = MessageItem.UnsupportedMessageType
              ("Unsupported message type: " ++ Message.messageType message))
    /\ (Message.messageType message = "text" ->
        (trim q = EmptyString ->
         exists view,
           ItemView.render nativeReplace getTime distanceToNow
             toLocaleTimeString toUpperCase currentUser isHovered showAvatar
             message q
           = Normal view
           /\ ItemView.body view
              = MessageItem.MarkdownContent (Message.content message))
        /\ (allPatternCharacters q = true ->
            exists view children,
              ItemView.render nativeReplace getTime distanceToNow
                toLocaleTimeString toUpperCase currentUser isHovered
                showAvatar message q
              = Normal view
              /\ ItemView.body view = MessageItem.MarkdownContent children))
    /\ (forall view,
           ItemView.render nativeReplace getTime distanceToNow
             toLocaleTimeString toUpperCase currentUser isHovered showAvatar
             message q
           = Normal view ->
           (exists children,
               ItemView.body view = MessageItem.MarkdownContent children)
           <-> Message.messageType message = "text").
Proof.
  intros nativeReplace getTime distanceToNow toLocaleTimeString toUpperCase
    currentUser isHovered showAvatar message q Ht Hn.
  split; [|split].
  - intro Htype. apply render_of_body; try assumption.
    now apply renderBody_other.
  - intro Htype. split.
    + intro Hq. apply render_of_body; try assumption.
      rewrite (renderBody_blank nativeReplace message q Hq).
      now rewrite (renderBody_text nativeReplace message _ Htype).
    + intro Hq.
      assert (B : exists children,
                 MessageItem.renderBody nativeReplace message q
                 = Normal (MessageItem.MarkdownContent children)).
      { rewrite (renderBody_text nativeReplace message q Htype).
        destruct (truthy q) eqn:T; [|eauto].
        destruct (string_dec (trim q) EmptyString) as [E|E].
        - rewrite (highlightSearchTerm_blank nativeReplace _ q E). eauto.
        - rewrite (highlightSearchTerm_literal nativeReplace _ q E Hq).
          eauto. }
      destruct B as [children B].
      destruct (render_of_body nativeReplace getTime distanceToNow
                  toLocaleTimeString toUpperCase currentUser isHovered
                  showAvatar message q _ Ht Hn B) as (view & R & Bv).
      exists view, children. auto.
  - intros view R.
    apply body_of_render in R.
    destruct (string_dec (Message.messageType message) "text") as [E|E].
    + split; [intros _; exact E|]. intros _.
      rewrite (renderBody_text nativeReplace message q E) in R.
      destruct (if truthy q then _ else _) as [children|];
        [|discriminate].
      injection R as <-. eauto.
    + rewrite (renderBody_other nativeReplace message q E) in R.
      injection R as <-.
      split; [intros [children H]; discriminate H | contradiction].
Qed.

Lemma C8_render_by_type_witness :
  exists view,
    ItemView.render Sample.rejectingEngine isoGetTime SampleMore.someTimeAgo
      SampleMore.someTimeOfDay SampleMore.asIs Sample.ada false true
      Sample.sticker "party"
    = Normal view
    /\ ItemView.body view
       = MessageItem.UnsupportedMessageType
           ("Unsupported message type: " ++ Message.messageType Sample.sticker).
Proof.
  refine (proj1
            (C8_render_by_type Sample.rejectingEngine isoGetTime
               SampleMore.someTimeAgo SampleMore.someTimeOfDay
               SampleMore.asIs Sample.ada false true Sample.sticker "party"
               _ _) _).
  - vm_compute. discriminate.
  - reflexivity.
  - vm_compute. discriminate.
Defined.

(** The claim as it is written fails in three ways: a sticker whose
    creation time is no date raises when its age is worded; the own
    sticker of a viewer without a name and without an address raises
    when the initials are taken; and a [text] message under the search
    term [c++] raises instead of giving markdown when the engine
    rejects the pattern [(c++)], as the host's does (nothing to
    repeat). *)
Lemma C8_raising_render_counterexample :
  ItemView.render Sample.rejectingEngine isoGetTime SampleMore.someTimeAgo
    SampleMore.someTimeOfDay SampleMore.asIs Sample.ada false true
    SampleMore.undated EmptyString
  = Throw "RangeError: Invalid time value"
  /\ ItemView.render Sample.rejectingEngine isoGetTime
       SampleMore.someTimeAgo SampleMore.someTimeOfDay SampleMore.asIs
       SampleMore.nameless false true SampleMore.ownSticker EmptyString
     = Throw
         "TypeError: Cannot read properties of undefined (reading 'toUpperCase')"
  /\ ItemView.render Sample.rejectingEngine isoGetTime
       SampleMore.someTimeAgo SampleMore.someTimeOfDay SampleMore.asIs
       Sample.ada false true Sample.m2 "c++"
     = Throw "SyntaxError: Invalid regular expression: /(c++)/".
Proof. repeat split; vm_compute; reflexivity. Qed.

(** The sample messages as items: a message of the viewer with its
    header, and a sticker. *)
Example render_sample :
  ItemView.render Sample.rejectingEngine isoGetTime SampleMore.someTimeAgo
    SampleMore.someTimeOfDay SampleMore.asIs Sample.ada false true
    Sample.m1 EmptyString
  = Normal
      {| ItemView.gutter := "A";
         ItemView.header := Some ("Ada", "3 minutes ago");
         ItemView.body := MessageItem.MarkdownContent "say hello world";
         ItemView.thread := None;
         ItemView.actions := true;
         ItemView.ownerEntries := true |}.
Proof. reflexivity. Qed.

Lemma mapIndexFrom_ext {A B : Type} (f g : A -> nat -> B) (k : nat)
  (l : list A) :
  (forall x i, f x i = g x i) ->
  MessageList.mapIndexFrom f k l = MessageList.mapIndexFrom g k l.
Proof.
  intro H. revert k; induction l as [|x l IH]; intro k; simpl;
    [reflexivity | now rewrite H, IH].
Qed.

(** C10.  A search term made only of white space acts as no search term:
    every message is displayed, with the grouping and the rendered body
    it has under the empty search term (so without highlight marker),
    and an empty message list is shown as the beginning of the
    conversation, not as a search without results. *)
Theorem C10_blank_filter_is_no_filter :
  forall (getTime : string -> option Z)
         (nativeReplace : string -> string -> string -> Completion string)
         (messages : list Message.t) (q : string),
    trim q = EmptyString ->
    map fst (MessageList.assemble getTime messages q) = messages
    /\ MessageList.assemble getTime messages q
       = MessageList.assemble getTime messages EmptyString
    /\ (forall m,
           MessageItem.renderBody nativeReplace m q
           = MessageItem.renderBody nativeReplace m EmptyString
           /\ (Message.messageType m = "text" ->
               MessageItem.renderBody nativeReplace m q
               = Normal (MessageItem.MarkdownContent (Message.content m))))
    /\ MessageList.display nativeReplace
         (MessageList.MessageList getTime messages q)
       = MessageList.display nativeReplace
           (MessageList.MessageList getTime messages EmptyString)
    /\ (messages = [] ->
        MessageList.MessageList getTime messages q
        = MessageList.BeginningOfConversation).
Proof.
  intros getTime nativeReplace messages q Hq.
  assert (F : MessageList.filteredMessages messages q = messages).
  { apply filter_all. intro m. now apply passesFilter_blank. }
  assert (F0 : MessageList.filteredMessages messages EmptyString = messages).
  { apply filter_all. intro m. now apply passesFilter_blank. }
  assert (R : forall m,
    MessageItem.renderBody nativeReplace m q
    = MessageItem.renderBody nativeReplace m EmptyString)
    by (intro m; now apply renderBody_blank).
  split; [|split; [|split; [|split]]].
  - now rewrite assemble_messages.
  - unfold MessageList.assemble, MessageList.items, MessageList.mapIndex.
    rewrite F, F0, !mapIndexFrom_map. reflexivity.
  - intro m. split; [apply R|]. intro Htype.
    rewrite R. now rewrite (renderBody_text nativeReplace m _ Htype).
  - unfold MessageList.MessageList. rewrite F, F0, Hq.
    change (trim EmptyString) with EmptyString.
    destruct (List.length messages =? 0)%nat; [reflexivity|].
    unfold MessageList.display, MessageList.items, MessageList.mapIndex.
    rewrite !mapIndexFrom_map. f_equal.
    apply mapIndexFrom_ext. intros x i. simpl. now rewrite R.
  - intros ->. unfold MessageList.MessageList. simpl. now rewrite Hq.
Qed.

Lemma C10_blank_filter_is_no_filter_witness :
  MessageList.display Sample.rejectingEngine
    (MessageList.MessageList isoGetTime [Sample.m1; Sample.m2] "  ")
  = MessageList.display Sample.rejectingEngine
      (MessageList.MessageList isoGetTime [Sample.m1; Sample.m2]
         EmptyString).
Proof.
  apply (C10_blank_filter_is_no_filter isoGetTime Sample.rejectingEngine
           [Sample.m1; Sample.m2] "  ").
  reflexivity.
Defined.

(** ** The delete confirmation *)

Lemma filter_remove_unique (pre post : list Message.t) (message : Message.t) :
  NoDup (map Message.id (pre ++ message :: post)) ->
  filter (fun m => negb (Message.id m =? Message.id message))
    (pre ++ message :: post)
  = pre ++ post.
Proof.
  intro H. rewrite filter_app. simpl. rewrite String.eqb_refl. simpl.
  rewrite map_app in H. simpl in H.
  assert (Hpre : forall m, In m pre -> Message.id m <> Message.id message).
  { intros m Hin E. apply NoDup_remove_2 in H. apply H.
    apply in_or_app. left. rewrite <- E. now apply in_map. }
  assert (Hpost : forall m, In m post -> Message.id m <> Message.id message).
  { intros m Hin E. apply NoDup_remove_2 in H. apply H.
    apply in_or_app. right. rewrite <- E. now apply in_map. }
  f_equal.
  - clear H Hpost. induction pre as [|x pre IH]; simpl; [reflexivity|].
    pose proof (Hpre x (or_introl eq_refl)) as Hx.
    apply String.eqb_neq in Hx. rewrite Hx. simpl. f_equal.
    apply IH. intros m Hm. apply Hpre. now right.
  - clear H Hpre. induction post as [|x post IH]; simpl; [reflexivity|].
    pose proof (Hpost x (or_introl eq_refl)) as Hx.
    apply String.eqb_neq in Hx. rewrite Hx. simpl. f_equal.
    apply IH. intros m Hm. apply Hpost. now right.
Qed.

(** The delete confirmation when the remote delete is answered. *)
Lemma deleteConfirmed_resolved (w : World.t) (message : Message.t) :
  Spec.nextRequestRejected (World.db w) = false ->
  let w' := Eff.exec (ChatArea.deleteConfirmed message) w in
  World.messages (World.chat w')
  = filter (fun m => negb (Message.id m =? Message.id message))
      (World.messages (World.chat w))
  /\ Remote.messages (World.db w')
     = filter (fun m => negb (Message.id m =? Message.id message))
         (Remote.messages (World.db w))
  /\ World.toasts w' = World.toasts w ++ [MessageItem.deletedToast]
  /\ World.console w' = World.console w
  /\ World.item w'
     = {| World.isHovered := World.isHovered (World.item w);
          World.showDeleteDialog := false;
          World.isDeleting := false |}.
Proof.
  destruct w as [db clock ticks console toasts app chat item].
  destruct db as [groups members channels messages faults serverNow].
  unfold Spec.nextRequestRejected, Spec.sameTables. cbn. intro H.
  destruct faults as [|[] fs]; try discriminate; repeat split; reflexivity.
Qed.

(** The delete confirmation when the remote delete is rejected. *)
Lemma deleteConfirmed_rejected (w : World.t) (message : Message.t) :
  Spec.nextRequestRejected (World.db w) = true ->
  let w' := Eff.exec (ChatArea.deleteConfirmed message) w in
  World.chat w' = World.chat w
  /\ Spec.sameTables (World.db w') (World.db w)
  /\ World.toasts w' = World.toasts w ++ [MessageItem.deleteFailedToast]
  /\ World.item w'
     = {| World.isHovered := World.isHovered (World.item w);
          World.showDeleteDialog := World.showDeleteDialog (World.item w);
          World.isDeleting := false |}.
Proof.
  destruct w as [db clock ticks console toasts app chat item].
  destruct db as [groups members channels messages faults serverNow].
  unfold Spec.nextRequestRejected, Spec.sameTables. cbn. intro H.
  destruct faults as [|[] fs]; try discriminate; repeat split; reflexivity.
Qed.

(** C4.  Confirming the deletion of a message: when the remote delete is
    answered, the local list loses the records with the identifier of the
    message and keeps every other record in place (with unique
    identifiers, exactly the one record), and a success notification is
    shown; when the remote delete is rejected, the local list and the
    store are unchanged and the error notification is shown.  The local
    list changes only if the remote delete was answered. *)
Theorem C4_delete_only_after_remote_success :
  forall (w : World.t) (message : Message.t),
    (Spec.nextRequestRejected (World.db w) = false ->
     World.messages (World.chat (Eff.exec (ChatArea.deleteConfirmed message) w))
     = filter (fun m => negb (Message.id m =? Message.id message))
         (World.messages (World.chat w))
     /\ (forall pre post,
            World.messages (World.chat w) = pre ++ message :: post ->
            NoDup (map Message.id (World.messages (World.chat w))) ->
            World.messages
              (World.chat (Eff.exec (ChatArea.deleteConfirmed message) w))
            = pre ++ post)
     /\ Remote.messages
          (World.db (Eff.exec (ChatArea.deleteConfirmed message) w))
        = filter (fun m => negb (Message.id m =? Message.id message))
            (Remote.messages (World.db w))
     /\ World.toasts (Eff.exec (ChatArea.deleteConfirmed message) w)
        = World.toasts w ++ [MessageItem.deletedToast])
    /\ (Spec.nextRequestRejected (World.db w) = true ->
        World.chat (Eff.exec (ChatArea.deleteConfirmed message) w)
        = World.chat w
        /\ Spec.sameTables
             (World.db (Eff.exec (ChatArea.deleteConfirmed message) w))
             (World.db w)
        /\ World.toasts (Eff.exec (ChatArea.deleteConfirmed message) w)
           = World.toasts w ++ [MessageItem.deleteFailedToast])
    /\ (World.messages
          (World.chat (Eff.exec (ChatArea.deleteConfirmed message) w))
        <> World.messages (World.chat w) ->
        Spec.nextRequestRejected (World.db w) = false).
Proof.
  intros w message. split; [|split].
  - intro H.
    destruct (deleteConfirmed_resolved w message H) as (Hl & Hr & Ht & _).
    repeat split; try assumption.
    intros pre post E N. rewrite Hl, E. apply filter_remove_unique.
    now rewrite <- E.
  - intro H.
    destruct (deleteConfirmed_rejected w message H) as (Hc & Hs & Ht & _).
    auto.
  - intro H. destruct (Spec.nextRequestRejected (World.db w)) eqn:E;
      [|reflexivity].
    destruct (deleteConfirmed_rejected w message E) as (Hc & _).
    exfalso. apply H. now rewrite Hc.
Qed.

Lemma C4_delete_only_after_remote_success_witness :
  World.messages
    (World.chat
       (Eff.exec (ChatArea.deleteConfirmed Sample.m2) Sample.freshWorld))
  = [Sample.m1; Sample.m3]
  /\ World.chat
       (Eff.exec (ChatArea.deleteConfirmed Sample.m2) Sample.offlineWorld)
     = World.chat Sample.offlineWorld.
Proof.
  split.
  - apply (proj1 (proj2 (proj1
             (C4_delete_only_after_remote_success Sample.freshWorld
                Sample.m2) eq_refl)) [Sample.m1] [Sample.m3]).
    + reflexivity.
    + vm_compute. repeat constructor; simpl; intuition discriminate.
  - apply (proj1 (proj2 (C4_delete_only_after_remote_success
                           Sample.offlineWorld Sample.m2))).
    reflexivity.
Defined.

(** ** The first-login bootstrap *)

(** With every request answered, fetching groups leaves the world as it
    is. *)
Lemma fetchGroups_answered (groupIds : list string) :
  forall (groupsData : list Group.t) (w : World.t),
    Remote.faults (World.db w) = [] ->
    exists fetched, App.fetchGroups groupIds groupsData w = (Normal fetched, w).
Proof.
  induction groupIds as [|groupId rest IH]; intros groupsData w Hf.
  - exists groupsData. reflexivity.
  - destruct w as [db clock ticks console toasts app chat item].
    destruct db as [groups members channels messages faults serverNow].
    cbn in Hf. subst faults.
    cbn [App.fetchGroups].
    unfold Eff.bind at 1, Eff.tryCatch, Eff.bind at 1, Eff.await,
      Remote.groups_list, Remote.request.
    cbn [World.db Remote.faults Remote.groups World.withDb World.clock
         World.ticks World.console World.toasts World.app World.chat
         World.item].
    destruct (firstn 1 (filter (fun g => Group.id g =? groupId) groups))
      as [|g l]; cbn [Eff.ret]; apply IH; reflexivity.
Qed.

Lemma sameCell_refl (x : option string) : App.sameCell x x = true.
Proof. destruct x; simpl; [apply String.eqb_refl | reflexivity]. Qed.

Lemma sameDeps_refl (d : App.Deps) : App.sameDeps d d = true.
Proof. unfold App.sameDeps. now rewrite !sameCell_refl. Qed.

(** ** Ordered answers of the store *)

Section Ordered.
Context {A : Type}.
Variable field : A -> string.

Lemma insertAsc_perm (x : A) (l : list A) :
  Permutation (Remote.insertAsc field x l) (x :: l).
Proof.
  induction l as [|y l IH]; simpl; [apply Permutation_refl|].
  destruct (field x <=? field y)%string; [apply Permutation_refl|].
  eapply Permutation_trans; [apply perm_skip, IH | apply perm_swap].
Qed.

Lemma orderAsc_perm (l : list A) : Permutation (Remote.orderAsc field l) l.
Proof.
  induction l as [|x l IH]; simpl; [apply Permutation_refl|].
  eapply Permutation_trans; [apply insertAsc_perm | now apply perm_skip].
Qed.

Lemma insertDesc_perm (x : A) (l : list A) :
  Permutation (Remote.insertDesc field x l) (x :: l).
Proof.
  induction l as [|y l IH]; simpl; [apply Permutation_refl|].
  destruct (field y <=? field x)%string; [apply Permutation_refl|].
  eapply Permutation_trans; [apply perm_skip, IH | apply perm_swap].
Qed.

Lemma orderDesc_perm (l : list A) : Permutation (Remote.orderDesc field l) l.
Proof.
  induction l as [|x l IH]; simpl; [apply Permutation_refl|].
  eapply Permutation_trans; [apply insertDesc_perm | now apply perm_skip].
Qed.

Lemma orderAsc_nil (l : list A) : Remote.orderAsc field l = [] <-> l = [].
Proof.
  split; [|now intros ->].
  intro E. pose proof (orderAsc_perm l) as P. rewrite E in P.
  now apply Permutation_nil.
Qed.

Lemma orderDesc_nil (l : list A) : Remote.orderDesc field l = [] <-> l = [].
Proof.
  split; [|now intros ->].
  intro E. pose proof (orderDesc_perm l) as P. rewrite E in P.
  now apply Permutation_nil.
Qed.

End Ordered.

Section Bootstrap.
Variable getTime : string -> option Z.

(** [loadGroups] for a user who has a workspace, with a workspace
    selected: only the list of workspaces shown is refreshed. *)
Lemma loadGroups_member (u : User.t) (activeGroup : option string)
  (w : World.t) :
  Spec.membershipsOf (User.id u) (World.db w) <> [] ->
  App.falsy activeGroup = false ->
  Remote.faults (World.db w) = [] ->
  exists shown,
    Eff.exec (App.loadGroups getTime u activeGroup) w
    = Eff.exec (App.setGroups shown) w.
Proof.
  intros Hm Ha Hf.
  destruct w as [db clock ticks console toasts app chat item].
  destruct db as [groups members channels messages faults serverNow].
  unfold Spec.membershipsOf in Hm. cbn in Hm, Hf. subst faults.
  unfold Eff.exec, App.loadGroups, Eff.tryCatch.
  unfold Eff.bind at 1, Eff.await at 1, Remote.groupMembers_list,
    Remote.request.
  cbn [World.db Remote.faults Remote.groupMembers World.withDb World.clock
         World.ticks World.console World.toasts World.app World.chat
         World.item].
  destruct (Remote.orderDesc GroupMember.joinedAt (filter _ members))
    as [|gm gms] eqn:E; [apply orderDesc_nil in E; congruence|].
  cbn [List.length Nat.ltb Nat.leb].
  unfold Eff.bind at 1.
  match goal with
  | |- context [App.fetchGroups ?ids ?acc ?w0] =>
      destruct (fetchGroups_answered ids acc w0 eq_refl) as [fetched ->]
  end.
  rewrite Ha. exists (App.sortGroups getTime fetched).
  destruct (App.sortGroups getTime fetched) as [|g gs]; reflexivity.
Qed.

(** [loadChannels] with a channel selected: only the list of channels
    shown is refreshed. *)
Lemma loadChannels_selected (g : string) (activeChannel : option string)
  (w : World.t) :
  App.falsy activeChannel = false ->
  Remote.faults (World.db w) = [] ->
  exists shown,
    Eff.exec (App.loadChannels g activeChannel) w
    = Eff.exec (App.setChannels shown) w.
Proof.
  intros Ha Hf.
  destruct w as [db clock ticks console toasts app chat item].
  destruct db as [groups members channels messages faults serverNow].
  cbn in Hf. subst faults.
  unfold Eff.exec, App.loadChannels, Eff.tryCatch, Eff.bind, Eff.await,
    Remote.channels_list, Remote.request.
  rewrite Ha. cbn [World.db Remote.faults Remote.channels].
  exists (Remote.orderAsc Channel.createdAt
            (filter (fun c => Channel.groupId c =? g) channels)).
  destruct (Remote.orderAsc Channel.createdAt
              (filter (fun c => Channel.groupId c =? g) channels))
    as [|c cs]; reflexivity.
Qed.

(** [loadGroups] for a user without a workspace, every request being
    answered: one workspace, one membership and one channel are created
    and selected. *)
Lemma loadGroups_bootstrap (u : User.t) (activeGroup : option string)
  (w : World.t) :
  Spec.membershipsOf (User.id u) (World.db w) = [] ->
  Remote.faults (World.db w) = [] ->
  exists (g : Group.t) (m : GroupMember.t) (c : Channel.t),
    Remote.groups (World.db (Eff.exec (App.loadGroups getTime u activeGroup) w)) = Remote.groups (World.db w) ++ [g]
    /\ Remote.groupMembers (World.db (Eff.exec (App.loadGroups getTime u activeGroup) w))
       = Remote.groupMembers (World.db w) ++ [m]
    /\ Remote.channels (World.db (Eff.exec (App.loadGroups getTime u activeGroup) w)) = Remote.channels (World.db w) ++ [c]
    /\ Remote.messages (World.db (Eff.exec (App.loadGroups getTime u activeGroup) w)) = Remote.messages (World.db w)
    /\ Remote.faults (World.db (Eff.exec (App.loadGroups getTime u activeGroup) w)) = []
    /\ (Group.name g = "General" /\ Group.createdBy g = User.id u)
    /\ (GroupMember.role m = "admin"
        /\ GroupMember.userId m = User.id u
        /\ GroupMember.groupId m = Group.id g)
    /\ (Channel.name c = "general" /\ Channel.groupId c = Group.id g)
    /\ World.user (World.app (Eff.exec (App.loadGroups getTime u activeGroup) w)) = World.user (World.app w)
    /\ World.groups (World.app (Eff.exec (App.loadGroups getTime u activeGroup) w)) = [g]
    /\ World.channels (World.app (Eff.exec (App.loadGroups getTime u activeGroup) w)) = [c]
    /\ World.activeGroup (World.app (Eff.exec (App.loadGroups getTime u activeGroup) w)) = Some (Group.id g)
    /\ World.activeChannel (World.app (Eff.exec (App.loadGroups getTime u activeGroup) w)) = Some (Channel.id c)
    /\ App.falsy (Some (Group.id g)) = false
    /\ App.falsy (Some (Channel.id c)) = false.
Proof.
  intros Hm Hf.
  destruct w as [db clock ticks console toasts app chat item].
  destruct db as [groups members channels messages faults serverNow].
  unfold Spec.membershipsOf in Hm. cbn in Hm, Hf. subst faults.
  unfold Eff.exec, App.loadGroups, Eff.tryCatch, Eff.bind, Eff.await,
    Remote.groupMembers_list, Remote.request.
  cbn [World.db Remote.faults Remote.groupMembers]. rewrite Hm.
  cbn -[numberToString].
  do 3 eexists. repeat split; reflexivity.
Qed.


Lemma sameSelection_refl (w : World.t) : Spec.sameSelection w w.
Proof. unfold Spec.sameSelection. auto. Qed.

Lemma sameSelection_trans (w1 w2 w3 : World.t) :
  Spec.sameSelection w1 w2 -> Spec.sameSelection w2 w3 ->
  Spec.sameSelection w1 w3.
Proof.
  unfold Spec.sameSelection.
  intros (A1 & A2 & A3 & A4) (B1 & B2 & B3 & B4).
  repeat split; congruence.
Qed.

Lemma settledFor_sameSelection (u : User.t) (w' w : World.t) :
  Spec.settledFor u w -> Spec.sameSelection w' w -> Spec.settledFor u w'.
Proof.
  unfold Spec.settledFor, Spec.sameSelection.
  intros (A1 & A2 & A3 & A4 & A5) (B1 & B2 & B3 & B4).
  rewrite B1, B2, B3, B4. auto.
Qed.

Lemma setGroups_sameSelection (x : list Group.t) (w : World.t) :
  Spec.sameSelection (Eff.exec (App.setGroups x) w) w.
Proof. destruct w. unfold Spec.sameSelection. cbn. auto. Qed.

Lemma setChannels_sameSelection (x : list Channel.t) (w : World.t) :
  Spec.sameSelection (Eff.exec (App.setChannels x) w) w.
Proof. destruct w. unfold Spec.sameSelection. cbn. auto. Qed.

(** Once the user has a workspace and the selections are made, the
    effects only refresh the lists shown. *)
Lemma groupsEffect_settled (u : User.t) (a : World.AppState) (w : World.t) :
  World.user a = Some u ->
  App.falsy (World.activeGroup a) = false ->
  Spec.settledFor u w ->
  Spec.sameSelection (Eff.exec (App.groupsEffect getTime a) w) w.
Proof.
  intros Hu Ha (_ & Hm & _ & _ & Hf).
  unfold App.groupsEffect. rewrite Hu.
  destruct (truthy (User.id u)); [|apply sameSelection_refl].
  destruct (loadGroups_member u (World.activeGroup a) w Hm Ha Hf)
    as [shown ->].
  apply setGroups_sameSelection.
Qed.

Lemma channelsEffect_settled (u : User.t) (a : World.AppState) (w : World.t) :
  App.falsy (World.activeChannel a) = false ->
  Spec.settledFor u w ->
  Spec.sameSelection (Eff.exec (App.channelsEffect a) w) w.
Proof.
  intros Ha (_ & _ & _ & _ & Hf).
  unfold App.channelsEffect.
  destruct (World.activeGroup a) as [g|]; [|apply sameSelection_refl].
  destruct (truthy g); [|apply sameSelection_refl].
  destruct (loadChannels_selected g (World.activeChannel a) w Ha Hf)
    as [shown ->].
  apply setChannels_sameSelection.
Qed.

Lemma commit_settled (u : User.t) :
  forall (fuel : nat) (memo : App.Memo) (w : World.t),
    Spec.settledFor u w ->
    Spec.sameSelection (App.commit getTime fuel memo w) w.
Proof.
  induction fuel as [|fuel IH]; intros memo w Hs.
  - apply sameSelection_refl.
  - cbn [App.commit].
    pose proof Hs as (Hu & _ & Hg & Hc & _).
    pose proof (groupsEffect_settled u (World.app w) w Hu Hg Hs) as SG.
    pose proof (settledFor_sameSelection u _ w Hs SG) as HG.
    pose proof (channelsEffect_settled u (World.app w) w Hc Hs) as SC.
    pose proof (settledFor_sameSelection u _ w Hs SC) as HC.
    pose proof (channelsEffect_settled u (World.app w) _ Hc HG) as SGC.
    pose proof (settledFor_sameSelection u _ _ HG SGC) as HGC.
    destruct (App.sameDeps (App.groupsMemo memo)
                (App.groupsDeps (World.app w)));
      destruct (App.sameDeps (App.channelsMemo memo)
                  (App.channelsDeps (World.app w)));
      cbn [negb andb].
    + apply sameSelection_refl.
    + eapply sameSelection_trans; [apply IH; exact HC | exact SC].
    + eapply sameSelection_trans; [apply IH; exact HG | exact SG].
    + eapply sameSelection_trans; [apply IH; exact HGC|].
      eapply sameSelection_trans; [exact SGC | exact SG].
Qed.

End Bootstrap.

(** The auth callback writes the two cells [user] and [loading] of
    [App]; the store, the clock, the console, the toasts and the other
    cells of [App] are as before. *)
Lemma authChanged_cells (user : option User.t) (isLoading : bool)
  (w : World.t) :
  World.db (Eff.exec (App.authChanged user isLoading) w) = World.db w
  /\ World.user (World.app (Eff.exec (App.authChanged user isLoading) w))
     = user
  /\ World.loading (World.app (Eff.exec (App.authChanged user isLoading) w))
     = isLoading
  /\ World.groups (World.app (Eff.exec (App.authChanged user isLoading) w))
     = World.groups (World.app w)
  /\ World.channels (World.app (Eff.exec (App.authChanged user isLoading) w))
     = World.channels (World.app w)
  /\ World.activeGroup
       (World.app (Eff.exec (App.authChanged user isLoading) w))
     = World.activeGroup (World.app w)
  /\ World.activeChannel
       (World.app (Eff.exec (App.authChanged user isLoading) w))
     = World.activeChannel (World.app w)
  /\ World.clock (Eff.exec (App.authChanged user isLoading) w)
     = World.clock w
  /\ World.ticks (Eff.exec (App.authChanged user isLoading) w)
     = World.ticks w
  /\ World.console (Eff.exec (App.authChanged user isLoading) w)
     = World.console w
  /\ World.toasts (Eff.exec (App.authChanged user isLoading) w)
     = World.toasts w.
Proof.
  destruct w as [db clock ticks console toasts app chat item].
  unfold Eff.exec, App.authChanged, App.remountChat, App.setUser,
    App.setLoading, Eff.bind, Eff.modify.
  cbn [snd fst World.app World.withApp World.db World.clock World.ticks
       World.console World.toasts World.chat World.item].
  match goal with
  | |- context [if ?b then _ else _] => destruct b
  end; cbn; repeat split; reflexivity.
Qed.

(** A sign-in of a user without a workspace, every request being
    answered: after any positive number of renders the store holds one
    more workspace, one more membership and one more channel, and the
    new workspace and channel are selected. *)
Lemma bootstrap_nominal :
  forall (getTime : string -> option Z) (w : World.t) (u : User.t)
         (isLoading : bool) (fuel : nat),
    World.user (World.app w) = None ->
    truthy (User.id u) = true ->
    Spec.membershipsOf (User.id u) (World.db w) = [] ->
    Remote.faults (World.db w) = [] ->
    1 <= fuel ->
    exists (g : Group.t) (m : GroupMember.t) (c : Channel.t),
      Remote.groups
        (World.db (App.onAuthStateChanged getTime fuel (Some u) isLoading w))
      = Remote.groups (World.db w) ++ [g]
      /\ Remote.groupMembers
           (World.db (App.onAuthStateChanged getTime fuel (Some u) isLoading w))
         = Remote.groupMembers (World.db w) ++ [m]
      /\ Remote.channels
           (World.db (App.onAuthStateChanged getTime fuel (Some u) isLoading w))
         = Remote.channels (World.db w) ++ [c]
      /\ (Group.name g = "General" /\ Group.createdBy g = User.id u)
      /\ (GroupMember.role m = "admin"
          /\ GroupMember.userId m = User.id u
          /\ GroupMember.groupId m = Group.id g)
      /\ (Channel.name c = "general" /\ Channel.groupId c = Group.id g)
      /\ World.activeGroup
           (World.app (App.onAuthStateChanged getTime fuel (Some u) isLoading w))
         = Some (Group.id g)
      /\ World.activeChannel
           (World.app (App.onAuthStateChanged getTime fuel (Some u) isLoading w))
         = Some (Channel.id c).
Proof.
  intros getTime w u isLoading fuel Hnone Hid Hm Hf Hfuel.
  destruct fuel as [|fuel]; [lia|].
  unfold App.onAuthStateChanged.
  pose proof (authChanged_cells (Some u) isLoading w)
    as (Hdb0 & Hu0 & _ & _ & _ & Hg0 & Hc0 & _).
  set (w0 := Eff.exec (App.authChanged (Some u) isLoading) w) in *.
  clearbody w0. cbn [App.commit].
  assert (RG : App.sameDeps (App.groupsMemo (App.memoOf (World.app w)))
                 (App.groupsDeps (World.app w0)) = false).
  { unfold App.sameDeps, App.memoOf, App.groupsDeps.
    cbn [App.groupsMemo fst]. rewrite Hnone, Hu0. reflexivity. }
  assert (RC : App.sameDeps (App.channelsMemo (App.memoOf (World.app w)))
                 (App.channelsDeps (World.app w0)) = true).
  { unfold App.memoOf, App.channelsDeps. cbn [App.channelsMemo].
    rewrite Hg0, Hc0. apply sameDeps_refl. }
  rewrite RG, RC. cbn [negb andb].
  assert (EG : App.groupsEffect getTime (World.app w0)
               = App.loadGroups getTime u (World.activeGroup (World.app w0)))
    by (unfold App.groupsEffect; now rewrite Hu0, Hid).
  rewrite EG.
  rewrite <- Hdb0 in Hm, Hf.
  destruct (loadGroups_bootstrap getTime u
              (World.activeGroup (World.app w0)) w0 Hm Hf)
    as (g & m & c & Eg & Em & Ec & _ & Ef & Pg & Pm & Pc
        & Eu & _ & _ & Eag & Eac & Tg & Tc).
  set (w1 := Eff.exec (App.loadGroups getTime u
                         (World.activeGroup (World.app w0))) w0) in *.
  clearbody w1.
  assert (S1 : Spec.settledFor u w1).
  { unfold Spec.settledFor, Spec.membershipsOf.
    rewrite Eu, Hu0, Em, Eag, Eac, Ef, filter_app.
    repeat split; try assumption.
    cbn [filter]. destruct Pm as (_ & -> & _). rewrite String.eqb_refl.
    intro H. apply app_eq_nil in H. destruct H. discriminate. }
  destruct (commit_settled getTime u fuel (App.memoOf (World.app w0)) w1 S1)
    as (Sdb & _ & Sg & Sc).
  exists g, m, c. rewrite Sdb, Sg, Sc, Eg, Em, Ec, Eag, Eac, Hdb0.
  repeat split; tauto.
Qed.

Lemma sameTables_refl (db : Remote.Db) : Spec.sameTables db db.
Proof. unfold Spec.sameTables. auto. Qed.

Lemma sameTables_trans (x y z : Remote.Db) :
  Spec.sameTables x y -> Spec.sameTables y z -> Spec.sameTables x z.
Proof.
  unfold Spec.sameTables. intros (A1 & A2 & A3 & A4) (B1 & B2 & B3 & B4).
  repeat split; congruence.
Qed.

Lemma quiet_refl (w : World.t) : Spec.quiet w w.
Proof. split; [apply sameTables_refl | reflexivity]. Qed.

Lemma quiet_trans (w1 w2 w3 : World.t) :
  Spec.quiet w1 w2 -> Spec.quiet w2 w3 -> Spec.quiet w1 w3.
Proof.
  intros [A1 A2] [B1 B2]. split; [|congruence].
  now apply (sameTables_trans _ (World.db w2)).
Qed.

(** Fetching groups changes neither a table nor the state of [App],
    whichever requests are rejected. *)
Lemma fetchGroups_quiet (groupIds : list string) :
  forall (groupsData : list Group.t) (w : World.t),
    exists fetched w',
      App.fetchGroups groupIds groupsData w = (Normal fetched, w')
      /\ Spec.quiet w' w.
Proof.
  induction groupIds as [|groupId rest IH]; intros groupsData w.
  - exists groupsData, w. split; [reflexivity | apply quiet_refl].
  - destruct w as [db clock ticks console toasts app chat item].
    destruct db as [groups members channels messages faults serverNow].
    cbn [App.fetchGroups].
    unfold Eff.bind at 1, Eff.tryCatch, Eff.bind at 1, Eff.await,
      Remote.groups_list, Remote.request.
    cbn [World.db Remote.faults].
    destruct faults as [|[] fs];
      cbn [Remote.withFaults Remote.groups Remote.groupMembers
           Remote.channels Remote.messages Remote.serverNow Remote.faults
           World.withDb World.db World.clock World.ticks World.console
           World.toasts World.app World.chat World.item].
    + destruct (firstn 1 (filter (fun g => Group.id g =? groupId) groups))
        as [|g l]; cbn [Eff.ret];
        match goal with
        | |- context [App.fetchGroups rest ?acc ?w0] =>
            destruct (IH acc w0) as (fetched & w' & -> & Q)
        end; exists fetched, w'; (split; [reflexivity | exact Q]).
    + unfold Eff.bind, Eff.consoleWrite, Eff.modify, Eff.ret.
      cbn [World.withConsole World.db World.clock World.ticks World.console
           World.toasts World.app World.chat World.item].
      match goal with
      | |- context [App.fetchGroups rest ?acc ?w0] =>
          destruct (IH acc w0) as (fetched & w' & -> & Q)
      end. exists fetched, w'. split; [reflexivity|].
      eapply quiet_trans; [exact Q|]. split; [|reflexivity].
      unfold Spec.sameTables. cbn. auto.
    + destruct (firstn 1 (filter (fun g => Group.id g =? groupId) groups))
        as [|g l]; cbn [Eff.ret];
        match goal with
        | |- context [App.fetchGroups rest ?acc ?w0] =>
            destruct (IH acc w0) as (fetched & w' & -> & Q)
        end; exists fetched, w';
        (split; [reflexivity|]);
        (eapply quiet_trans; [exact Q|]); (split; [|reflexivity]);
        unfold Spec.sameTables; cbn; auto.
Qed.

Lemma sameTables_grown (db' db : Remote.Db) :
  Spec.sameTables db' db -> Spec.grownByAtMostOne db' db.
Proof.
  intros (A1 & A2 & A3 & A4). exists [], [], [].
  rewrite !app_nil_r. simpl. repeat split; auto.
Qed.

Lemma membershipsOf_sameTables (userId : string) (db' db : Remote.Db) :
  Spec.sameTables db' db ->
  Spec.membershipsOf userId db' = Spec.membershipsOf userId db.
Proof.
  intros (_ & A2 & _). unfold Spec.membershipsOf. now rewrite A2.
Qed.

Lemma tryCatch_bind_Normal {A B : Type} (m : Eff.M A) (k : A -> Eff.M B)
  (h : string -> Eff.M B) (w w1 : World.t) (a : A) :
  m w = (Normal a, w1) ->
  Eff.tryCatch (Eff.bind m k) h w = Eff.tryCatch (k a) h w1.
Proof. unfold Eff.tryCatch, Eff.bind. now intros ->. Qed.

Lemma tryCatch_bind_Throw {A B : Type} (m : Eff.M A) (k : A -> Eff.M B)
  (h : string -> Eff.M B) (w w1 : World.t) (e : string) :
  m w = (Throw e, w1) ->
  Eff.tryCatch (Eff.bind m k) h w = h e w1.
Proof. unfold Eff.tryCatch, Eff.bind. now intros ->. Qed.

Section BootstrapAnyFaults.
Variable getTime : string -> option Z.

(** The branch of [loadGroups] for a user with memberships: it reads
    the store and sets what is shown, nothing else. *)
Lemma showGroups_quiet (activeGroup : option string)
  (userGroups : list GroupMember.t) (w0 : World.t) :
  let w' :=
    snd (Eff.tryCatch
           (Eff.bind
              (App.fetchGroups (map GroupMember.groupId userGroups) [])
              (fun fetched =>
                 Eff.bind
                   (App.setGroups (App.sortGroups getTime fetched))
                   (fun _ =>
                      match App.sortGroups getTime fetched with
                      | [] => Eff.ret tt
                      | g :: _ =>
                          if App.falsy activeGroup
                          then App.setActiveGroup (Some (Group.id g))
                          else Eff.ret tt
                      end)))
           (fun error =>
              Eff.consoleWrite ("Error loading groups: " ++ error)) w0)
  in
  Spec.sameTables (World.db w') (World.db w0)
  /\ World.user (World.app w') = World.user (World.app w0).
Proof.
  cbv zeta.
  destruct (fetchGroups_quiet (map GroupMember.groupId userGroups) [] w0)
    as (fetched & w1 & F & [T1 A1]).
  rewrite (tryCatch_bind_Normal _ _ _ _ _ _ F).
  rewrite <- A1.
  destruct w1 as [db1 clock1 ticks1 console1 toasts1 app1 chat1 item1].
  cbn [World.db World.app] in *.
  destruct (App.sortGroups getTime fetched) as [|g gs];
    [|destruct (App.falsy activeGroup)];
    cbn; (split; [exact T1 | reflexivity]).
Qed.

(** Whatever requests are rejected, one run of [loadGroups] adds at most
    one record to each table, keeps the user, and either leaves the
    state of [App] as it was or leaves the user with a workspace. *)
Lemma loadGroups_outcome (u : User.t) (activeGroup : option string)
  (w : World.t) :
  Spec.grownByAtMostOne
    (World.db (Eff.exec (App.loadGroups getTime u activeGroup) w))
    (World.db w)
  /\ World.user
       (World.app (Eff.exec (App.loadGroups getTime u activeGroup) w))
     = World.user (World.app w)
  /\ (World.app (Eff.exec (App.loadGroups getTime u activeGroup) w)
      = World.app w
      \/ Spec.membershipsOf (User.id u)
           (World.db (Eff.exec (App.loadGroups getTime u activeGroup) w))
         <> []).
Proof.
  destruct w as [db clock ticks console toasts app chat item].
  destruct db as [groups members channels messages faults serverNow].
  assert (Member :
    forall (w0 : World.t) gm gms,
      Spec.sameTables (World.db w0)
        (Remote.mkDb groups members channels messages faults serverNow) ->
      World.app w0 = app ->
      Remote.orderDesc GroupMember.joinedAt
        (filter (fun x => GroupMember.userId x =? User.id u) members)
      = gm :: gms ->
      let w' :=
        snd (Eff.tryCatch
               (Eff.bind
                  (App.fetchGroups
                     (map GroupMember.groupId (gm :: gms)) [])
                  (fun fetched =>
                     Eff.bind
                       (App.setGroups (App.sortGroups getTime fetched))
                       (fun _ =>
                          match App.sortGroups getTime fetched with
                          | [] => Eff.ret tt
                          | g :: _ =>
                              if App.falsy activeGroup
                              then App.setActiveGroup (Some (Group.id g))
                              else Eff.ret tt
                          end)))
               (fun error =>
                  Eff.consoleWrite ("Error loading groups: " ++ error)) w0)
      in
      Spec.grownByAtMostOne (World.db w')
        (Remote.mkDb groups members channels messages faults serverNow)
      /\ World.user (World.app w') = World.user app
      /\ (World.app w' = app
          \/ Spec.membershipsOf (User.id u) (World.db w') <> [])).
  { intros w0 gm gms T A E.
    destruct (showGroups_quiet activeGroup (gm :: gms) w0) as [T1 U1].
    cbv zeta.
    assert (T0 := sameTables_trans _ _ _ T1 T).
    split; [now apply sameTables_grown | split; [now rewrite U1, A|]].
    right. rewrite (membershipsOf_sameTables _ _ _ T0).
    unfold Spec.membershipsOf. cbn [Remote.groupMembers].
    intro H0. rewrite H0 in E. discriminate E. }
  pose (shown := Remote.orderDesc GroupMember.joinedAt
                   (filter (fun gm => GroupMember.userId gm =? User.id u)
                      members)).
  unfold Eff.exec, App.loadGroups.
  destruct faults as [|[] fs].
  - (* the list request is answered, no fault is left *)
    rewrite (tryCatch_bind_Normal
               (Eff.await (Remote.groupMembers_list (User.id u))) _ _
               (World.mk
                  (Remote.mkDb groups members channels messages []
                     serverNow)
                  clock ticks console toasts app chat item)
               (World.mk
                  (Remote.mkDb groups members channels messages []
                     serverNow)
                  clock ticks console toasts app chat item)
               shown eq_refl).
    subst shown.
    destruct (Remote.orderDesc GroupMember.joinedAt
                (filter (fun gm => GroupMember.userId gm =? User.id u)
                   members))
      as [|gm gms] eqn:E.
    + unfold Eff.tryCatch, Eff.bind, Eff.await, Remote.request.
      cbn -[numberToString].
      split; [grown_by | split; [reflexivity|]].
      right. unfold Spec.membershipsOf. cbn [Remote.groupMembers].
      rewrite filter_app. cbn [filter GroupMember.userId].
      rewrite String.eqb_refl. intro H. apply app_eq_nil in H.
      destruct H. discriminate.
    + cbn [List.length Nat.ltb Nat.leb].
      apply (Member _ gm gms);
        [apply sameTables_refl | reflexivity | first [exact E | reflexivity]].
  - (* the list request is rejected *)
    rewrite (tryCatch_bind_Throw
               (Eff.await (Remote.groupMembers_list (User.id u))) _ _
               (World.mk
                  (Remote.mkDb groups members channels messages (true :: fs)
                     serverNow)
                  clock ticks console toasts app chat item)
               (World.mk
                  (Remote.mkDb groups members channels messages fs
                     serverNow)
                  clock ticks console toasts app chat item)
               "request rejected" eq_refl).
    cbn. split; [grown_by | split; [reflexivity | left; reflexivity]].
  - (* the list request is answered, faults may follow *)
    rewrite (tryCatch_bind_Normal
               (Eff.await (Remote.groupMembers_list (User.id u))) _ _
               (World.mk
                  (Remote.mkDb groups members channels messages (false :: fs)
                     serverNow)
                  clock ticks console toasts app chat item)
               (World.mk
                  (Remote.mkDb groups members channels messages fs
                     serverNow)
                  clock ticks console toasts app chat item)
               shown eq_refl).
    subst shown.
    destruct (Remote.orderDesc GroupMember.joinedAt
                (filter (fun gm => GroupMember.userId gm =? User.id u)
                   members))
      as [|gm gms] eqn:E.
    + unfold Eff.tryCatch, Eff.bind, Eff.await, Remote.request.
      destruct fs as [|[] [|[] [|[] fs]]];
        cbn -[numberToString];
        (split; [grown_by | split; [reflexivity|]]);
        try (left; reflexivity);
        right; unfold Spec.membershipsOf; cbn [Remote.groupMembers];
        rewrite filter_app; cbn [filter GroupMember.userId];
        rewrite String.eqb_refl; intro H; apply app_eq_nil in H;
        destruct H; discriminate.
    + cbn [List.length Nat.ltb Nat.leb].
      destruct (Member
                  (World.mk
                     (Remote.mkDb groups members channels messages fs
                        serverNow)
                     clock ticks console toasts app chat item)
                  gm gms) as (G & U & D);
        [unfold Spec.sameTables; cbn; auto | reflexivity | first [exact E | reflexivity] |].
      split; [|split]; [|exact U|exact D].
      destruct G as (gs & ms & cs & G). exists gs, ms, cs. exact G.
Qed.


(** [loadChannels] never writes to the store and keeps the user. *)
Lemma loadChannels_quiet (g : string) (activeChannel : option string)
  (w : World.t) :
  Spec.sameTables (World.db (Eff.exec (App.loadChannels g activeChannel) w))
    (World.db w)
  /\ World.user (World.app (Eff.exec (App.loadChannels g activeChannel) w))
     = World.user (World.app w).
Proof.
  destruct w as [db clock ticks console toasts app chat item].
  destruct db as [groups members channels messages faults serverNow].
  unfold Eff.exec, App.loadChannels, Eff.tryCatch, Eff.bind, Eff.await,
    Remote.channels_list, Remote.request, Spec.sameTables.
  cbn [World.db Remote.faults Remote.channels].
  destruct (App.falsy activeChannel); destruct faults as [|[] fs];
    cbn -[Remote.orderAsc];
    try match goal with
        | |- context [Remote.orderAsc ?f ?l] =>
            destruct (Remote.orderAsc f l)
        end;
    cbn; repeat split; reflexivity.
Qed.

(** For a user who has a workspace, [loadGroups] never writes to the
    store and keeps the user, whichever requests are rejected. *)
Lemma loadGroups_member_quiet (u : User.t) (activeGroup : option string)
  (w : World.t) :
  Spec.membershipsOf (User.id u) (World.db w) <> [] ->
  Spec.sameTables
    (World.db (Eff.exec (App.loadGroups getTime u activeGroup) w))
    (World.db w)
  /\ World.user
       (World.app (Eff.exec (App.loadGroups getTime u activeGroup) w))
     = World.user (World.app w).
Proof.
  intro Hm.
  destruct w as [db clock ticks console toasts app chat item].
  destruct db as [groups members channels messages faults serverNow].
  unfold Spec.membershipsOf in Hm. cbn [World.db Remote.groupMembers] in Hm.
  pose (shown := Remote.orderDesc GroupMember.joinedAt
                   (filter (fun gm => GroupMember.userId gm =? User.id u)
                      members)).
  unfold Eff.exec, App.loadGroups.
  destruct faults as [|[] fs].
  - rewrite (tryCatch_bind_Normal
               (Eff.await (Remote.groupMembers_list (User.id u))) _ _
               (World.mk
                  (Remote.mkDb groups members channels messages []
                     serverNow)
                  clock ticks console toasts app chat item)
               (World.mk
                  (Remote.mkDb groups members channels messages []
                     serverNow)
                  clock ticks console toasts app chat item)
               shown eq_refl).
    subst shown.
    destruct (Remote.orderDesc GroupMember.joinedAt
                (filter (fun gm => GroupMember.userId gm =? User.id u)
                   members))
      as [|gm gms] eqn:E; [apply orderDesc_nil in E; congruence|].
    cbn [List.length Nat.ltb Nat.leb]. apply showGroups_quiet.
  - rewrite (tryCatch_bind_Throw
               (Eff.await (Remote.groupMembers_list (User.id u))) _ _
               (World.mk
                  (Remote.mkDb groups members channels messages (true :: fs)
                     serverNow)
                  clock ticks console toasts app chat item)
               (World.mk
                  (Remote.mkDb groups members channels messages fs
                     serverNow)
                  clock ticks console toasts app chat item)
               "request rejected" eq_refl).
    unfold Spec.sameTables. cbn. repeat split; reflexivity.
  - rewrite (tryCatch_bind_Normal
               (Eff.await (Remote.groupMembers_list (User.id u))) _ _
               (World.mk
                  (Remote.mkDb groups members channels messages (false :: fs)
                     serverNow)
                  clock ticks console toasts app chat item)
               (World.mk
                  (Remote.mkDb groups members channels messages fs
                     serverNow)
                  clock ticks console toasts app chat item)
               shown eq_refl).
    subst shown.
    destruct (Remote.orderDesc GroupMember.joinedAt
                (filter (fun gm => GroupMember.userId gm =? User.id u)
                   members))
      as [|gm gms] eqn:E; [apply orderDesc_nil in E; congruence|].
    cbn [List.length Nat.ltb Nat.leb].
    match goal with
    | |- context [Eff.tryCatch ?b ?h ?w0] =>
        destruct (showGroups_quiet activeGroup (gm :: gms) w0) as [T U]
    end.
    split; [|exact U].
    eapply sameTables_trans; [exact T|].
    unfold Spec.sameTables. cbn. auto.
Qed.

Lemma groupsEffect_member (u : User.t) (a : World.AppState) (w : World.t) :
  World.user a = Some u ->
  Spec.membershipsOf (User.id u) (World.db w) <> [] ->
  Spec.sameTables (World.db (Eff.exec (App.groupsEffect getTime a) w))
    (World.db w)
  /\ World.user (World.app (Eff.exec (App.groupsEffect getTime a) w))
     = World.user (World.app w).
Proof.
  intros Hu Hm. unfold App.groupsEffect. rewrite Hu.
  destruct (truthy (User.id u));
    [now apply loadGroups_member_quiet
    | split; [apply sameTables_refl | reflexivity]].
Qed.

Lemma channelsEffect_quiet (a : World.AppState) (w : World.t) :
  Spec.sameTables (World.db (Eff.exec (App.channelsEffect a) w)) (World.db w)
  /\ World.user (World.app (Eff.exec (App.channelsEffect a) w))
     = World.user (World.app w).
Proof.
  unfold App.channelsEffect.
  destruct (World.activeGroup a) as [g|];
    [destruct (truthy g); [apply loadChannels_quiet|]|];
    (split; [apply sameTables_refl | reflexivity]).
Qed.

(** Once the user has a workspace, no render writes to the store. *)
Lemma commit_member (u : User.t) :
  forall (fuel : nat) (memo : App.Memo) (w : World.t),
    World.user (World.app w) = Some u ->
    Spec.membershipsOf (User.id u) (World.db w) <> [] ->
    Spec.sameTables (World.db (App.commit getTime fuel memo w)) (World.db w).
Proof.
  assert (Keep : forall w' w,
    Spec.sameTables (World.db w') (World.db w)
    /\ World.user (World.app w') = World.user (World.app w) ->
    World.user (World.app w) = Some u ->
    Spec.membershipsOf (User.id u) (World.db w) <> [] ->
    World.user (World.app w') = Some u
    /\ Spec.membershipsOf (User.id u) (World.db w') <> []).
  { intros w' w [T U] Hu Hm. split; [congruence|].
    now rewrite (membershipsOf_sameTables _ _ _ T). }
  induction fuel as [|fuel IH]; intros memo w Hu Hm.
  - apply sameTables_refl.
  - cbn [App.commit].
    pose proof (groupsEffect_member u (World.app w) w Hu Hm) as G.
    destruct (Keep _ _ G Hu Hm) as [GU GM].
    pose proof (channelsEffect_quiet (World.app w) w) as C.
    destruct (Keep _ _ C Hu Hm) as [CU CM].
    pose proof (channelsEffect_quiet (World.app w)
                  (Eff.exec (App.groupsEffect getTime (World.app w)) w))
      as GC.
    destruct (Keep _ _ GC GU GM) as [GCU GCM].
    destruct (App.sameDeps (App.groupsMemo memo)
                (App.groupsDeps (World.app w)));
      destruct (App.sameDeps (App.channelsMemo memo)
                  (App.channelsDeps (World.app w)));
      cbn [negb andb].
    + apply sameTables_refl.
    + eapply sameTables_trans; [apply IH; assumption | apply C].
    + eapply sameTables_trans; [apply IH; assumption | apply G].
    + eapply sameTables_trans; [apply IH; assumption|].
      eapply sameTables_trans; [apply GC | apply G].
Qed.

(** With nothing changed since the effects last ran, no effect runs. *)
Lemma commit_at_rest (fuel : nat) (w : World.t) :
  App.commit getTime fuel (App.memoOf (World.app w)) w = w.
Proof.
  destruct fuel as [|fuel]; [reflexivity|]. cbn [App.commit].
  unfold App.memoOf. cbn [App.groupsMemo App.channelsMemo].
  now rewrite !sameDeps_refl.
Qed.

Lemma grown_sameTables (x y z : Remote.Db) :
  Spec.sameTables x y -> Spec.grownByAtMostOne y z ->
  Spec.grownByAtMostOne x z.
Proof.
  intros (A1 & A2 & A3 & A4) (gs & ms & cs & B1 & B2 & B3 & B4 & L).
  exists gs, ms, cs. repeat split; try tauto; congruence.
Qed.

(** Whatever requests are rejected and however many renders follow, a
    change of the signed-in user adds at most one record to each
    table. *)
Lemma bootstrap_at_most_once (w : World.t) (user : option User.t)
  (isLoading : bool) (fuel : nat) :
  Spec.grownByAtMostOne
    (World.db (App.onAuthStateChanged getTime fuel user isLoading w))
    (World.db w).
Proof.
  unfold App.onAuthStateChanged.
  pose proof (authChanged_cells user isLoading w)
    as (Hdb0 & Hu0 & _ & _ & _ & Hg0 & Ha0 & _).
  set (w0 := Eff.exec (App.authChanged user isLoading) w) in *.
  assert (Hc0 : App.channelsDeps (World.app w0)
                = App.channelsDeps (World.app w))
    by (unfold App.channelsDeps; now rewrite Hg0, Ha0).
  clearbody w0. clear Hg0 Ha0. rewrite <- Hdb0.
  destruct fuel as [|fuel];
    [apply sameTables_grown, sameTables_refl|].
  cbn [App.commit].
  change (App.channelsMemo (App.memoOf (World.app w)))
    with (App.channelsDeps (World.app w)).
  rewrite Hc0, sameDeps_refl.
  destruct (App.sameDeps (App.groupsMemo (App.memoOf (World.app w)))
              (App.groupsDeps (World.app w0)));
    cbn [negb andb]; [apply sameTables_grown, sameTables_refl|].
  unfold App.groupsEffect. rewrite Hu0.
  destruct user as [u|];
    [destruct (truthy (User.id u))|];
    try (unfold Eff.exec at 1, Eff.ret; cbn [snd];
         rewrite commit_at_rest; apply sameTables_grown, sameTables_refl).
  destruct (loadGroups_outcome u (World.activeGroup (World.app w0)) w0)
    as (G & U & [A | M]).
  - set (w1 := Eff.exec (App.loadGroups getTime u
                           (World.activeGroup (World.app w0))) w0) in *.
    clearbody w1. rewrite <- A, commit_at_rest. exact G.
  - eapply grown_sameTables; [|exact G].
    apply (commit_member u); [congruence | exact M].
Qed.

End BootstrapAnyFaults.

(** C7.  When a user without any workspace membership signs in and the
    requests are answered, the store gains exactly one workspace named
    [General], exactly one membership with role [admin] for that user in
    that workspace, and exactly one channel named [general] in that
    workspace, and the two are selected as active, however many renders
    follow the sign-in.  And whatever requests are rejected, a change of
    the signed-in user never adds more than one record to any table: no
    workspace, membership or channel is created twice. *)
Theorem C7_bootstrap_once :
  forall (getTime : string -> option Z) (w : World.t) (u : User.t)
         (isLoading : bool) (fuel : nat),
    (World.user (World.app w) = None ->
     truthy (User.id u) = true ->
     Spec.membershipsOf (User.id u) (World.db w) = [] ->
     Remote.faults (World.db w) = [] ->
     1 <= fuel ->
     exists (g : Group.t) (m : GroupMember.t) (c : Channel.t),
       Remote.groups
         (World.db (App.onAuthStateChanged getTime fuel (Some u) isLoading w))
       = Remote.groups (World.db w) ++ [g]
       /\ Remote.groupMembers
            (World.db
               (App.onAuthStateChanged getTime fuel (Some u) isLoading w))
          = Remote.groupMembers (World.db w) ++ [m]
       /\ Remote.channels
            (World.db
               (App.onAuthStateChanged getTime fuel (Some u) isLoading w))
          = Remote.channels (World.db w) ++ [c]
       /\ (Group.name g = "General" /\ Group.createdBy g = User.id u)
       /\ (GroupMember.role m = "admin"
           /\ GroupMember.userId m = User.id u
           /\ GroupMember.groupId m = Group.id g)
       /\ (Channel.name c = "general" /\ Channel.groupId c = Group.id g)
       /\ World.activeGroup
            (World.app
               (App.onAuthStateChanged getTime fuel (Some u) isLoading w))
          = Some (Group.id g)
       /\ World.activeChannel
            (World.app
               (App.onAuthStateChanged getTime fuel (Some u) isLoading w))
          = Some (Channel.id c))
    /\ Spec.grownByAtMostOne
         (World.db (App.onAuthStateChanged getTime fuel (Some u) isLoading w))
         (World.db w).
Proof.
  intros getTime w u isLoading fuel. split.
  - apply bootstrap_nominal.
  - apply bootstrap_at_most_once.
Qed.

Lemma C7_bootstrap_once_witness :
  exists (g : Group.t) (m : GroupMember.t) (c : Channel.t),
    Remote.groups
      (World.db
         (App.onAuthStateChanged isoGetTime 3 (Some Sample.ada) false
            Sample.freshWorld))
    = Remote.groups (World.db Sample.freshWorld) ++ [g]
    /\ Remote.groupMembers
         (World.db
            (App.onAuthStateChanged isoGetTime 3 (Some Sample.ada) false
               Sample.freshWorld))
       = Remote.groupMembers (World.db Sample.freshWorld) ++ [m]
    /\ Remote.channels
         (World.db
            (App.onAuthStateChanged isoGetTime 3 (Some Sample.ada) false
               Sample.freshWorld))
       = Remote.channels (World.db Sample.freshWorld) ++ [c]
    /\ (Group.name g = "General" /\ Group.createdBy g = User.id Sample.ada)
    /\ (GroupMember.role m = "admin"
        /\ GroupMember.userId m = User.id Sample.ada
        /\ GroupMember.groupId m = Group.id g)
    /\ (Channel.name c = "general" /\ Channel.groupId c = Group.id g)
    /\ World.activeGroup
         (World.app
            (App.onAuthStateChanged isoGetTime 3 (Some Sample.ada) false
               Sample.freshWorld))
       = Some (Group.id g)
    /\ World.activeChannel
         (World.app
            (App.onAuthStateChanged isoGetTime 3 (Some Sample.ada) false
               Sample.freshWorld))
       = Some (Channel.id c).
Proof.
  apply (proj1 (C7_bootstrap_once isoGetTime Sample.freshWorld Sample.ada
                  false 3)).
  - reflexivity.
  - reflexivity.
  - reflexivity.
  - reflexivity.
  - lia.
Defined.

(** The store and the selections after the first sign-in of the sample
    user, and after signing in with the creation of the membership
    rejected: the workspace is created, nothing is selected, and no
    second attempt is made. *)
Example bootstrap_sample :
  map Group.name
    (Remote.groups
       (World.db
          (App.onAuthStateChanged isoGetTime 5 (Some Sample.ada) false
             Sample.freshWorld)))
  = ["General"]
  /\ map Channel.name
       (Remote.channels
          (World.db
             (App.onAuthStateChanged isoGetTime 5 (Some Sample.ada) false
                Sample.freshWorld)))
     = ["general"]
  /\ World.activeGroup
       (World.app
          (App.onAuthStateChanged isoGetTime 5 (Some Sample.ada) false
             Sample.freshWorld))
     = Some "group_1709287200000"
  /\ World.activeChannel
       (World.app
          (App.onAuthStateChanged isoGetTime 5 (Some Sample.ada) false
             Sample.freshWorld))
     = Some "channel_1709287200002".
Proof. repeat split; reflexivity. Qed.

(* ================================================================== *)
(** * Part III: the rest of the components                              *)
(* ================================================================== *)

(** ** More on strings *)

Lemma trimStart_blank (s : string) :
  trimStart s = EmptyString <-> SpecMore.isBlank s = true.
Proof.
  induction s as [|c s IH]; simpl; [tauto|].
  destruct (isWhiteSpace c); simpl; [exact IH|].
  split; discriminate.
Qed.

Lemma trimEnd_blank (s : string) :
  trimEnd s = EmptyString <-> SpecMore.isBlank s = true.
Proof.
  induction s as [|c s IH]; simpl; [tauto|].
  destruct (trimEnd s) as [|d t] eqn:E.
  - destruct (isWhiteSpace c); simpl.
    + tauto.
    + split; discriminate.
  - split; [discriminate|]. intro H. apply andb_true_iff in H.
    destruct H as [_ H]. apply IH in H. discriminate.
Qed.

Lemma isBlank_trimStart (s : string) :
  SpecMore.isBlank (trimStart s) = SpecMore.isBlank s.
Proof.
  induction s as [|c s IH]; simpl; [reflexivity|].
  destruct (isWhiteSpace c) eqn:E; simpl; [exact IH | now rewrite E].
Qed.

(** A string trims to nothing exactly when it is white space only. *)
Lemma trim_blank (s : string) :
  trim s = EmptyString <-> SpecMore.isBlank s = true.
Proof.
  unfold trim. now rewrite trimEnd_blank, isBlank_trimStart.
Qed.

Lemma isBlank_append (a b : string) :
  SpecMore.isBlank (a ++ b) = SpecMore.isBlank a && SpecMore.isBlank b.
Proof.
  induction a as [|c a IH]; simpl; [reflexivity|].
  now rewrite IH, andb_assoc.
Qed.

(** A string that holds a code unit other than white space does not
    trim to nothing. *)
Lemma trim_holds (a b : string) (c : ascii) :
  isWhiteSpace c = false -> trim (a ++ String c b) <> EmptyString.
Proof.
  intros H E. apply trim_blank in E. rewrite isBlank_append in E.
  simpl in E. rewrite H in E. simpl in E.
  now rewrite andb_false_r in E.
Qed.

Lemma trimStart_clean (s : string) : SpecMore.startsClean (trimStart s).
Proof.
  induction s as [|c s IH]; simpl; [exact I|].
  destruct (isWhiteSpace c) eqn:E; [exact IH | exact E].
Qed.

Lemma trimStart_of_clean (s : string) : SpecMore.startsClean s -> trimStart s = s.
Proof. destruct s as [|c s]; simpl; [reflexivity | now intros ->]. Qed.

Lemma trimEnd_cons_clean (c : ascii) (s : string) :
  isWhiteSpace c = false -> trimEnd (String c s) = String c (trimEnd s).
Proof.
  intro H. simpl. destruct (trimEnd s); [now rewrite H | reflexivity].
Qed.

Lemma trimEnd_clean (s : string) : SpecMore.startsClean s -> SpecMore.startsClean (trimEnd s).
Proof.
  destruct s as [|c s]; [intros _; exact I|].
  intro H. simpl in H. rewrite (trimEnd_cons_clean c s H). exact H.
Qed.

Lemma trimEnd_cons (c : ascii) (s : string) :
  trimEnd (String c s)
  = match trimEnd s with
    | EmptyString =>
        if isWhiteSpace c then EmptyString else String c EmptyString
    | String d t => String c (String d t)
    end.
Proof. reflexivity. Qed.

Lemma trimEnd_idempotent (s : string) : trimEnd (trimEnd s) = trimEnd s.
Proof.
  induction s as [|c s IH]; [reflexivity|].
  rewrite trimEnd_cons. destruct (trimEnd s) as [|d t] eqn:E.
  - destruct (isWhiteSpace c) eqn:W; [reflexivity|].
    simpl. now rewrite W.
  - rewrite trimEnd_cons, IH. reflexivity.
Qed.

(** Trimming twice is trimming once. *)
Lemma trim_idempotent (s : string) : trim (trim s) = trim s.
Proof.
  unfold trim.
  rewrite (trimStart_of_clean (trimEnd (trimStart s))).
  - apply trimEnd_idempotent.
  - apply trimEnd_clean, trimStart_clean.
Qed.

Lemma trimEnd_append_blank (s w : string) :
  SpecMore.isBlank w = true -> trimEnd (s ++ w) = trimEnd s.
Proof.
  intro H. induction s as [|c s IH].
  - simpl. apply trimEnd_blank in H. rewrite H. reflexivity.
  - cbn [append trimEnd]. now rewrite IH.
Qed.

Lemma trimStart_append (s w : string) :
  SpecMore.isBlank s = false -> trimStart (s ++ w) = (trimStart s ++ w)%string.
Proof.
  induction s as [|c s IH]; simpl; [discriminate|].
  destruct (isWhiteSpace c); simpl; [exact IH | reflexivity].
Qed.

(** White space added at the end is trimmed away. *)
Lemma trim_append_blank (s w : string) :
  SpecMore.isBlank w = true -> trim (s ++ w) = trim s.
Proof.
  intro H. unfold trim.
  destruct (SpecMore.isBlank s) eqn:B.
  - assert (Hs : SpecMore.isBlank (s ++ w) = true)
      by (now rewrite isBlank_append, B, H).
    apply trimStart_blank in B. apply trimStart_blank in Hs.
    now rewrite B, Hs.
  - rewrite (trimStart_append s w B). now apply trimEnd_append_blank.
Qed.

Lemma substring_all (s : string) : substring 0 (String.length s) s = s.
Proof.
  rewrite <- (append_nil_r s) at 2. apply substring_append_prefix.
Qed.

Lemma substring_skip (a b : string) (m : nat) :
  substring (String.length a) m (a ++ b) = substring 0 m b.
Proof. induction a as [|c a IH]; simpl; [reflexivity | exact IH]. Qed.

(** A string cut at two indices in order. *)
Lemma substring_cut (s : string) (i j : nat) :
  i <= j -> j <= String.length s ->
  s = (substring 0 i s ++ substring i (j - i) s
       ++ substring j (String.length s - j) s)%string
  /\ String.length (substring 0 i s) = i
  /\ String.length (substring i (j - i) s) = j - i.
Proof.
  revert i j; induction s as [|c s IH]; intros i j Hij Hj.
  - simpl in Hj. assert (j = 0) by lia. assert (i = 0) by lia. subst.
    simpl. auto.
  - destruct i as [|i].
    + destruct j as [|j].
      * simpl. rewrite substring_all. auto.
      * simpl in Hj.
        destruct (IH 0 j (Nat.le_0_l _) (le_S_n _ _ Hj)) as (E & L1 & L2).
        cbn [substring append String.length Nat.sub].
        rewrite Nat.sub_0_r in *.
        assert (Z0 : substring 0 0 s = EmptyString) by (now destruct s).
        rewrite Z0 in E. simpl in E. rewrite <- E.
        repeat split. simpl. now rewrite L2.
    + destruct j as [|j]; [lia|]. simpl in Hj.
      destruct (IH i j (le_S_n _ _ Hij) (le_S_n _ _ Hj)) as (E & L1 & L2).
      cbn [substring append String.length Nat.sub].
      rewrite <- E, L1, L2. auto.
Qed.

(* ------------------------------------------------------------------ *)
(** ** The formatting commands of the composer *)

Lemma substring_0_all (s : string) (m : nat) :
  String.length s <= m -> substring 0 m s = s.
Proof.
  revert m; induction s as [|c s IH]; intros m H.
  - now destruct m.
  - destruct m as [|m]; simpl in *; [lia|]. now rewrite IH by lia.
Qed.

Lemma substring_end (s : string) : substring (String.length s) 0 s = EmptyString.
Proof. induction s as [|c s IH]; simpl; [reflexivity | exact IH]. Qed.

(** The draft cut at the selection. *)
Lemma selection_cut (message : string) (area : Toolbar.Textarea) :
  Toolbar.selectionStart area <= Toolbar.selectionEnd area ->
  Toolbar.selectionEnd area <= String.length message ->
  message
  = (JsMore.substringBetween message 0 (Toolbar.selectionStart area)
     ++ JsMore.substringBetween message (Toolbar.selectionStart area)
          (Toolbar.selectionEnd area)
     ++ JsMore.substringFrom message (Toolbar.selectionEnd area))%string
  /\ String.length
       (JsMore.substringBetween message 0 (Toolbar.selectionStart area))
     = Toolbar.selectionStart area
  /\ String.length
       (JsMore.substringBetween message (Toolbar.selectionStart area)
          (Toolbar.selectionEnd area))
     = Toolbar.selectionEnd area - Toolbar.selectionStart area.
Proof.
  intros H1 H2. unfold JsMore.substringBetween, JsMore.substringFrom.
  rewrite Nat.min_0_l, Nat.max_0_l, Nat.sub_0_r.
  rewrite (Nat.min_l _ _ H1), (Nat.max_r _ _ H1).
  now apply substring_cut.
Qed.

(** The shape of the draft after a formatting command. *)
Lemma insertMarkdown_shape :
  forall (st : MessageInput.State) (area : Toolbar.Textarea)
         (syntax placeholder : string),
    Toolbar.selectionStart area <= Toolbar.selectionEnd area ->
    Toolbar.selectionEnd area <= String.length (MessageInput.message st) ->
    In syntax ["bold"; "italic"; "code"; "list"] ->
    exists before selected after opening closing : string,
      MessageInput.message st = (before ++ selected ++ after)%string
      /\ String.length before = Toolbar.selectionStart area
      /\ String.length selected
         = Toolbar.selectionEnd area - Toolbar.selectionStart area
      /\ (syntax = "bold" -> opening = "**" /\ closing = "**")
      /\ (syntax = "italic" -> opening = "*" /\ closing = "*")
      /\ (syntax = "code" ->
          if includes selected JsMore.newline
          then opening = ("```" ++ JsMore.newline)%string
               /\ closing = (JsMore.newline ++ "```")%string
          else opening = "`" /\ closing = "`")
      /\ (syntax = "list" -> opening = "- " /\ closing = EmptyString)
      /\ Toolbar.insertMarkdown (Some area) syntax placeholder st
         = ({| MessageInput.message :=
                 (before ++ opening ++ JsMore.orString selected placeholder
                  ++ closing ++ after)%string;
               MessageInput.isPreviewMode := MessageInput.isPreviewMode st;
               MessageInput.isExpanded := MessageInput.isExpanded st |},
            Some
              (String.length
                 (before ++ opening
                  ++ JsMore.orString selected placeholder)%string)).
Proof.
  intros st area syntax placeholder H1 H2 Hs.
  destruct (selection_cut (MessageInput.message st) area H1 H2)
    as (E & L1 & L2).
  set (before := JsMore.substringBetween (MessageInput.message st) 0
                   (Toolbar.selectionStart area)) in *.
  set (selected := JsMore.substringBetween (MessageInput.message st)
                     (Toolbar.selectionStart area)
                     (Toolbar.selectionEnd area)) in *.
  set (after := JsMore.substringFrom (MessageInput.message st)
                  (Toolbar.selectionEnd area)) in *.
  assert (Cursor : forall opening k,
    String.length opening = k ->
    Toolbar.selectionStart area + k
    + String.length (JsMore.orString selected placeholder)
    = String.length
        (before ++ opening ++ JsMore.orString selected placeholder)%string).
  { intros opening k <-. rewrite !length_append. lia. }
  unfold Toolbar.insertMarkdown.
  fold before. fold selected. fold after.
  clearbody before selected after.
  simpl in Hs.
  destruct Hs as [<- | [<- | [<- | [<- | []]]]].
  - exists before, selected, after, "**", "**".
    repeat split; try assumption; try discriminate.
    change ("bold" =? "bold") with true. cbv iota.
    rewrite (Cursor "**" 2 eq_refl). now rewrite !append_assoc.
  - exists before, selected, after, "*", "*".
    repeat split; try assumption; try discriminate.
    change ("italic" =? "bold") with false.
    change ("italic" =? "italic") with true. cbv iota.
    rewrite (Cursor "*" 1 eq_refl). now rewrite !append_assoc.
  - change ("code" =? "bold") with false.
    change ("code" =? "italic") with false.
    change ("code" =? "code") with true. cbv iota.
    destruct (includes selected JsMore.newline) eqn:N; cbv iota.
    + exists before, selected, after, ("```" ++ JsMore.newline)%string,
        (JsMore.newline ++ "```")%string.
      repeat split; try assumption; try discriminate.
      * intros _. rewrite N. split; reflexivity.
      * rewrite (Cursor ("```" ++ JsMore.newline)%string 4 eq_refl).
        now rewrite !append_assoc.
    + exists before, selected, after, "`", "`".
      repeat split; try assumption; try discriminate.
      * intros _. rewrite N. split; reflexivity.
      * rewrite (Cursor "`" 1 eq_refl). now rewrite !append_assoc.
  - exists before, selected, after, "- ", EmptyString.
    repeat split; try assumption; try discriminate.
    change ("list" =? "bold") with false.
    change ("list" =? "italic") with false.
    change ("list" =? "code") with false.
    change ("list" =? "list") with true. cbv iota.
    rewrite (Cursor "- " 2 eq_refl). now rewrite !append_assoc.
Qed.

(** X1.  A formatting command on a mounted text area wraps the selected
    text, or the placeholder when nothing is selected, in the markup of
    the command, leaves the text before and after the selection and the
    two mode flags as they are, and asks for the cursor right after the
    wrapped text, before the closing markup.  A selection that holds a
    line feed is fenced, any other one gets inline back-quotes. *)
Theorem insertMarkdown_wraps_selection :
  forall (st : MessageInput.State) (area : Toolbar.Textarea)
         (syntax placeholder : string),
    Toolbar.selectionStart area <= Toolbar.selectionEnd area ->
    Toolbar.selectionEnd area <= String.length (MessageInput.message st) ->
    In syntax ["bold"; "italic"; "code"; "list"] ->
    exists before selected after opening closing : string,
      MessageInput.message st = (before ++ selected ++ after)%string
      /\ String.length before = Toolbar.selectionStart area
      /\ String.length selected
         = Toolbar.selectionEnd area - Toolbar.selectionStart area
      /\ (syntax = "bold" -> opening = "**" /\ closing = "**")
      /\ (syntax = "italic" -> opening = "*" /\ closing = "*")
      /\ (syntax = "code" ->
          if includes selected JsMore.newline
          then opening = ("```" ++ JsMore.newline)%string
               /\ closing = (JsMore.newline ++ "```")%string
          else opening = "`" /\ closing = "`")
      /\ (syntax = "list" -> opening = "- " /\ closing = EmptyString)
      /\ Toolbar.insertMarkdown (Some area) syntax placeholder st
         = ({| MessageInput.message :=
                 (before ++ opening ++ JsMore.orString selected placeholder
                  ++ closing ++ after)%string;
               MessageInput.isPreviewMode := MessageInput.isPreviewMode st;
               MessageInput.isExpanded := MessageInput.isExpanded st |},
            Some
              (String.length
                 (before ++ opening
                  ++ JsMore.orString selected placeholder)%string)).
Proof. exact insertMarkdown_shape. Qed.

Lemma insertMarkdown_wraps_selection_witness :
  exists before selected after opening closing : string,
    MessageInput.message SampleMore.draft
    = (before ++ selected ++ after)%string
    /\ String.length before = 4
    /\ String.length selected = 9 - 4
    /\ ("bold" = "bold" -> opening = "**" /\ closing = "**")
    /\ ("bold" = "italic" -> opening = "*" /\ closing = "*")
    /\ ("bold" = "code" ->
        if includes selected JsMore.newline
        then opening = ("```" ++ JsMore.newline)%string
             /\ closing = (JsMore.newline ++ "```")%string
        else opening = "`" /\ closing = "`")
    /\ ("bold" = "list" -> opening = "- " /\ closing = EmptyString)
    /\ Toolbar.insertMarkdown (Some SampleMore.helloSelected) "bold"
         "bold text" SampleMore.draft
       = ({| MessageInput.message :=
               (before ++ opening ++ JsMore.orString selected "bold text"
                ++ closing ++ after)%string;
             MessageInput.isPreviewMode := false;
             MessageInput.isExpanded := true |},
          Some
            (String.length
               (before ++ opening
                ++ JsMore.orString selected "bold text")%string)).
Proof.
  apply (insertMarkdown_wraps_selection SampleMore.draft
           SampleMore.helloSelected "bold" "bold text").
  - simpl. lia.
  - simpl. lia.
  - simpl. auto.
Defined.

Example insertMarkdown_bold_hello :
  Toolbar.insertMarkdown (Some SampleMore.helloSelected) "bold" "bold text"
    SampleMore.draft
  = ({| MessageInput.message := "say **hello** world";
        MessageInput.isPreviewMode := false;
        MessageInput.isExpanded := true |}, Some 11).
Proof. reflexivity. Qed.

(** X2.  After a formatting command on a mounted text area the draft is
    never blank: the send button is enabled and a submit sends the
    trimmed draft. *)
Theorem insertMarkdown_leaves_sendable_draft :
  forall (st : MessageInput.State) (area : Toolbar.Textarea)
         (syntax placeholder : string),
    Toolbar.selectionStart area <= Toolbar.selectionEnd area ->
    Toolbar.selectionEnd area <= String.length (MessageInput.message st) ->
    In syntax ["bold"; "italic"; "code"; "list"] ->
    Toolbar.sendDisabled
      (fst (Toolbar.insertMarkdown (Some area) syntax placeholder st))
    = false
    /\ forall (Env : Type) (onSendMessage : string -> Env -> Env) (env : Env),
         MessageInput.handleSend onSendMessage
           (fst (Toolbar.insertMarkdown (Some area) syntax placeholder st))
           env
         = ({| MessageInput.message := EmptyString;
               MessageInput.isPreviewMode := false;
               MessageInput.isExpanded := false |},
            onSendMessage
              (trim
                 (MessageInput.message
                    (fst (Toolbar.insertMarkdown (Some area) syntax
                            placeholder st))))
              env).
Proof.
  intros st area syntax placeholder H1 H2 Hs.
  destruct (insertMarkdown_shape st area syntax placeholder H1 H2 Hs)
    as (before & selected & after & opening & closing & _ & _ & _
        & Hb & Hi & Hc & Hl & ->).
  cbn [fst MessageInput.message].
  assert (T : truthy
                (trim (before ++ opening
                       ++ JsMore.orString selected placeholder
                       ++ closing ++ after)) = true).
  { apply truthy_true. simpl in Hs.
    destruct Hs as [<- | [<- | [<- | [<- | []]]]].
    - destruct (Hb eq_refl) as [-> _]. now apply trim_holds.
    - destruct (Hi eq_refl) as [-> _]. now apply trim_holds.
    - specialize (Hc eq_refl).
      destruct (includes selected JsMore.newline);
        destruct Hc as [-> _]; now apply trim_holds.
    - destruct (Hl eq_refl) as [-> _]. now apply trim_holds. }
  split.
  - unfold Toolbar.sendDisabled. cbn [MessageInput.message]. now rewrite T.
  - intros Env onSendMessage env. unfold MessageInput.handleSend.
    cbn [MessageInput.message]. now rewrite T.
Qed.

Lemma insertMarkdown_leaves_sendable_draft_witness :
  Toolbar.sendDisabled
    (fst (Toolbar.insertMarkdown (Some SampleMore.helloSelected) "code"
            "code" SampleMore.draft))
  = false.
Proof.
  apply (insertMarkdown_leaves_sendable_draft SampleMore.draft
           SampleMore.helloSelected "code" "code").
  - simpl. lia.
  - simpl. lia.
  - simpl. auto.
Defined.

(** X3.  A key press sends exactly when it is a plain [Enter] on a draft
    that is not blank, and then with the trimmed draft; any other key
    press calls nothing, keeps the draft and the preview flag, and
    expands the composer only for [Shift]+[Enter]. *)
Theorem handleKeyDown_sends_only_on_plain_enter :
  forall (Env : Type) (onSendMessage : string -> Env -> Env)
         (key : string) (shiftKey : bool) (st : MessageInput.State)
         (env : Env),
    (key = "Enter" /\ shiftKey = false
     /\ trim (MessageInput.message st) <> EmptyString ->
     MessageInput.handleKeyDown onSendMessage key shiftKey st env
     = ({| MessageInput.message := EmptyString;
           MessageInput.isPreviewMode := false;
           MessageInput.isExpanded := false |},
        onSendMessage (trim (MessageInput.message st)) env))
    /\ (~ (key = "Enter" /\ shiftKey = false
           /\ trim (MessageInput.message st) <> EmptyString) ->
        MessageInput.handleKeyDown onSendMessage key shiftKey st env
        = ({| MessageInput.message := MessageInput.message st;
              MessageInput.isPreviewMode := MessageInput.isPreviewMode st;
              MessageInput.isExpanded :=
                MessageInput.isExpanded st || ((key =? "Enter") && shiftKey)
           |}, env)).
Proof.
  intros Env onSendMessage key shiftKey st env.
  unfold MessageInput.handleKeyDown, MessageInput.handleSend. split.
  - intros (-> & -> & H). apply truthy_true in H. rewrite H. reflexivity.
  - intro H. destruct st as [message preview expanded].
    cbn [MessageInput.message MessageInput.isPreviewMode
         MessageInput.isExpanded] in *.
    destruct (key =? "Enter") eqn:K; destruct shiftKey; cbn;
      try (now rewrite orb_false_r); try (now rewrite orb_true_r).
    destruct (truthy (trim message)) eqn:T; cbn;
      [|now rewrite orb_false_r].
    exfalso. apply H. apply String.eqb_eq in K. apply truthy_true in T.
    auto.
Qed.

Lemma handleKeyDown_sends_only_on_plain_enter_witness :
  MessageInput.handleKeyDown Sample.recordCall "Enter" true
    SampleMore.draft []
  = ({| MessageInput.message := "say hello world";
        MessageInput.isPreviewMode := false;
        MessageInput.isExpanded := true |}, []).
Proof.
  apply (proj2 (handleKeyDown_sends_only_on_plain_enter (list string)
                  Sample.recordCall "Enter" true SampleMore.draft [])).
  intros (_ & H & _). discriminate.
Defined.

(* ------------------------------------------------------------------ *)
(** ** The author label *)

Lemma sliceLast_suffix (s : string) (n : nat) :
  exists pre : string,
    s = (pre ++ JsMore.sliceLast s n)%string
    /\ String.length (JsMore.sliceLast s n) = Nat.min n (String.length s).
Proof.
  unfold JsMore.sliceLast.
  destruct (substring_cut s (String.length s - n) (String.length s))
    as (E & L1 & L2); [lia | lia |].
  rewrite Nat.sub_diag, substring_end, append_nil_r in E.
  exists (substring 0 (String.length s - n) s).
  destruct (Nat.le_gt_cases n (String.length s)) as [H|H].
  - replace (String.length s - (String.length s - n)) with n in * by lia.
    split; [exact E | lia].
  - replace (String.length s - n) with 0 in * by lia.
    rewrite Nat.sub_0_r in *. rewrite substring_all in E.
    rewrite (substring_0_all s n) by lia.
    split; [|lia]. now destruct s.
Qed.

(** X4.  The label of a message of another user is [User ] followed by
    the last four code units of the author's identifier (the whole
    identifier when it is shorter); the label of the viewer's own message
    is the display name, or the e-mail address when the display name is
    missing or empty. *)
Theorem getUserDisplayName_label :
  forall (currentUser : User.t) (userId : string),
    (userId <> User.id currentUser ->
     exists pre suffix : string,
       userId = (pre ++ suffix)%string
       /\ String.length suffix = Nat.min 4 (String.length userId)
       /\ Author.getUserDisplayName currentUser userId
          = ("User " ++ suffix)%string)
    /\ (userId = User.id currentUser ->
        (forall name, User.displayName currentUser = Some name ->
                      name <> EmptyString ->
                      Author.getUserDisplayName currentUser userId = name)
        /\ (User.displayName currentUser = None
            \/ User.displayName currentUser = Some EmptyString ->
            Author.getUserDisplayName currentUser userId
            = User.email currentUser)).
Proof.
  intros currentUser userId. unfold Author.getUserDisplayName. split.
  - intro H. apply String.eqb_neq in H. rewrite H.
    destruct (sliceLast_suffix userId 4) as (pre & E & L).
    exists pre, (JsMore.sliceLast userId 4). auto.
  - intros ->. rewrite String.eqb_refl. unfold JsMore.orElse, JsMore.orString.
    split.
    + intros name -> Hn. apply truthy_true in Hn. now rewrite Hn.
    + intros [-> | ->]; reflexivity.
Qed.

Lemma getUserDisplayName_label_witness :
  exists pre suffix : string,
    "user_bob" = (pre ++ suffix)%string
    /\ String.length suffix = Nat.min 4 (String.length "user_bob")
    /\ Author.getUserDisplayName Sample.ada "user_bob"
       = ("User " ++ suffix)%string.
Proof.
  apply (proj1 (getUserDisplayName_label Sample.ada "user_bob")).
  vm_compute. discriminate.
Defined.

(* ------------------------------------------------------------------ *)
(** ** Sending and loading in the conversation *)

(** [handleSendMessage] with an active channel, content that is not
    blank and the request answered. *)
Lemma handleSendMessage_sent (w : World.t) (channel : string) (user : User.t)
  (random content messageType : string) :
  truthy channel = true ->
  trim content <> EmptyString ->
  Spec.nextRequestRejected (World.db w) = false ->
  exists m : Message.t,
    Eff.exec
      (Conversation.handleSendMessage (Some channel) user random content
         messageType) w
    = World.withChat
        {| World.messages := World.messages (World.chat w) ++ [m];
           World.chatLoading := World.chatLoading (World.chat w);
           World.searchQuery := World.searchQuery (World.chat w) |}
        (World.withDb
           {| Remote.groups := Remote.groups (World.db w);
              Remote.groupMembers := Remote.groupMembers (World.db w);
              Remote.channels := Remote.channels (World.db w);
              Remote.messages := Remote.messages (World.db w) ++ [m];
              Remote.faults := tl (Remote.faults (World.db w));
              Remote.serverNow := Remote.serverNow (World.db w) |}
           (World.withTicks (S (World.ticks w)) w))
    /\ m = {| Message.id :=
                "msg_" ++ numberToString (World.clock w (World.ticks w))
                ++ "_" ++ random;
              Message.channelId := channel;
              Message.userId := User.id user;
              Message.content := trim content;
              Message.messageType := messageType;
              Message.threadId := None;
              Message.replyCount := 0%Z;
              Message.createdAt := Remote.serverNow (World.db w);
              Message.updatedAt := Remote.serverNow (World.db w) |}.
Proof.
  intros Hc Ht Hf. apply truthy_true in Ht.
  destruct w as [db clock ticks console toasts app chat item].
  destruct db as [groups members channels messages faults serverNow].
  unfold Spec.nextRequestRejected in Hf. cbn in Hf.
  unfold Conversation.handleSendMessage. rewrite Hc, Ht.
  cbn [negb orb].
  eexists. split; [|reflexivity].
  destruct faults as [|[] fs]; [reflexivity | discriminate | reflexivity].
Qed.

(** X5.  Sending content that is not blank on an active channel, the
    request being answered, adds one message at the end of the local
    list and of the store, and nothing else changes in either: the
    message carries the trimmed content, the user as author, the active
    channel, the given type and no replies. *)
Theorem handleSendMessage_appends_trimmed :
  forall (w : World.t) (channel : string) (user : User.t)
         (random content messageType : string),
    truthy channel = true ->
    trim content <> EmptyString ->
    Spec.nextRequestRejected (World.db w) = false ->
    exists m : Message.t,
      World.messages
        (World.chat
           (Eff.exec
              (Conversation.handleSendMessage (Some channel) user random
                 content messageType) w))
      = World.messages (World.chat w) ++ [m]
      /\ Remote.messages
           (World.db
              (Eff.exec
                 (Conversation.handleSendMessage (Some channel) user random
                    content messageType) w))
         = Remote.messages (World.db w) ++ [m]
      /\ Message.content m = trim content
      /\ Message.userId m = User.id user
      /\ Message.channelId m = channel
      /\ Message.messageType m = messageType
      /\ Message.replyCount m = 0%Z
      /\ Message.threadId m = None
      /\ Message.id m
         = ("msg_" ++ numberToString (World.clock w (World.ticks w))
            ++ "_" ++ random)%string.
Proof.
  intros w channel user random content messageType Hc Ht Hf.
  destruct (handleSendMessage_sent w channel user random content
              messageType Hc Ht Hf) as (m & E & Em).
  exists m. rewrite E. subst m. destruct w. cbn. repeat split; reflexivity.
Qed.

Lemma handleSendMessage_appends_trimmed_witness :
  exists m : Message.t,
    World.messages
      (World.chat
         (Eff.exec
            (Conversation.handleSendMessage (Some "channel_1") Sample.ada
               "k3x9q2m1z" "  hi  " "text") Sample.freshWorld))
    = World.messages (World.chat Sample.freshWorld) ++ [m]
    /\ Remote.messages
         (World.db
            (Eff.exec
               (Conversation.handleSendMessage (Some "channel_1") Sample.ada
                  "k3x9q2m1z" "  hi  " "text") Sample.freshWorld))
       = Remote.messages (World.db Sample.freshWorld) ++ [m]
    /\ Message.content m = trim "  hi  "
    /\ Message.userId m = User.id Sample.ada
    /\ Message.channelId m = "channel_1"
    /\ Message.messageType m = "text"
    /\ Message.replyCount m = 0%Z
    /\ Message.threadId m = None
    /\ Message.id m
       = ("msg_"
          ++ numberToString
               (World.clock Sample.freshWorld
                  (World.ticks Sample.freshWorld))
          ++ "_" ++ "k3x9q2m1z")%string.
Proof.
  apply (handleSendMessage_appends_trimmed Sample.freshWorld "channel_1"
           Sample.ada "k3x9q2m1z" "  hi  " "text").
  - reflexivity.
  - vm_compute. discriminate.
  - reflexivity.
Defined.

(** X6.  Nothing is appended before the store has accepted the message:
    without an active channel or with blank content the handler does
    nothing at all, and when the request is rejected the local list and
    the tables stay as they were and one line is written to the
    console. *)
Theorem handleSendMessage_no_optimistic_entry :
  forall (w : World.t) (activeChannel : option string) (user : User.t)
         (random content messageType : string),
    (App.falsy activeChannel = true \/ trim content = EmptyString ->
     Eff.exec
       (Conversation.handleSendMessage activeChannel user random content
          messageType) w
     = w)
    /\ (App.falsy activeChannel = false ->
        trim content <> EmptyString ->
        Spec.nextRequestRejected (World.db w) = true ->
        World.chat
          (Eff.exec
             (Conversation.handleSendMessage activeChannel user random
                content messageType) w)
        = World.chat w
        /\ Spec.sameTables
             (World.db
                (Eff.exec
                   (Conversation.handleSendMessage activeChannel user random
                      content messageType) w))
             (World.db w)
        /\ World.console
             (Eff.exec
                (Conversation.handleSendMessage activeChannel user random
                   content messageType) w)
           = World.console w ++ ["Error sending message: request rejected"]).
Proof.
  intros w activeChannel user random content messageType. split.
  - intros [H | H].
    + destruct activeChannel as [channel|]; [|reflexivity].
      simpl in H. unfold Conversation.handleSendMessage.
      apply negb_true_iff in H. now rewrite H.
    + unfold Conversation.handleSendMessage.
      destruct activeChannel as [channel|]; [|reflexivity].
      rewrite H. cbn [truthy negb]. now rewrite orb_true_r.
  - intros Ha Ht Hf. apply truthy_true in Ht.
    destruct activeChannel as [channel|]; [|discriminate].
    simpl in Ha. apply negb_false_iff in Ha.
    destruct w as [db clock ticks console toasts app chat item].
    destruct db as [groups members channels messages faults serverNow].
    unfold Spec.nextRequestRejected in Hf. cbn in Hf.
    unfold Conversation.handleSendMessage, Spec.sameTables.
    rewrite Ha, Ht. cbn [negb orb].
    destruct faults as [|[] fs]; try discriminate.
    cbn. repeat split; reflexivity.
Qed.

Lemma handleSendMessage_no_optimistic_entry_witness :
  World.chat
    (Eff.exec
       (Conversation.handleSendMessage (Some "channel_1") Sample.ada
          "k3x9q2m1z" "hi" "text") Sample.offlineWorld)
  = World.chat Sample.offlineWorld
  /\ Eff.exec
       (Conversation.handleSendMessage (Some "channel_1") Sample.ada
          "k3x9q2m1z" "   " "text") Sample.freshWorld
     = Sample.freshWorld.
Proof.
  split.
  - apply (proj2 (handleSendMessage_no_optimistic_entry Sample.offlineWorld
                    (Some "channel_1") Sample.ada "k3x9q2m1z" "hi" "text")).
    + reflexivity.
    + vm_compute. discriminate.
    + reflexivity.
  - apply (proj1 (handleSendMessage_no_optimistic_entry Sample.freshWorld
                    (Some "channel_1") Sample.ada "k3x9q2m1z" "   " "text")).
    right. reflexivity.
Defined.

(** X7.  A submit of the composer wired to the conversation: a draft
    that is not blank ends up as one new message at the end of the local
    list, of type [text], whose content is the trimmed draft, and the
    composer is reset. *)
Theorem composer_submit_appends_trimmed_draft :
  forall (w : World.t) (st : MessageInput.State) (channel : string)
         (user : User.t) (random : string),
    truthy channel = true ->
    trim (MessageInput.message st) <> EmptyString ->
    Spec.nextRequestRejected (World.db w) = false ->
    exists m : Message.t,
      MessageInput.handleSend
        (Conversation.onSendMessage (Some channel) user random) st w
      = ({| MessageInput.message := EmptyString;
            MessageInput.isPreviewMode := false;
            MessageInput.isExpanded := false |},
         Eff.exec
           (Conversation.handleSendMessage (Some channel) user random
              (MessageInput.message st) "text") w)
      /\ World.messages
           (World.chat
              (snd
                 (MessageInput.handleSend
                    (Conversation.onSendMessage (Some channel) user random)
                    st w)))
         = World.messages (World.chat w) ++ [m]
      /\ Message.content m = trim (MessageInput.message st)
      /\ Message.messageType m = "text"
      /\ Message.userId m = User.id user
      /\ Message.channelId m = channel.
Proof.
  intros w st channel user random Hc Ht Hf.
  assert (Ht2 : trim (trim (MessageInput.message st)) <> EmptyString)
    by (now rewrite trim_idempotent).
  destruct (handleSendMessage_sent w channel user random
              (trim (MessageInput.message st)) "text" Hc Ht2 Hf)
    as (m & E & Em).
  destruct (handleSendMessage_sent w channel user random
              (MessageInput.message st) "text" Hc Ht Hf)
    as (m' & E' & Em').
  assert (Hm : m' = m) by (rewrite Em, Em'; now rewrite trim_idempotent).
  clear Em'. rewrite Hm in E'. clear Hm m'.
  exists m. unfold MessageInput.handleSend, Conversation.onSendMessage.
  pose proof (proj2 (truthy_true _) Ht) as T. rewrite T. cbn [negb snd].
  rewrite E, E'. split; [reflexivity|].
  split; [destruct w; reflexivity|].
  rewrite Em. cbn. rewrite trim_idempotent. repeat split; reflexivity.
Qed.

Lemma composer_submit_appends_trimmed_draft_witness :
  exists m : Message.t,
    MessageInput.handleSend
      (Conversation.onSendMessage (Some "channel_1") Sample.ada "k3x9q2m1z")
      SampleMore.draft Sample.freshWorld
    = ({| MessageInput.message := EmptyString;
          MessageInput.isPreviewMode := false;
          MessageInput.isExpanded := false |},
       Eff.exec
         (Conversation.handleSendMessage (Some "channel_1") Sample.ada
            "k3x9q2m1z" (MessageInput.message SampleMore.draft) "text")
         Sample.freshWorld)
    /\ World.messages
         (World.chat
            (snd
               (MessageInput.handleSend
                  (Conversation.onSendMessage (Some "channel_1") Sample.ada
                     "k3x9q2m1z")
                  SampleMore.draft Sample.freshWorld)))
       = World.messages (World.chat Sample.freshWorld) ++ [m]
    /\ Message.content m = trim (MessageInput.message SampleMore.draft)
    /\ Message.messageType m = "text"
    /\ Message.userId m = User.id Sample.ada
    /\ Message.channelId m = "channel_1".
Proof.
  apply (composer_submit_appends_trimmed_draft Sample.freshWorld
           SampleMore.draft "channel_1" Sample.ada "k3x9q2m1z").
  - reflexivity.
  - vm_compute. discriminate.
  - reflexivity.
Defined.

Lemma filter_all_in {A : Type} (f : A -> bool) (l : list A) :
  (forall x, In x l -> f x = true) -> filter f l = l.
Proof.
  induction l as [|x l IH]; intro H; simpl; [reflexivity|].
  rewrite (H x (or_introl eq_refl)). f_equal. apply IH.
  intros y Hy. apply H. now right.
Qed.

Lemma filter_drops_last (l : list Message.t) (m : Message.t) :
  (forall x, In x l -> Message.id x <> Message.id m) ->
  filter (fun x => negb (Message.id x =? Message.id m)) (l ++ [m]) = l.
Proof.
  intro H. rewrite filter_app. simpl. rewrite String.eqb_refl. simpl.
  rewrite app_nil_r. apply filter_all_in. intros x Hx.
  apply negb_true_iff, String.eqb_neq. now apply H.
Qed.

(** X8.  Sending a message and then confirming its deletion, both
    requests being answered, gives back the local list and the stored
    messages as they were, provided the identifier of the new message is
    not the one of an earlier message. *)
Theorem send_then_delete_restores_messages :
  forall (w : World.t) (channel : string) (user : User.t)
         (random content messageType : string),
    truthy channel = true ->
    trim content <> EmptyString ->
    Remote.faults (World.db w) = [] ->
    (forall x,
        In x (World.messages (World.chat w))
        \/ In x (Remote.messages (World.db w)) ->
        Message.id x
        <> ("msg_" ++ numberToString (World.clock w (World.ticks w))
            ++ "_" ++ random)%string) ->
    exists m : Message.t,
      World.messages
        (World.chat
           (Eff.exec
              (Conversation.handleSendMessage (Some channel) user random
                 content messageType) w))
      = World.messages (World.chat w) ++ [m]
      /\ World.messages
           (World.chat
              (Eff.exec (ChatArea.deleteConfirmed m)
                 (Eff.exec
                    (Conversation.handleSendMessage (Some channel) user
                       random content messageType) w)))
         = World.messages (World.chat w)
      /\ Remote.messages
           (World.db
              (Eff.exec (ChatArea.deleteConfirmed m)
                 (Eff.exec
                    (Conversation.handleSendMessage (Some channel) user
                       random content messageType) w)))
         = Remote.messages (World.db w).
Proof.
  intros w channel user random content messageType Hc Ht Hf Hfresh.
  assert (Hr : Spec.nextRequestRejected (World.db w) = false)
    by (unfold Spec.nextRequestRejected; now rewrite Hf).
  destruct (handleSendMessage_sent w channel user random content
              messageType Hc Ht Hr) as (m & E & Em).
  assert (Hid : Message.id m
                = ("msg_" ++ numberToString (World.clock w (World.ticks w))
                   ++ "_" ++ random)%string) by (now rewrite Em).
  exists m. rewrite E. clear E Em.
  destruct w as [db clock ticks console toasts app chat item].
  destruct db as [groups members channels messages faults serverNow].
  cbn in Hf. subst faults. cbn in Hfresh, Hid |- *.
  rewrite <- Hid in Hfresh.
  split; [reflexivity|].
  split; apply filter_drops_last; intros x Hx; apply Hfresh; auto.
Qed.

Lemma send_then_delete_restores_messages_witness :
  exists m : Message.t,
    World.messages
      (World.chat
         (Eff.exec
            (Conversation.handleSendMessage (Some "channel_1") Sample.ada
               "k3x9q2m1z" "hi" "text") Sample.freshWorld))
    = World.messages (World.chat Sample.freshWorld) ++ [m]
    /\ World.messages
         (World.chat
            (Eff.exec (ChatArea.deleteConfirmed m)
               (Eff.exec
                  (Conversation.handleSendMessage (Some "channel_1")
                     Sample.ada "k3x9q2m1z" "hi" "text")
                  Sample.freshWorld)))
       = World.messages (World.chat Sample.freshWorld)
    /\ Remote.messages
         (World.db
            (Eff.exec (ChatArea.deleteConfirmed m)
               (Eff.exec
                  (Conversation.handleSendMessage (Some "channel_1")
                     Sample.ada "k3x9q2m1z" "hi" "text")
                  Sample.freshWorld)))
       = Remote.messages (World.db Sample.freshWorld).
Proof.
  apply (send_then_delete_restores_messages Sample.freshWorld "channel_1"
           Sample.ada "k3x9q2m1z" "hi" "text").
  - reflexivity.
  - vm_compute. discriminate.
  - reflexivity.
  - simpl. intros x H.
    assert (In x [Sample.m1; Sample.m2; Sample.m3]) as Hx
      by (destruct H; assumption).
    simpl in Hx. destruct Hx as [<- | [<- | [<- | []]]];
      vm_compute; discriminate.
Defined.

(** The states [loadChannelData] can end in. *)
Lemma loadChannelData_outcome (activeChannel : string)
  (channel : option Channel.t) (w : World.t) :
  let found :=
    filter (fun c => Channel.id c =? activeChannel)
      (Remote.channels (World.db w)) in
  let shown :=
    RemoteMore.mostRecent 100
      (Remote.orderAsc Message.createdAt
         (filter (fun m => Message.channelId m =? activeChannel)
            (Remote.messages (World.db w)))) in
  let s' := Local.exec (Conversation.loadChannelData activeChannel)
              (channel, w) in
  World.chatLoading (World.chat (snd s')) = false
  /\ World.searchQuery (World.chat (snd s'))
     = World.searchQuery (World.chat w)
  /\ Spec.sameTables (World.db (snd s')) (World.db w)
  /\ (Spec.nextRequestRejected (World.db w) = true ->
      fst s' = channel
      /\ World.messages (World.chat (snd s'))
         = World.messages (World.chat w))
  /\ (SpecMore.secondRequestRejected (World.db w) = true ->
      fst s' = match found with c :: _ => Some c | [] => channel end
      /\ World.messages (World.chat (snd s'))
         = World.messages (World.chat w))
  /\ (Spec.nextRequestRejected (World.db w) = false ->
      SpecMore.secondRequestRejected (World.db w) = false ->
      fst s' = match found with c :: _ => Some c | [] => channel end
      /\ World.messages (World.chat (snd s')) = shown).
Proof.
  destruct w as [db clock ticks console toasts app chat item].
  destruct db as [groups members channels messages faults serverNow].
  unfold Spec.nextRequestRejected, SpecMore.secondRequestRejected,
    Spec.sameTables, Conversation.loadChannelData,
    Conversation.setLoading, Conversation.setMessages,
    RemoteMore.channels_list_by_id, RemoteMore.messages_list.
  unfold_handlers.
  cbn [World.db Remote.faults Remote.channels Remote.messages].
  destruct (filter (fun c => Channel.id c =? activeChannel) channels)
    as [|c cs] eqn:F;
    destruct faults as [|[] [|[] fs]];
    cbn; rewrite ?F; cbn;
    repeat split; try reflexivity; try discriminate.
Qed.

Lemma string_leb_trans (a b c : string) :
  (a <=? b)%string = true -> (b <=? c)%string = true ->
  (a <=? c)%string = true.
Proof.
  revert b c. unfold String.leb.
  induction a as [|x a IH]; intros [|y b] [|z c]; simpl;
    try reflexivity; try discriminate.
  unfold Ascii.compare.
  destruct (N.compare_spec (N_of_ascii x) (N_of_ascii y)) as [E1|L1|G1];
    destruct (N.compare_spec (N_of_ascii y) (N_of_ascii z)) as [E2|L2|G2];
    destruct (N.compare_spec (N_of_ascii x) (N_of_ascii z)) as [E3|L3|G3];
    try reflexivity; try discriminate; try lia;
    try (intros _ _; exfalso; lia).
  apply IH.
Qed.

Lemma createdNoLater_trans (a b c : Message.t) :
  SpecMore.createdNoLater a b -> SpecMore.createdNoLater b c ->
  SpecMore.createdNoLater a c.
Proof. apply string_leb_trans. Qed.

Section OrderedAscending.
Context {A : Type}.
Variable field : A -> string.

Lemma insertAsc_sorted (x : A) (l : list A) :
  StronglySorted (fun a b => (field a <=? field b)%string = true) l ->
  StronglySorted (fun a b => (field a <=? field b)%string = true)
    (Remote.insertAsc field x l).
Proof.
  intro Hs. induction Hs as [|y l Hs IH Hy].
  - simpl. constructor; constructor.
  - cbn [Remote.insertAsc].
    destruct (field x <=? field y)%string eqn:C.
    + constructor; [now constructor|].
      constructor; [exact C|].
      eapply Forall_impl; [|exact Hy].
      intros m Hm. now apply (string_leb_trans _ (field y)).
    + constructor; [exact IH|].
      apply (Permutation_Forall
               (Permutation_sym (insertAsc_perm field x l))).
      constructor; [|exact Hy].
      destruct (String.leb_total (field x) (field y)) as [H | H];
        [congruence | exact H].
Qed.

Lemma orderAsc_sorted (l : list A) :
  StronglySorted (fun a b => (field a <=? field b)%string = true)
    (Remote.orderAsc field l).
Proof.
  induction l as [|x l IH]; simpl; [constructor|].
  now apply insertAsc_sorted.
Qed.

End OrderedAscending.

Lemma skipn_In {A : Type} (n : nat) (l : list A) (x : A) :
  In x (skipn n l) -> In x l.
Proof.
  revert l. induction n as [|n IH]; intros [|y l]; simpl; try tauto.
  intro H. right. now apply IH.
Qed.

Lemma skipn_sorted {A : Type} (R : A -> A -> Prop) (n : nat) (l : list A) :
  StronglySorted R l -> StronglySorted R (skipn n l).
Proof.
  intro Hs. revert n. induction Hs as [|x l Hs IH Hx]; intros [|n]; simpl;
    try constructor; try assumption.
  apply IH.
Qed.

Lemma mostRecent_length {A : Type} (n : nat) (l : list A) :
  List.length (RemoteMore.mostRecent n l) <= n.
Proof. unfold RemoteMore.mostRecent. rewrite length_skipn. lia. Qed.

Lemma mostRecent_all {A : Type} (n : nat) (l : list A) :
  List.length l <= n -> RemoteMore.mostRecent n l = l.
Proof.
  intro H. unfold RemoteMore.mostRecent.
  replace (List.length l - n) with 0 by lia. reflexivity.
Qed.

Lemma mostRecent_In {A : Type} (n : nat) (l : list A) (x : A) :
  In x (RemoteMore.mostRecent n l) -> In x l.
Proof. apply skipn_In. Qed.

(** X9.  Loading a channel always ends with the loading flag off and
    never writes to the store.  When both requests are answered the
    local list is replaced by at most 100 stored messages, all of that
    channel, oldest first by the text of their creation time; when one
    of the two is rejected the list is left as it was. *)
Theorem loadChannelData_ends_loading :
  forall (activeChannel : string) (channel : option Channel.t)
         (w : World.t),
    let r :=
      Local.exec (Conversation.loadChannelData activeChannel) (channel, w) in
    World.chatLoading (World.chat (snd r)) = false
    /\ Spec.sameTables (World.db (snd r)) (World.db w)
    /\ (Spec.nextRequestRejected (World.db w) = false ->
        SpecMore.secondRequestRejected (World.db w) = false ->
        List.length (World.messages (World.chat (snd r))) <= 100
        /\ StronglySorted SpecMore.createdNoLater
             (World.messages (World.chat (snd r)))
        /\ forall m,
             In m (World.messages (World.chat (snd r))) ->
             Message.channelId m = activeChannel
             /\ In m (Remote.messages (World.db w)))
    /\ (Spec.nextRequestRejected (World.db w) = true
        \/ SpecMore.secondRequestRejected (World.db w) = true ->
        World.messages (World.chat (snd r)) = World.messages (World.chat w)).
Proof.
  intros activeChannel channel w r. subst r.
  destruct (loadChannelData_outcome activeChannel channel w)
    as (L & _ & T & R1 & R2 & Ok).
  split; [exact L | split; [exact T | split]].
  - intros H1 H2. destruct (Ok H1 H2) as [_ ->]. split; [|split].
    + apply mostRecent_length.
    + apply skipn_sorted.
      exact (orderAsc_sorted Message.createdAt _).
    + intros m Hm. apply mostRecent_In in Hm.
      apply (Permutation_in _ (orderAsc_perm Message.createdAt _)) in Hm.
      apply filter_In in Hm.
      destruct Hm as [Hin Hc]. apply String.eqb_eq in Hc. auto.
  - intros [H | H]; [apply (R1 H) | apply (R2 H)].
Qed.

Lemma loadChannelData_ends_loading_witness :
  World.messages
    (World.chat
       (snd (Local.exec (Conversation.loadChannelData "channel_1")
               (None, Sample.offlineWorld))))
  = World.messages (World.chat Sample.offlineWorld).
Proof.
  apply (proj2 (proj2 (proj2
           (loadChannelData_ends_loading "channel_1" None
              Sample.offlineWorld)))).
  left. reflexivity.
Defined.


(* ------------------------------------------------------------------ *)
(** ** Sending, then loading the channel again *)

(** The store after a send that went through, with every request
    answered. *)
Lemma store_after_send (w : World.t) (channel : string) (user : User.t)
  (random content messageType : string) :
  truthy channel = true ->
  trim content <> EmptyString ->
  Remote.faults (World.db w) = [] ->
  exists m : Message.t,
    Remote.messages
      (World.db
         (Eff.exec
            (Conversation.handleSendMessage (Some channel) user random
               content messageType) w))
    = Remote.messages (World.db w) ++ [m]
    /\ Remote.faults
         (World.db
            (Eff.exec
               (Conversation.handleSendMessage (Some channel) user random
                  content messageType) w))
       = []
    /\ Message.channelId m = channel
    /\ Message.content m = trim content
    /\ Message.createdAt m = Remote.serverNow (World.db w)
    /\ Message.id m
       = ("msg_" ++ numberToString (World.clock w (World.ticks w))
          ++ "_" ++ random)%string.
Proof.
  intros Hc Ht Hf.
  assert (Hn : Spec.nextRequestRejected (World.db w) = false)
    by (unfold Spec.nextRequestRejected; now rewrite Hf).
  destruct (handleSendMessage_sent w channel user random content messageType
              Hc Ht Hn) as (m & -> & Em).
  exists m. destruct w as [db clock ticks console toasts app chat item].
  cbn in *. rewrite Hf. subst m. cbn. repeat split; reflexivity.
Qed.

Lemma loaded_after_answers (activeChannel : string)
  (channel : option Channel.t) (w : World.t) :
  Remote.faults (World.db w) = [] ->
  World.messages
    (World.chat
       (snd (Local.exec (Conversation.loadChannelData activeChannel)
               (channel, w))))
  = RemoteMore.mostRecent 100
      (Remote.orderAsc Message.createdAt
         (filter (fun m => Message.channelId m =? activeChannel)
            (Remote.messages (World.db w)))).
Proof.
  intro Hf.
  destruct (loadChannelData_outcome activeChannel channel w)
    as (_ & _ & _ & _ & _ & Ok).
  apply Ok.
  - unfold Spec.nextRequestRejected. now rewrite Hf.
  - unfold SpecMore.secondRequestRejected. now rewrite Hf.
Qed.

Lemma filter_channel_snoc (channel : string) (l : list Message.t)
  (m : Message.t) :
  Message.channelId m = channel ->
  filter (fun x => Message.channelId x =? channel) (l ++ [m])
  = filter (fun x => Message.channelId x =? channel) l ++ [m].
Proof.
  intro H. rewrite filter_app. cbn [filter].
  now rewrite H, String.eqb_refl.
Qed.

(** X10.  A message sent on a channel that holds fewer than 100 messages
    is shown again when the channel is loaded anew, the requests being
    answered: the list loaded holds every stored message of the channel
    and the one just sent. *)
Theorem sent_message_shows_after_reload :
  forall (w : World.t) (channel : string) (user : User.t)
         (random content messageType : string)
         (header : option Channel.t),
    truthy channel = true ->
    trim content <> EmptyString ->
    Remote.faults (World.db w) = [] ->
    List.length
      (filter (fun x => Message.channelId x =? channel)
         (Remote.messages (World.db w))) < 100 ->
    let loaded :=
      World.messages
        (World.chat
           (snd (Local.exec (Conversation.loadChannelData channel)
                   (header,
                    Eff.exec
                      (Conversation.handleSendMessage (Some channel) user
                         random content messageType) w)))) in
    (exists m : Message.t,
        In m loaded
        /\ Message.content m = trim content
        /\ Message.id m
           = ("msg_" ++ numberToString (World.clock w (World.ticks w))
              ++ "_" ++ random)%string)
    /\ List.length loaded
       = S (List.length
              (filter (fun x => Message.channelId x =? channel)
                 (Remote.messages (World.db w)))).
Proof.
  intros w channel user random content messageType header Hc Ht Hf Hlen
    loaded.
  destruct (store_after_send w channel user random content messageType
              Hc Ht Hf) as (m & Hm & Hf1 & Hch & Hco & _ & Hid).
  assert (E : loaded
              = Remote.orderAsc Message.createdAt
                  (filter (fun x => Message.channelId x =? channel)
                     (Remote.messages (World.db w)) ++ [m])).
  { subst loaded. rewrite (loaded_after_answers _ _ _ Hf1), Hm.
    rewrite (filter_channel_snoc channel _ m Hch).
    apply mostRecent_all.
    rewrite (Permutation_length (orderAsc_perm Message.createdAt _)).
    rewrite length_app. simpl. lia. }
  clearbody loaded. subst loaded. split.
  - exists m. split; [|split; assumption].
    apply (Permutation_in _
             (Permutation_sym (orderAsc_perm Message.createdAt _))).
    apply in_or_app. right. now left.
  - rewrite (Permutation_length (orderAsc_perm Message.createdAt _)).
    rewrite length_app. simpl. lia.
Qed.

Lemma sent_message_shows_after_reload_witness :
  List.length
    (World.messages
       (World.chat
          (snd (Local.exec (Conversation.loadChannelData "channel_1")
                  (None,
                   Eff.exec
                     (Conversation.handleSendMessage (Some "channel_1")
                        Sample.ada "k3j9x0q2a" " hi " "text")
                     Sample.freshWorld)))))
  = S (List.length
         (filter (fun x => Message.channelId x =? "channel_1")
            (Remote.messages (World.db Sample.freshWorld)))).
Proof.
  refine (proj2
            (sent_message_shows_after_reload Sample.freshWorld "channel_1"
               Sample.ada "k3j9x0q2a" " hi " "text" None _ _ _ _)).
  - reflexivity.
  - vm_compute. discriminate.
  - reflexivity.
  - vm_compute. lia.
Defined.

(* ------------------------------------------------------------------ *)
(** ** Deleting, then loading the channel again *)

Lemma store_after_delete (w : World.t) (message : Message.t) :
  Remote.faults (World.db w) = [] ->
  Remote.messages (World.db (Eff.exec (ChatArea.deleteConfirmed message) w))
  = filter (fun m => negb (Message.id m =? Message.id message))
      (Remote.messages (World.db w))
  /\ Remote.faults
       (World.db (Eff.exec (ChatArea.deleteConfirmed message) w))
     = [].
Proof.
  destruct w as [db clock ticks console toasts app chat item].
  destruct db as [groups members channels messages faults serverNow].
  cbn. intros ->. split; reflexivity.
Qed.

Lemma filter_swap {A : Type} (f g : A -> bool) (l : list A) :
  filter f (filter g l) = filter g (filter f l).
Proof.
  induction l as [|x l IH]; simpl; [reflexivity|].
  destruct (f x) eqn:F, (g x) eqn:G; simpl; rewrite ?F, ?G, IH; reflexivity.
Qed.

Lemma filter_shorter {A : Type} (f : A -> bool) (l : list A) :
  List.length (filter f l) <= List.length l.
Proof.
  induction l as [|x l IH]; simpl; [lia|].
  destruct (f x); simpl; lia.
Qed.

(** X12.  A message whose deletion went through does not come back when
    the channel is loaded anew, the requests being answered: no message
    loaded carries its identifier; and on a channel of at most 100
    messages every other stored message of the channel is loaded. *)
Theorem deleted_message_stays_away_after_reload :
  forall (w : World.t) (message : Message.t) (channel : string)
         (header : option Channel.t),
    Remote.faults (World.db w) = [] ->
    let loaded :=
      World.messages
        (World.chat
           (snd (Local.exec (Conversation.loadChannelData channel)
                   (header,
                    Eff.exec (ChatArea.deleteConfirmed message) w)))) in
    (forall x, In x loaded -> Message.id x <> Message.id message)
    /\ (List.length
          (filter (fun x => Message.channelId x =? channel)
             (Remote.messages (World.db w))) <= 100 ->
        forall x,
          In x (Remote.messages (World.db w)) ->
          Message.channelId x = channel ->
          Message.id x <> Message.id message ->
          In x loaded).
Proof.
  intros w message channel header Hf loaded.
  destruct (store_after_delete w message Hf) as [Hm Hf1].
  assert (E : loaded
              = RemoteMore.mostRecent 100
                  (Remote.orderAsc Message.createdAt
                     (filter (fun x => Message.channelId x =? channel)
                        (filter
                           (fun m => negb (Message.id m =? Message.id message))
                           (Remote.messages (World.db w))))))
    by (subst loaded; now rewrite (loaded_after_answers _ _ _ Hf1), Hm).
  clearbody loaded. subst loaded. split.
  - intros x Hx. apply mostRecent_In in Hx.
    apply (Permutation_in _ (orderAsc_perm Message.createdAt _)) in Hx.
    apply filter_In in Hx. destruct Hx as [Hx _].
    apply filter_In in Hx. destruct Hx as [_ Hx].
    apply negb_true_iff in Hx. now apply String.eqb_neq.
  - intros Hlen x Hin Hch Hid.
    rewrite mostRecent_all.
    + apply (Permutation_in _
               (Permutation_sym (orderAsc_perm Message.createdAt _))).
      apply filter_In. split.
      * apply filter_In. split; [exact Hin|].
        apply negb_true_iff. now apply String.eqb_neq.
      * now apply String.eqb_eq.
    + rewrite (Permutation_length (orderAsc_perm Message.createdAt _)).
      rewrite filter_swap.
      eapply Nat.le_trans; [apply filter_shorter | exact Hlen].
Qed.

Lemma deleted_message_stays_away_after_reload_witness :
  In Sample.m1
    (World.messages
       (World.chat
          (snd (Local.exec (Conversation.loadChannelData "channel_1")
                  (None,
                   Eff.exec (ChatArea.deleteConfirmed Sample.m2)
                     Sample.freshWorld))))).
Proof.
  refine (proj2
            (deleted_message_stays_away_after_reload Sample.freshWorld
               Sample.m2 "channel_1" None _) _ Sample.m1 _ _ _).
  - reflexivity.
  - vm_compute. lia.
  - left. reflexivity.
  - reflexivity.
  - vm_compute. discriminate.
Defined.
(* ------------------------------------------------------------------ *)
(** ** Workspaces: order, sign-in, sign-out, selection *)

Lemma insertGroup_perm (getTime : string -> option Z) (x : Group.t)
  (l : list Group.t) :
  Permutation (App.insertGroup getTime x l) (x :: l).
Proof.
  induction l as [|y l IH]; simpl; [apply Permutation_refl|].
  destruct (App.sortsAfter getTime x y); [|apply Permutation_refl].
  eapply Permutation_trans; [apply perm_skip, IH | apply perm_swap].
Qed.

Lemma sortGroups_perm (getTime : string -> option Z) (l : list Group.t) :
  Permutation (App.sortGroups getTime l) l.
Proof.
  induction l as [|x l IH]; simpl; [apply Permutation_refl|].
  eapply Permutation_trans; [apply insertGroup_perm | now apply perm_skip].
Qed.

Lemma notOlder_trans (getTime : string -> option Z) (a b c : Group.t) :
  SpecMore.notOlder getTime a b -> SpecMore.notOlder getTime b c ->
  SpecMore.notOlder getTime a c.
Proof.
  intros (ta & tb & Ha & Hb & H1) (tb' & tc & Hb' & Hc & H2).
  exists ta, tc. repeat split; try assumption.
  rewrite Hb in Hb'. injection Hb' as <-. lia.
Qed.

Lemma insertGroup_sorted (getTime : string -> option Z) (x : Group.t)
  (l : list Group.t) :
  (forall g, In g (x :: l) -> getTime (Group.createdAt g) <> None) ->
  StronglySorted (SpecMore.notOlder getTime) l ->
  StronglySorted (SpecMore.notOlder getTime) (App.insertGroup getTime x l).
Proof.
  intros Hp Hs. induction Hs as [|y l Hs IH Hy].
  - simpl. constructor; constructor.
  - cbn [App.insertGroup]. unfold App.sortsAfter.
    destruct (getTime (Group.createdAt y)) as [ty|] eqn:Ey;
      [|exfalso; apply (Hp y); simpl; auto].
    destruct (getTime (Group.createdAt x)) as [tx|] eqn:Ex;
      [|exfalso; apply (Hp x); simpl; auto].
    destruct (0 <? ty - tx)%Z eqn:C.
    + apply Z.ltb_lt in C. constructor.
      * apply IH. intros g [<- | Hg]; apply Hp; simpl; auto.
      * apply (Permutation_Forall
                 (Permutation_sym (insertGroup_perm getTime x l))).
        constructor; [|exact Hy].
        exists ty, tx. repeat split; try assumption. lia.
    + apply Z.ltb_ge in C.
      assert (Hxy : SpecMore.notOlder getTime x y)
        by (exists tx, ty; repeat split; try assumption; lia).
      constructor; [now constructor|].
      constructor; [exact Hxy|].
      eapply Forall_impl; [|exact Hy].
      intros g Hg. now apply (notOlder_trans getTime x y g).
Qed.

(** X13.  The workspaces shown are the fetched ones in another order,
    none lost and none doubled; when every creation time parses they are
    listed newest first. *)
Theorem sortGroups_newest_first :
  forall (getTime : string -> option Z) (l : list Group.t),
    Permutation (App.sortGroups getTime l) l
    /\ ((forall g, In g l -> getTime (Group.createdAt g) <> None) ->
        StronglySorted (SpecMore.notOlder getTime)
          (App.sortGroups getTime l)).
Proof.
  intros getTime l. split; [apply sortGroups_perm|].
  induction l as [|x l IH]; intro Hp; simpl; [constructor|].
  apply insertGroup_sorted.
  - intros g [<- | Hg]; [apply Hp; simpl; auto|].
    apply Hp. right.
    apply (Permutation_in _ (sortGroups_perm getTime l) Hg).
  - apply IH. intros g Hg. apply Hp. now right.
Qed.

Lemma sortGroups_newest_first_witness :
  StronglySorted (SpecMore.notOlder isoGetTime)
    (App.sortGroups isoGetTime [SampleMore.g1; SampleMore.g2]).
Proof.
  apply (proj2 (sortGroups_newest_first isoGetTime
                  [SampleMore.g1; SampleMore.g2])).
  intros g Hg. simpl in Hg. destruct Hg as [<- | [<- | []]];
    vm_compute; discriminate.
Defined.

Example sortGroups_sample :
  App.sortGroups isoGetTime [SampleMore.g1; SampleMore.g2]
  = [SampleMore.g2; SampleMore.g1].
Proof. reflexivity. Qed.

(** X14.  A sign-out makes no request and resets no cell of [App] but
    the user: the workspaces and channels of the user who left, and the
    two selections, stay in the state, however many renders follow.
    The conversation is no longer rendered: its cells and those of its
    items are discarded, a later mount starts from the empty list. *)
Theorem signOut_keeps_lists_and_selection :
  forall (getTime : string -> option Z) (fuel : nat) (isLoading : bool)
         (w : World.t),
    World.db (App.onAuthStateChanged getTime fuel None isLoading w)
    = World.db w
    /\ World.user
         (World.app (App.onAuthStateChanged getTime fuel None isLoading w))
       = None
    /\ World.groups
         (World.app (App.onAuthStateChanged getTime fuel None isLoading w))
       = World.groups (World.app w)
    /\ World.channels
         (World.app (App.onAuthStateChanged getTime fuel None isLoading w))
       = World.channels (World.app w)
    /\ World.activeGroup
         (World.app (App.onAuthStateChanged getTime fuel None isLoading w))
       = World.activeGroup (World.app w)
    /\ World.activeChannel
         (World.app (App.onAuthStateChanged getTime fuel None isLoading w))
       = World.activeChannel (World.app w)
    /\ World.chat (App.onAuthStateChanged getTime fuel None isLoading w)
       = App.initialChat
    /\ World.item (App.onAuthStateChanged getTime fuel None isLoading w)
       = App.initialItem.
Proof.
  intros getTime fuel isLoading w.
  assert (E : App.onAuthStateChanged getTime fuel None isLoading w
              = Eff.exec (App.authChanged None isLoading) w).
  { unfold App.onAuthStateChanged.
    pose proof (authChanged_cells None isLoading w)
      as (_ & Hu0 & _ & _ & _ & Hg0 & Ha0 & _).
    set (w0 := Eff.exec (App.authChanged None isLoading) w) in *.
    assert (Hc0 : App.channelsDeps (World.app w0)
                  = App.channelsDeps (World.app w))
      by (unfold App.channelsDeps; now rewrite Hg0, Ha0).
    clearbody w0. destruct fuel as [|fuel]; [reflexivity|].
    cbn [App.commit].
    change (App.channelsMemo (App.memoOf (World.app w)))
      with (App.channelsDeps (World.app w)).
    rewrite Hc0, sameDeps_refl.
    destruct (App.sameDeps (App.groupsMemo (App.memoOf (World.app w)))
                (App.groupsDeps (World.app w0)));
      cbn [negb andb]; [reflexivity|].
    unfold App.groupsEffect. rewrite Hu0.
    unfold Eff.exec at 1, Eff.ret. cbn [snd]. apply commit_at_rest. }
  rewrite E.
  destruct (authChanged_cells None isLoading w)
    as (Hdb & Hu & _ & Hgs & Hcs & Hg & Hc & _).
  repeat (split; [assumption|]).
  destruct w as [db clock ticks console toasts app chat item].
  unfold Eff.exec, App.authChanged, App.remountChat, App.setUser,
    App.setLoading, Eff.bind, Eff.modify, App.showsChat.
  cbn. rewrite andb_false_r, andb_false_r. split; reflexivity.
Qed.

(** A sign-in of a user who has a membership leaves the tables as they
    were. *)
Lemma signIn_member_sameTables (getTime : string -> option Z) (fuel : nat)
  (u : User.t) (isLoading : bool) (w : World.t) :
  Spec.membershipsOf (User.id u) (World.db w) <> [] ->
  Spec.sameTables
    (World.db (App.onAuthStateChanged getTime fuel (Some u) isLoading w))
    (World.db w).
Proof.
  intro Hm. unfold App.onAuthStateChanged.
  pose proof (authChanged_cells (Some u) isLoading w) as (Hdb0 & Hu0 & _).
  set (w0 := Eff.exec (App.authChanged (Some u) isLoading) w) in *.
  clearbody w0. rewrite <- Hdb0 in *.
  now apply (commit_member getTime u).
Qed.

(** X15.  The sign-in of a user who has a workspace never writes to the
    store, whichever requests are rejected and however many renders
    follow: the bootstrap is for users without any membership only. *)
Theorem member_signIn_never_writes :
  forall (getTime : string -> option Z) (fuel : nat) (u : User.t)
         (isLoading : bool) (w : World.t),
    Spec.membershipsOf (User.id u) (World.db w) <> [] ->
    Spec.sameTables
      (World.db (App.onAuthStateChanged getTime fuel (Some u) isLoading w))
      (World.db w).
Proof. exact signIn_member_sameTables. Qed.

Lemma member_signIn_never_writes_witness :
  Spec.sameTables
    (World.db
       (App.onAuthStateChanged isoGetTime 4 (Some Sample.ada) false
          SampleMore.teamWorld))
    (World.db SampleMore.teamWorld).
Proof.
  apply (member_signIn_never_writes isoGetTime 4 Sample.ada false
           SampleMore.teamWorld).
  vm_compute. discriminate.
Defined.

(** The sample user lands in the newest workspace and on its first
    channel. *)
Example member_signIn_sample :
  World.activeGroup
    (World.app
       (App.onAuthStateChanged isoGetTime 4 (Some Sample.ada) false
          SampleMore.teamWorld))
  = Some "group_2"
  /\ World.activeChannel
       (World.app
          (App.onAuthStateChanged isoGetTime 4 (Some Sample.ada) false
             SampleMore.teamWorld))
     = Some "channel_2"
  /\ map Group.name
       (World.groups
          (World.app
             (App.onAuthStateChanged isoGetTime 4 (Some Sample.ada) false
                SampleMore.teamWorld)))
     = ["Side project"; "Acme"].
Proof. repeat split; reflexivity. Qed.

(** X16.  Selecting a workspace or a channel in the sidebar, for a user
    with a workspace and with the requests answered, sets that selection
    and nothing else: the store is not written to, and selecting another
    workspace keeps the channel that was selected. *)
Theorem sidebar_selection_keeps_the_rest :
  forall (getTime : string -> option Z) (fuel : nat) (u : User.t)
         (picked : string) (w : World.t),
    Spec.settledFor u w ->
    truthy picked = true ->
    (World.db (Sidebar.onGroupSelect getTime fuel picked w) = World.db w
     /\ World.activeGroup
          (World.app (Sidebar.onGroupSelect getTime fuel picked w))
        = Some picked
     /\ World.activeChannel
          (World.app (Sidebar.onGroupSelect getTime fuel picked w))
        = World.activeChannel (World.app w))
    /\ (World.db (Sidebar.onChannelSelect getTime fuel picked w) = World.db w
        /\ World.activeChannel
             (World.app (Sidebar.onChannelSelect getTime fuel picked w))
           = Some picked
        /\ World.activeGroup
             (World.app (Sidebar.onChannelSelect getTime fuel picked w))
           = World.activeGroup (World.app w)).
Proof.
  intros getTime fuel u picked w (Hu & Hm & Hg & Hc & Hf) Hp.
  assert (Fp : App.falsy (Some picked) = false) by (simpl; now rewrite Hp).
  split.
  - unfold Sidebar.onGroupSelect.
    set (w0 := Eff.exec (App.setActiveGroup (Some picked)) w).
    assert (S0 : Spec.settledFor u w0).
    { subst w0. destruct w. unfold Spec.settledFor in *. cbn in *.
      repeat split; assumption. }
    destruct (commit_settled getTime u fuel (App.memoOf (World.app w)) w0 S0)
      as (Sdb & _ & Sg & Sc).
    rewrite Sdb, Sg, Sc. subst w0. destruct w. cbn. auto.
  - unfold Sidebar.onChannelSelect.
    set (w0 := Eff.exec (App.setActiveChannel (Some picked)) w).
    assert (S0 : Spec.settledFor u w0).
    { subst w0. destruct w. unfold Spec.settledFor in *. cbn in *.
      repeat split; assumption. }
    destruct (commit_settled getTime u fuel (App.memoOf (World.app w)) w0 S0)
      as (Sdb & _ & Sg & Sc).
    rewrite Sdb, Sg, Sc. subst w0. destruct w. cbn. auto.
Qed.

Lemma sidebar_selection_keeps_the_rest_witness :
  World.db
    (Sidebar.onGroupSelect isoGetTime 3 "group_2" SampleMore.signedInWorld)
  = World.db SampleMore.signedInWorld
  /\ World.activeGroup
       (World.app
          (Sidebar.onGroupSelect isoGetTime 3 "group_2"
             SampleMore.signedInWorld))
     = Some "group_2"
  /\ World.activeChannel
       (World.app
          (Sidebar.onGroupSelect isoGetTime 3 "group_2"
             SampleMore.signedInWorld))
     = World.activeChannel (World.app SampleMore.signedInWorld).
Proof.
  refine (proj1 (sidebar_selection_keeps_the_rest isoGetTime 3 Sample.ada
                   "group_2" SampleMore.signedInWorld _ _)).
  - repeat split; try reflexivity. vm_compute. discriminate.
  - reflexivity.
Defined.

(* ------------------------------------------------------------------ *)
(** ** Switching workspace *)

Lemma sameCell_differ (x y : option string) :
  x <> y -> App.sameCell x y = false.
Proof.
  destruct x as [s|], y as [t|]; simpl; intro H; try reflexivity.
  - apply String.eqb_neq. congruence.
  - congruence.
Qed.

(** Nothing runs when both dependency arrays are as they were. *)
Lemma commit_stable (getTime : string -> option Z) (fuel : nat)
  (memo : App.Memo) (w : World.t) :
  App.groupsDeps (World.app w) = App.groupsMemo memo ->
  App.channelsDeps (World.app w) = App.channelsMemo memo ->
  App.commit getTime fuel memo w = w.
Proof.
  intros G C. destruct fuel as [|fuel]; [reflexivity|].
  cbn [App.commit]. now rewrite G, C, !sameDeps_refl.
Qed.

(** [loadChannels] with a channel selected and the request answered
    shows the stored channels of the workspace, oldest first. *)
Lemma loadChannels_shows_stored (g : string) (activeChannel : option string)
  (w : World.t) :
  App.falsy activeChannel = false ->
  Remote.faults (World.db w) = [] ->
  Eff.exec (App.loadChannels g activeChannel) w
  = Eff.exec
      (App.setChannels
         (Remote.orderAsc Channel.createdAt
            (filter (fun c => Channel.groupId c =? g)
               (Remote.channels (World.db w))))) w.
Proof.
  intros Ha Hf.
  destruct w as [db clock ticks console toasts app chat item].
  destruct db as [groups members channels messages faults serverNow].
  cbn in Hf. subst faults.
  unfold Eff.exec, App.loadChannels, Eff.tryCatch, Eff.bind, Eff.await,
    Remote.channels_list, Remote.request.
  rewrite Ha. cbn [World.db Remote.faults Remote.channels].
  destruct (Remote.orderAsc Channel.createdAt
              (filter (fun c => Channel.groupId c =? g) channels));
    reflexivity.
Qed.

(** X17.  Selecting another workspace in the sidebar, for a user with a
    workspace and with the requests answered, replaces the channels in
    the state by the stored channels of that workspace, none lost and
    none doubled, oldest first by the text of their creation time, and
    the sidebar lists every one of them. *)
Theorem switching_workspace_lists_its_channels :
  forall (getTime : string -> option Z) (fuel : nat) (u : User.t)
         (g : string) (w : World.t),
    Spec.settledFor u w ->
    truthy g = true ->
    World.activeGroup (World.app w) <> Some g ->
    1 <= fuel ->
    Permutation
      (World.channels (World.app (Sidebar.onGroupSelect getTime fuel g w)))
      (filter (fun c => Channel.groupId c =? g)
         (Remote.channels (World.db w)))
    /\ StronglySorted SpecMore.channelCreatedNoLater
         (World.channels (World.app (Sidebar.onGroupSelect getTime fuel g w)))
    /\ Sidebar.groupChannels
         (World.channels (World.app (Sidebar.onGroupSelect getTime fuel g w)))
         (World.activeGroup
            (World.app (Sidebar.onGroupSelect getTime fuel g w)))
       = World.channels (World.app (Sidebar.onGroupSelect getTime fuel g w)).
Proof.
  intros getTime fuel u g w Hs Hg Hne Hfuel.
  destruct fuel as [|fuel]; [lia|]. clear Hfuel.
  pose proof Hs as (Hu & Hm & Hag & Hac & Hf).
  unfold Sidebar.onGroupSelect.
  set (w0 := Eff.exec (App.setActiveGroup (Some g)) w).
  assert (A0 : World.activeGroup (World.app w0) = Some g)
    by (destruct w; reflexivity).
  assert (U0 : World.user (World.app w0) = World.user (World.app w))
    by (destruct w; reflexivity).
  assert (C0 : World.activeChannel (World.app w0)
               = World.activeChannel (World.app w))
    by (destruct w; reflexivity).
  assert (D0 : World.db w0 = World.db w) by (destruct w; reflexivity).
  assert (S0 : Spec.settledFor u w0).
  { unfold Spec.settledFor. rewrite U0, D0, A0, C0.
    repeat split; try assumption. simpl. now rewrite Hg. }
  clearbody w0.
  cbn [App.commit].
  assert (RG : App.sameDeps (App.groupsMemo (App.memoOf (World.app w)))
                 (App.groupsDeps (World.app w0)) = false).
  { unfold App.sameDeps, App.memoOf, App.groupsDeps.
    cbn [App.groupsMemo fst snd]. rewrite A0.
    rewrite (sameCell_differ _ _ Hne). apply andb_false_r. }
  assert (RC : App.sameDeps (App.channelsMemo (App.memoOf (World.app w)))
                 (App.channelsDeps (World.app w0)) = false).
  { unfold App.sameDeps, App.memoOf, App.channelsDeps.
    cbn [App.channelsMemo fst snd]. rewrite A0.
    now rewrite (sameCell_differ _ _ Hne). }
  rewrite RG, RC. cbn [negb andb].
  pose proof (groupsEffect_settled getTime u (World.app w0) w0) as SG.
  rewrite U0, A0 in SG. specialize (SG Hu).
  assert (Fg : App.falsy (Some g) = false) by (simpl; now rewrite Hg).
  specialize (SG Fg S0).
  set (w1 := Eff.exec (App.groupsEffect getTime (World.app w0)) w0) in *.
  pose proof (settledFor_sameSelection u w1 w0 S0 SG) as S1.
  destruct SG as (D1 & U1 & A1 & C1).
  destruct S1 as (_ & _ & _ & _ & F1).
  clearbody w1.
  unfold App.channelsEffect. rewrite A0, Hg, C0.
  rewrite (loadChannels_shows_stored g _ w1 Hac F1).
  set (shown := Remote.orderAsc Channel.createdAt
                  (filter (fun c => Channel.groupId c =? g)
                     (Remote.channels (World.db w1)))).
  assert (E : shown = Remote.orderAsc Channel.createdAt
                        (filter (fun c => Channel.groupId c =? g)
                           (Remote.channels (World.db w))))
    by (subst shown; now rewrite D1, D0).
  clearbody shown.
  rewrite commit_stable.
  - assert (Ch : World.channels
                   (World.app (Eff.exec (App.setChannels shown) w1))
                 = shown) by (destruct w1; reflexivity).
    assert (Ag : World.activeGroup
                   (World.app (Eff.exec (App.setChannels shown) w1))
                 = Some g) by (destruct w1; cbn in *; congruence).
    rewrite Ch, Ag, E. split; [apply orderAsc_perm|].
    split; [exact (orderAsc_sorted Channel.createdAt _)|].
    unfold Sidebar.groupChannels, Sidebar.isActive.
    apply filter_all_in. intros x Hx.
    apply (Permutation_in _ (orderAsc_perm Channel.createdAt _)) in Hx.
    apply filter_In in Hx. tauto.
  - unfold App.memoOf, App.groupsDeps. cbn [App.groupsMemo].
    destruct w1; cbn in *. congruence.
  - unfold App.memoOf, App.channelsDeps. cbn [App.channelsMemo].
    destruct w1; cbn in *. congruence.
Qed.

Lemma switching_workspace_lists_its_channels_witness :
  Permutation
    (World.channels
       (World.app
          (Sidebar.onGroupSelect isoGetTime 3 "group_2"
             SampleMore.signedInWorld)))
    (filter (fun c => Channel.groupId c =? "group_2")
       (Remote.channels (World.db SampleMore.signedInWorld))).
Proof.
  refine (proj1
            (switching_workspace_lists_its_channels isoGetTime 3 Sample.ada
               "group_2" SampleMore.signedInWorld _ _ _ _)).
  - repeat split; try reflexivity. vm_compute. discriminate.
  - reflexivity.
  - vm_compute. discriminate.
  - lia.
Defined.

Example switching_workspace_sample :
  map Channel.name
    (World.channels
       (World.app
          (Sidebar.onGroupSelect isoGetTime 3 "group_2"
             SampleMore.signedInWorld)))
  = ["general"; "random"]
  /\ World.activeChannel
       (World.app
          (Sidebar.onGroupSelect isoGetTime 3 "group_2"
             SampleMore.signedInWorld))
     = Some "channel_1".
Proof. split; reflexivity. Qed.

(* ------------------------------------------------------------------ *)
(** ** The sidebar after the first sign-in *)

(** Nothing changes, however many renders follow, in a world that both
    effects leave as it is. *)
Lemma commit_fixed (getTime : string -> option Z) (w : World.t) :
  Eff.exec (App.groupsEffect getTime (World.app w)) w = w ->
  Eff.exec (App.channelsEffect (World.app w)) w = w ->
  forall (fuel : nat) (memo : App.Memo), App.commit getTime fuel memo w = w.
Proof.
  intros G C. induction fuel as [|fuel IH]; intro memo; [reflexivity|].
  cbn [App.commit].
  destruct (App.sameDeps (App.groupsMemo memo) (App.groupsDeps (World.app w)));
    destruct (App.sameDeps (App.channelsMemo memo)
                (App.channelsDeps (World.app w)));
    cbn [negb andb]; rewrite ?G, ?C; try reflexivity; apply IH.
Qed.

(** A user with one workspace that holds one channel, both shown and
    selected: the two effects load what is shown already. *)
Lemma single_workspace_effects (getTime : string -> option Z) (u : User.t)
  (g : Group.t) (m : GroupMember.t) (c : Channel.t) (w : World.t) :
  World.user (World.app w) = Some u ->
  Spec.membershipsOf (User.id u) (World.db w) = [m] ->
  filter (fun x => Group.id x =? GroupMember.groupId m)
    (Remote.groups (World.db w)) = [g] ->
  filter (fun x => Channel.groupId x =? Group.id g)
    (Remote.channels (World.db w)) = [c] ->
  World.groups (World.app w) = [g] ->
  World.channels (World.app w) = [c] ->
  World.activeGroup (World.app w) = Some (Group.id g) ->
  World.activeChannel (World.app w) = Some (Channel.id c) ->
  truthy (Group.id g) = true ->
  truthy (Channel.id c) = true ->
  Remote.faults (World.db w) = [] ->
  Eff.exec (App.groupsEffect getTime (World.app w)) w = w
  /\ Eff.exec (App.channelsEffect (World.app w)) w = w.
Proof.
  intros Hu Hm Hg Hc Sg Sc Ag Ac Tg Tc Hf.
  destruct w as [db clock ticks console toasts app chat item].
  destruct db as [groups members channels messages faults serverNow].
  destruct app as [user loading shownGroups shownChannels activeGroup
                     activeChannel isAIOpen].
  unfold Spec.membershipsOf in Hm. cbn in Hu, Hm, Hg, Hc, Sg, Sc, Ag, Ac, Hf.
  subst user shownGroups shownChannels activeGroup activeChannel faults.
  split.
  - unfold App.groupsEffect. cbn [World.app World.user World.activeGroup].
    destruct (truthy (User.id u)); [|reflexivity].
    unfold Eff.exec, App.loadGroups, Eff.tryCatch.
    unfold Eff.bind at 1, Eff.await at 1, Remote.groupMembers_list,
      Remote.request.
    cbn [World.db Remote.faults Remote.groupMembers]. rewrite Hm.
    cbn [Remote.orderDesc Remote.insertDesc fold_right List.length Nat.ltb
         Nat.leb map App.fetchGroups].
    unfold Eff.bind, Eff.tryCatch, Eff.await, Remote.groups_list,
      Remote.request.
    cbn [World.db World.withDb Remote.faults Remote.groups]. rewrite Hg.
    cbn. rewrite Tg. reflexivity.
  - unfold App.channelsEffect. cbn [World.app World.activeGroup
                                      World.activeChannel].
    rewrite Tg.
    unfold Eff.exec, App.loadChannels, Eff.tryCatch, Eff.bind, Eff.await,
      Remote.channels_list, Remote.request.
    cbn [World.db Remote.faults Remote.channels]. rewrite Hc.
    cbn. rewrite Tc. reflexivity.
Qed.

(** The world the bootstrap branch of [loadGroups] leaves. *)
Lemma loadGroups_bootstrap_records (getTime : string -> option Z)
  (u : User.t) (activeGroup : option string) (w : World.t) :
  Spec.membershipsOf (User.id u) (World.db w) = [] ->
  Remote.faults (World.db w) = [] ->
  exists (g : Group.t) (m : GroupMember.t) (c : Channel.t),
    Remote.groups (World.db (Eff.exec (App.loadGroups getTime u activeGroup) w))
    = Remote.groups (World.db w) ++ [g]
    /\ Remote.groupMembers
         (World.db (Eff.exec (App.loadGroups getTime u activeGroup) w))
       = Remote.groupMembers (World.db w) ++ [m]
    /\ Remote.channels
         (World.db (Eff.exec (App.loadGroups getTime u activeGroup) w))
       = Remote.channels (World.db w) ++ [c]
    /\ Remote.faults
         (World.db (Eff.exec (App.loadGroups getTime u activeGroup) w))
       = []
    /\ World.user
         (World.app (Eff.exec (App.loadGroups getTime u activeGroup) w))
       = World.user (World.app w)
    /\ World.groups
         (World.app (Eff.exec (App.loadGroups getTime u activeGroup) w))
       = [g]
    /\ World.channels
         (World.app (Eff.exec (App.loadGroups getTime u activeGroup) w))
       = [c]
    /\ World.activeGroup
         (World.app (Eff.exec (App.loadGroups getTime u activeGroup) w))
       = Some (Group.id g)
    /\ World.activeChannel
         (World.app (Eff.exec (App.loadGroups getTime u activeGroup) w))
       = Some (Channel.id c)
    /\ Group.id g
       = ("group_" ++ numberToString (World.clock w (World.ticks w)))%string
    /\ Group.name g = "General"
    /\ GroupMember.groupId m = Group.id g
    /\ GroupMember.userId m = User.id u
    /\ Channel.groupId c = Group.id g
    /\ Channel.name c = "general"
    /\ truthy (Channel.id c) = true.
Proof.
  intros Hm Hf.
  destruct w as [db clock ticks console toasts app chat item].
  destruct db as [groups members channels messages faults serverNow].
  unfold Spec.membershipsOf in Hm. cbn in Hm, Hf. subst faults.
  unfold Eff.exec, App.loadGroups, Eff.tryCatch, Eff.bind, Eff.await,
    Remote.groupMembers_list, Remote.request.
  cbn [World.db Remote.faults Remote.groupMembers]. rewrite Hm.
  cbn -[numberToString].
  do 3 eexists. repeat split; reflexivity.
Qed.

Lemma filter_none {A : Type} (f : A -> bool) (l : list A) :
  (forall x, In x l -> f x = false) -> filter f l = [].
Proof.
  induction l as [|x l IH]; intro H; simpl; [reflexivity|].
  rewrite (H x) by now left. apply IH. intros y Hy. apply H. now right.
Qed.

(** X18.  After the first sign-in of a user without a workspace, on a
    freshly loaded page and with the requests answered, the sidebar is
    headed [General] and lists one channel, [general], which is the
    selected one, however many renders follow.  The identifier made for
    the workspace from the clock is taken to be unused in the store. *)
Theorem first_signIn_shows_default_workspace :
  forall (getTime : string -> option Z) (w : World.t) (u : User.t)
         (isLoading : bool) (fuel : nat),
    World.user (World.app w) = None ->
    World.activeGroup (World.app w) = None ->
    World.activeChannel (World.app w) = None ->
    truthy (User.id u) = true ->
    Spec.membershipsOf (User.id u) (World.db w) = [] ->
    Remote.faults (World.db w) = [] ->
    1 <= fuel ->
    (forall x,
        In x (Remote.groups (World.db w)) ->
        Group.id x
        <> ("group_" ++ numberToString (World.clock w (World.ticks w)))%string) ->
    (forall x,
        In x (Remote.channels (World.db w)) ->
        Channel.groupId x
        <> ("group_" ++ numberToString (World.clock w (World.ticks w)))%string) ->
    let a :=
      World.app (App.onAuthStateChanged getTime fuel (Some u) isLoading w) in
    Sidebar.workspaceLabel (World.groups a) (World.activeGroup a) = "General"
    /\ map Channel.name
         (Sidebar.groupChannels (World.channels a) (World.activeGroup a))
       = ["general"]
    /\ forallb (fun c => Sidebar.isActive (Channel.id c) (World.activeChannel a))
         (Sidebar.groupChannels (World.channels a) (World.activeGroup a))
       = true.
Proof.
  intros getTime w u isLoading fuel Hnone Hag Hac Hid Hm Hf Hfuel Hgs Hcs.
  destruct fuel as [|fuel]; [lia|].
  unfold App.onAuthStateChanged.
  pose proof (authChanged_cells (Some u) isLoading w)
    as (Hdb0 & Hu0 & _ & _ & _ & Hg0 & Hc0 & Hk & Ht & _).
  set (w0 := Eff.exec (App.authChanged (Some u) isLoading) w) in *.
  assert (Hk0 : World.clock w0 (World.ticks w0)
                = World.clock w (World.ticks w))
    by (now rewrite Hk, Ht).
  clearbody w0. clear Hk Ht. cbn [App.commit].
  assert (RG : App.sameDeps (App.groupsMemo (App.memoOf (World.app w)))
                 (App.groupsDeps (World.app w0)) = false).
  { unfold App.sameDeps, App.memoOf, App.groupsDeps.
    cbn [App.groupsMemo fst]. rewrite Hnone, Hu0. reflexivity. }
  assert (RC : App.sameDeps (App.channelsMemo (App.memoOf (World.app w)))
                 (App.channelsDeps (World.app w0)) = true).
  { unfold App.memoOf, App.channelsDeps. cbn [App.channelsMemo].
    rewrite Hg0, Hc0. apply sameDeps_refl. }
  rewrite RG, RC. cbn [negb andb].
  assert (EG : App.groupsEffect getTime (World.app w0)
               = App.loadGroups getTime u (World.activeGroup (World.app w0)))
    by (unfold App.groupsEffect; now rewrite Hu0, Hid).
  rewrite EG.
  rewrite <- Hdb0 in Hm, Hf, Hgs, Hcs. rewrite <- Hk0 in Hgs, Hcs.
  destruct (loadGroups_bootstrap_records getTime u
              (World.activeGroup (World.app w0)) w0 Hm Hf)
    as (g & m & c & Eg & Em & Ec & Ef & Eu & Sg & Sc & Eag & Eac
        & Ig & Ng & Mg & Mu & Cg & Nc & Tc).
  set (w1 := Eff.exec (App.loadGroups getTime u
                         (World.activeGroup (World.app w0))) w0) in *.
  clearbody w1.
  assert (Tg : truthy (Group.id g) = true) by (rewrite Ig; reflexivity).
  destruct (single_workspace_effects getTime u g m c w1) as [FG FC];
    try assumption.
  - congruence.
  - unfold Spec.membershipsOf in *. rewrite Em, filter_app, Hm.
    cbn [filter List.app]. now rewrite Mu, String.eqb_refl.
  - rewrite Eg, filter_app, Mg. cbn [filter].
    rewrite String.eqb_refl, filter_none; [reflexivity|].
    intros x Hx. apply String.eqb_neq. rewrite Ig. now apply Hgs.
  - rewrite Ec, filter_app. cbn [filter].
    rewrite Cg, String.eqb_refl, filter_none; [reflexivity|].
    intros x Hx. apply String.eqb_neq. rewrite Ig. now apply Hcs.
  - rewrite (commit_fixed getTime w1 FG FC).
    cbv zeta. rewrite Sg, Sc, Eag, Eac.
    unfold Sidebar.workspaceLabel, Sidebar.activeGroupData,
      Sidebar.groupChannels, Sidebar.isActive.
    cbn [find filter]. rewrite Cg, !String.eqb_refl.
    cbn [option_map map forallb filter]. rewrite Ng, Nc, String.eqb_refl.
    repeat split; reflexivity.
Qed.

Lemma first_signIn_shows_default_workspace_witness :
  Sidebar.workspaceLabel
    (World.groups
       (World.app
          (App.onAuthStateChanged isoGetTime 3 (Some Sample.ada) false
             Sample.freshWorld)))
    (World.activeGroup
       (World.app
          (App.onAuthStateChanged isoGetTime 3 (Some Sample.ada) false
             Sample.freshWorld)))
  = "General".
Proof.
  refine (proj1
            (first_signIn_shows_default_workspace isoGetTime
               Sample.freshWorld Sample.ada false 3 _ _ _ _ _ _ _ _ _));
    try reflexivity.
  - lia.
  - intros x [].
  - intros x [].
Defined.

(* ------------------------------------------------------------------ *)
(** ** Channel names *)

Lemma lowerChar_table :
  forallb
    (fun a =>
       Bool.eqb (isWhiteSpace (lowerChar a)) (isWhiteSpace a)
       && Ascii.eqb (lowerChar (lowerChar a)) (lowerChar a))
    (map ascii_of_nat (seq 0 256))
  = true.
Proof. vm_compute. reflexivity. Qed.

Lemma isWhiteSpace_lowerChar (a : ascii) :
  isWhiteSpace (lowerChar a) = isWhiteSpace a.
Proof.
  pose proof lowerChar_table as T. rewrite forallb_forall in T.
  specialize (T a (In_all_ascii a)). apply andb_prop in T.
  now apply Bool.eqb_prop.
Qed.

Lemma lowerChar_idempotent (a : ascii) :
  lowerChar (lowerChar a) = lowerChar a.
Proof.
  pose proof lowerChar_table as T. rewrite forallb_forall in T.
  specialize (T a (In_all_ascii a)). apply andb_prop in T.
  now apply Ascii.eqb_eq.
Qed.

Lemma toLowerCase_idempotent (s : string) :
  toLowerCase (toLowerCase s) = toLowerCase s.
Proof.
  induction s as [|c s IH]; simpl; [reflexivity|].
  now rewrite lowerChar_idempotent, IH.
Qed.

Lemma trimStart_toLowerCase (s : string) :
  trimStart (toLowerCase s) = toLowerCase (trimStart s).
Proof.
  induction s as [|c s IH]; simpl; [reflexivity|].
  rewrite isWhiteSpace_lowerChar.
  destruct (isWhiteSpace c); [exact IH | reflexivity].
Qed.

Lemma trimEnd_toLowerCase (s : string) :
  trimEnd (toLowerCase s) = toLowerCase (trimEnd s).
Proof.
  induction s as [|c s IH]; [reflexivity|].
  cbn [toLowerCase]. rewrite !trimEnd_cons, IH, isWhiteSpace_lowerChar.
  destruct (trimEnd s); simpl; [destruct (isWhiteSpace c)|]; reflexivity.
Qed.

Lemma trim_toLowerCase (s : string) :
  trim (toLowerCase s) = toLowerCase (trim s).
Proof. unfold trim. now rewrite trimStart_toLowerCase, trimEnd_toLowerCase. Qed.

Lemma replaceWhitespaceRuns_noWhiteSpace (inRun : bool) (s : string) :
  SpecMore.noWhiteSpace (JsMore.replaceWhitespaceRuns inRun s) = true.
Proof.
  revert inRun. induction s as [|c s IH]; intro inRun; simpl; [reflexivity|].
  destruct (isWhiteSpace c) eqn:W.
  - destruct inRun; simpl; rewrite ?IH; reflexivity.
  - simpl. now rewrite W, IH.
Qed.

Lemma replaceWhitespaceRuns_fixed (inRun : bool) (s : string) :
  SpecMore.noWhiteSpace s = true -> JsMore.replaceWhitespaceRuns inRun s = s.
Proof.
  revert inRun. induction s as [|c s IH]; intros inRun H; simpl in *;
    [reflexivity|].
  apply andb_prop in H. destruct H as [W H].
  apply negb_true_iff in W. rewrite W. now rewrite IH.
Qed.

Lemma replaceWhitespaceRuns_toLowerCase (inRun : bool) (s : string) :
  toLowerCase (JsMore.replaceWhitespaceRuns inRun s)
  = JsMore.replaceWhitespaceRuns inRun (toLowerCase s).
Proof.
  revert inRun. induction s as [|c s IH]; intro inRun; simpl; [reflexivity|].
  rewrite isWhiteSpace_lowerChar.
  destruct (isWhiteSpace c); [destruct inRun|]; simpl; now rewrite IH.
Qed.

Lemma trimStart_noWhiteSpace (s : string) :
  SpecMore.noWhiteSpace s = true -> trimStart s = s.
Proof.
  destruct s as [|c s]; simpl; [reflexivity|].
  intro H. apply andb_prop in H. destruct H as [W _].
  apply negb_true_iff in W. now rewrite W.
Qed.

Lemma trimEnd_noWhiteSpace (s : string) :
  SpecMore.noWhiteSpace s = true -> trimEnd s = s.
Proof.
  induction s as [|c s IH]; [reflexivity|].
  intro H. simpl in H. apply andb_prop in H. destruct H as [W H].
  apply negb_true_iff in W.
  rewrite (trimEnd_cons_clean c s W). now rewrite IH.
Qed.

Lemma trim_noWhiteSpace (s : string) :
  SpecMore.noWhiteSpace s = true -> trim s = s.
Proof.
  intro H. unfold trim. rewrite (trimStart_noWhiteSpace s H).
  now apply trimEnd_noWhiteSpace.
Qed.

Lemma trim_starts_clean (s : string) : SpecMore.startsClean (trim s).
Proof. unfold trim. apply trimEnd_clean, trimStart_clean. Qed.

Lemma channelName_noWhiteSpace (name : string) :
  SpecMore.noWhiteSpace (CreateChannelDialog.channelName name) = true.
Proof. apply replaceWhitespaceRuns_noWhiteSpace. Qed.

Lemma channelName_truthy (name : string) :
  truthy (CreateChannelDialog.channelName name) = truthy (trim name).
Proof.
  unfold CreateChannelDialog.channelName.
  pose proof (trim_starts_clean name) as C.
  destruct (trim name) as [|c t]; [reflexivity|].
  simpl in C. simpl. rewrite isWhiteSpace_lowerChar, C. reflexivity.
Qed.

(** X19.  The name under which a channel is stored holds no white space,
    is empty only for a blank entry, is unchanged when normalised again,
    and does not depend on the case of the entry: entries that differ in
    case only give the same channel name. *)
Theorem channelName_normal_form :
  forall name : string,
    SpecMore.noWhiteSpace (CreateChannelDialog.channelName name) = true
    /\ truthy (CreateChannelDialog.channelName name) = truthy (trim name)
    /\ CreateChannelDialog.channelName (CreateChannelDialog.channelName name)
       = CreateChannelDialog.channelName name
    /\ CreateChannelDialog.channelName (toLowerCase name)
       = CreateChannelDialog.channelName name.
Proof.
  intro name.
  split; [apply channelName_noWhiteSpace|].
  split; [apply channelName_truthy|].
  split.
  - pose proof (channelName_noWhiteSpace name) as N.
    unfold CreateChannelDialog.channelName at 1.
    rewrite (trim_noWhiteSpace _ N).
    unfold CreateChannelDialog.channelName at 1.
    rewrite replaceWhitespaceRuns_toLowerCase, toLowerCase_idempotent.
    fold (CreateChannelDialog.channelName name).
    now apply replaceWhitespaceRuns_fixed.
  - unfold CreateChannelDialog.channelName.
    now rewrite trim_toLowerCase, toLowerCase_idempotent.
Qed.

Example channelName_sample :
  CreateChannelDialog.channelName "  Marketing  Team " = "marketing-team".
Proof. reflexivity. Qed.

(* ------------------------------------------------------------------ *)
(** ** Creating a channel *)

(** The three ways [handleSubmit] of the channel dialog ends. *)
Lemma createChannel_guard (activeGroup : option string) (u : User.t)
  (random : string) (d : CreateChannelDialog.State) (w : World.t) :
  App.falsy activeGroup = true
  \/ truthy (trim (CreateChannelDialog.name d)) = false ->
  Local.exec (CreateChannelDialog.handleSubmit activeGroup u random) (d, w)
  = (d, w).
Proof.
  intro H. unfold CreateChannelDialog.handleSubmit.
  destruct activeGroup as [g|]; [|reflexivity].
  unfold Local.exec, Local.bind, Local.get. cbn [fst snd].
  destruct H as [H | H].
  - simpl in H. apply negb_true_iff in H. rewrite H.
    rewrite orb_true_r. reflexivity.
  - rewrite H. reflexivity.
Qed.

Lemma createChannel_answered (g : string) (u : User.t) (random : string)
  (d : CreateChannelDialog.State) (w : World.t) :
  truthy g = true ->
  truthy (trim (CreateChannelDialog.name d)) = true ->
  Spec.nextRequestRejected (World.db w) = false ->
  Local.exec (CreateChannelDialog.handleSubmit (Some g) u random) (d, w)
  = ({| CreateChannelDialog.name := EmptyString;
        CreateChannelDialog.description := EmptyString;
        CreateChannelDialog.isPrivate := false;
        CreateChannelDialog.isLoading := false;
        CreateChannelDialog.open := false;
        CreateChannelDialog.reloaded := true |},
     World.withToasts
       (World.toasts w
        ++ [CreateChannelDialog.createdToast (CreateChannelDialog.name d)])
       (World.withDb
          {| Remote.groups := Remote.groups (World.db w);
             Remote.groupMembers := Remote.groupMembers (World.db w);
             Remote.channels :=
               Remote.channels (World.db w)
               ++ [{| Channel.id :=
                        "channel_"
                        ++ numberToString (World.clock w (World.ticks w))
                        ++ "_" ++ random;
                      Channel.groupId := g;
                      Channel.name :=
                        CreateChannelDialog.channelName
                          (CreateChannelDialog.name d);
                      Channel.description :=
                        JsMore.orUndefined
                          (trim (CreateChannelDialog.description d));
                      Channel.isPrivate := CreateChannelDialog.isPrivate d;
                      Channel.createdBy := User.id u;
                      Channel.createdAt := Remote.serverNow (World.db w) |}];
             Remote.messages := Remote.messages (World.db w);
             Remote.faults := tl (Remote.faults (World.db w));
             Remote.serverNow := Remote.serverNow (World.db w) |}
          (World.withTicks (S (World.ticks w)) w))).
Proof.
  intros Hg Hn Hf.
  destruct w as [db clock ticks console toasts app chat item].
  destruct db as [groups members channels messages faults serverNow].
  destruct d as [name description isPrivate isLoading open reloaded].
  unfold Spec.nextRequestRejected in Hf. cbn in Hf.
  cbn [CreateChannelDialog.name] in Hn.
  unfold CreateChannelDialog.handleSubmit, CreateChannelDialog.setIsLoading,
    CreateChannelDialog.setName, CreateChannelDialog.setDescription,
    CreateChannelDialog.setIsPrivate, CreateChannelDialog.onOpenChange,
    CreateChannelDialog.reload, Remote.channels_create.
  unfold_handlers. cbn [fst snd CreateChannelDialog.name].
  rewrite Hg, Hn. cbn [negb orb].
  destruct faults as [|[] fs]; [reflexivity | discriminate | reflexivity].
Qed.

Lemma createChannel_rejected (g : string) (u : User.t) (random : string)
  (d : CreateChannelDialog.State) (w : World.t) :
  truthy g = true ->
  truthy (trim (CreateChannelDialog.name d)) = true ->
  Spec.nextRequestRejected (World.db w) = true ->
  Local.exec (CreateChannelDialog.handleSubmit (Some g) u random) (d, w)
  = ({| CreateChannelDialog.name := CreateChannelDialog.name d;
        CreateChannelDialog.description := CreateChannelDialog.description d;
        CreateChannelDialog.isPrivate := CreateChannelDialog.isPrivate d;
        CreateChannelDialog.isLoading := false;
        CreateChannelDialog.open := CreateChannelDialog.open d;
        CreateChannelDialog.reloaded := CreateChannelDialog.reloaded d |},
     World.withToasts (World.toasts w ++ [CreateChannelDialog.failedToast])
       (World.withConsole
          (World.console w ++ ["Error creating channel: request rejected"])
          (World.withDb
             (Remote.withFaults (tl (Remote.faults (World.db w)))
                (World.db w))
             (World.withTicks (S (World.ticks w)) w)))).
Proof.
  intros Hg Hn Hf.
  destruct w as [db clock ticks console toasts app chat item].
  destruct db as [groups members channels messages faults serverNow].
  destruct d as [name description isPrivate isLoading open reloaded].
  unfold Spec.nextRequestRejected in Hf. cbn in Hf.
  cbn [CreateChannelDialog.name] in Hn.
  unfold CreateChannelDialog.handleSubmit, CreateChannelDialog.setIsLoading,
    CreateChannelDialog.setName, CreateChannelDialog.setDescription,
    CreateChannelDialog.setIsPrivate, CreateChannelDialog.onOpenChange,
    CreateChannelDialog.reload, Remote.channels_create.
  unfold_handlers. cbn [fst snd CreateChannelDialog.name].
  rewrite Hg, Hn. cbn [negb orb].
  destruct faults as [|[] fs]; [discriminate | reflexivity | discriminate].
Qed.

(** X20.  Submitting the channel form with a name that is not blank, in
    a workspace, the request being answered, stores one channel: it
    belongs to the active workspace, carries the normalised name, the
    trimmed description or none, the privacy flag and the user as
    creator; no other table changes; the form is emptied, the dialog
    closed, the page reloaded and a success toast shown. *)
Theorem createChannel_stores_normalised_channel :
  forall (g : string) (u : User.t) (random : string)
         (d : CreateChannelDialog.State) (w : World.t),
    truthy g = true ->
    truthy (trim (CreateChannelDialog.name d)) = true ->
    Spec.nextRequestRejected (World.db w) = false ->
    let r :=
      Local.exec (CreateChannelDialog.handleSubmit (Some g) u random)
        (d, w) in
    (exists c : Channel.t,
        Remote.channels (World.db (snd r))
        = Remote.channels (World.db w) ++ [c]
        /\ Channel.groupId c = g
        /\ Channel.name c
           = CreateChannelDialog.channelName (CreateChannelDialog.name d)
        /\ Channel.description c
           = JsMore.orUndefined (trim (CreateChannelDialog.description d))
        /\ Channel.isPrivate c = CreateChannelDialog.isPrivate d
        /\ Channel.createdBy c = User.id u)
    /\ Remote.groups (World.db (snd r)) = Remote.groups (World.db w)
    /\ Remote.groupMembers (World.db (snd r))
       = Remote.groupMembers (World.db w)
    /\ Remote.messages (World.db (snd r)) = Remote.messages (World.db w)
    /\ fst r
       = {| CreateChannelDialog.name := EmptyString;
            CreateChannelDialog.description := EmptyString;
            CreateChannelDialog.isPrivate := false;
            CreateChannelDialog.isLoading := false;
            CreateChannelDialog.open := false;
            CreateChannelDialog.reloaded := true |}
    /\ World.toasts (snd r)
       = World.toasts w
         ++ [CreateChannelDialog.createdToast (CreateChannelDialog.name d)].
Proof.
  intros g u random d w Hg Hn Hf r. subst r.
  rewrite (createChannel_answered g u random d w Hg Hn Hf).
  destruct w. cbn.
  split; [eexists; repeat split; reflexivity|].
  repeat split; reflexivity.
Qed.

Lemma createChannel_stores_normalised_channel_witness :
  Remote.groups
    (World.db
       (snd (Local.exec
               (CreateChannelDialog.handleSubmit (Some "group_2") Sample.ada
                  "k3j9x0q2a")
               (SampleMore.channelForm, SampleMore.signedInWorld))))
  = Remote.groups (World.db SampleMore.signedInWorld).
Proof.
  refine (proj1 (proj2
            (createChannel_stores_normalised_channel "group_2" Sample.ada
               "k3j9x0q2a" SampleMore.channelForm SampleMore.signedInWorld
               _ _ _))); reflexivity.
Defined.

Example createChannel_sample :
  map Channel.name
    (Remote.channels
       (World.db
          (snd (Local.exec
                  (CreateChannelDialog.handleSubmit (Some "group_2")
                     Sample.ada "k3j9x0q2a")
                  (SampleMore.channelForm, SampleMore.signedInWorld)))))
  = ["general"; "general"; "random"; "marketing-team"].
Proof. reflexivity. Qed.

(** X21.  When the request of the channel form is rejected nothing is
    stored, the entries of the form, the open dialog and the page are
    left as they were, the loading flag is cleared and an error toast is
    shown. *)
Theorem createChannel_rejection_keeps_form :
  forall (g : string) (u : User.t) (random : string)
         (d : CreateChannelDialog.State) (w : World.t),
    truthy g = true ->
    truthy (trim (CreateChannelDialog.name d)) = true ->
    Spec.nextRequestRejected (World.db w) = true ->
    let r :=
      Local.exec (CreateChannelDialog.handleSubmit (Some g) u random)
        (d, w) in
    Spec.sameTables (World.db (snd r)) (World.db w)
    /\ CreateChannelDialog.name (fst r) = CreateChannelDialog.name d
    /\ CreateChannelDialog.description (fst r)
       = CreateChannelDialog.description d
    /\ CreateChannelDialog.isPrivate (fst r) = CreateChannelDialog.isPrivate d
    /\ CreateChannelDialog.open (fst r) = CreateChannelDialog.open d
    /\ CreateChannelDialog.reloaded (fst r) = CreateChannelDialog.reloaded d
    /\ CreateChannelDialog.isLoading (fst r) = false
    /\ World.toasts (snd r)
       = World.toasts w ++ [CreateChannelDialog.failedToast].
Proof.
  intros g u random d w Hg Hn Hf r. subst r.
  rewrite (createChannel_rejected g u random d w Hg Hn Hf).
  destruct w as [db clock ticks console toasts app chat item].
  destruct db. cbn. unfold Spec.sameTables. cbn.
  repeat split; reflexivity.
Qed.

Lemma createChannel_rejection_keeps_form_witness :
  CreateChannelDialog.name
    (fst (Local.exec
            (CreateChannelDialog.handleSubmit (Some "group_2") Sample.ada
               "k3j9x0q2a")
            (SampleMore.channelForm, Sample.offlineWorld)))
  = CreateChannelDialog.name SampleMore.channelForm.
Proof.
  refine (proj1 (proj2
            (createChannel_rejection_keeps_form "group_2" Sample.ada
               "k3j9x0q2a" SampleMore.channelForm Sample.offlineWorld
               _ _ _))); reflexivity.
Defined.

(** X22.  Whatever the form holds and whatever the store answers, a
    submit of the channel form never stores a channel without a name,
    with white space in its name or outside the active workspace: every
    channel of the store was there before, or has a name that is not
    empty and free of white space and belongs to the active
    workspace. *)
Theorem createChannel_never_stores_unnamed_channel :
  forall (activeGroup : option string) (u : User.t) (random : string)
         (d : CreateChannelDialog.State) (w : World.t) (c : Channel.t),
    In c
      (Remote.channels
         (World.db
            (snd (Local.exec
                    (CreateChannelDialog.handleSubmit activeGroup u random)
                    (d, w))))) ->
    In c (Remote.channels (World.db w))
    \/ (truthy (Channel.name c) = true
        /\ SpecMore.noWhiteSpace (Channel.name c) = true
        /\ activeGroup = Some (Channel.groupId c)).
Proof.
  intros activeGroup u random d w c.
  destruct (App.falsy activeGroup) eqn:Fg.
  { rewrite createChannel_guard by now left. cbn [snd]. now left. }
  destruct (truthy (trim (CreateChannelDialog.name d))) eqn:Hn.
  2:{ rewrite createChannel_guard by now right. cbn [snd]. now left. }
  destruct activeGroup as [g|]; [|discriminate].
  simpl in Fg. apply negb_false_iff in Fg.
  destruct (Spec.nextRequestRejected (World.db w)) eqn:Hf.
  - rewrite (createChannel_rejected g u random d w Fg Hn Hf).
    destruct w as [db clock ticks console toasts app chat item].
    destruct db. cbn. now left.
  - rewrite (createChannel_answered g u random d w Fg Hn Hf).
    destruct w as [db clock ticks console toasts app chat item].
    destruct db. cbn. intro H. apply in_app_or in H.
    destruct H as [H | [<- | []]]; [now left | right]. cbn.
    rewrite channelName_truthy, channelName_noWhiteSpace.
    cbn [CreateChannelDialog.name] in Hn. auto.
Qed.

Lemma createChannel_never_stores_unnamed_channel_witness :
  truthy
    (Channel.name
       (last
          (Remote.channels
             (World.db
                (snd (Local.exec
                        (CreateChannelDialog.handleSubmit (Some "group_2")
                           Sample.ada "k3j9x0q2a")
                        (SampleMore.channelForm, SampleMore.signedInWorld)))))
          (SampleMore.channel "channel_1" "group_1" "general")))
  = true
  /\ SpecMore.noWhiteSpace
       (Channel.name
          (last
             (Remote.channels
                (World.db
                   (snd (Local.exec
                           (CreateChannelDialog.handleSubmit (Some "group_2")
                              Sample.ada "k3j9x0q2a")
                           (SampleMore.channelForm,
                            SampleMore.signedInWorld)))))
             (SampleMore.channel "channel_1" "group_1" "general")))
     = true
  /\ Some "group_2"
     = Some
         (Channel.groupId
            (last
               (Remote.channels
                  (World.db
                     (snd (Local.exec
                             (CreateChannelDialog.handleSubmit
                                (Some "group_2") Sample.ada "k3j9x0q2a")
                             (SampleMore.channelForm,
                              SampleMore.signedInWorld)))))
               (SampleMore.channel "channel_1" "group_1" "general"))).
Proof.
  destruct (createChannel_never_stores_unnamed_channel (Some "group_2")
              Sample.ada "k3j9x0q2a" SampleMore.channelForm
              SampleMore.signedInWorld
              (last
                 (Remote.channels
                    (World.db
                       (snd (Local.exec
                               (CreateChannelDialog.handleSubmit
                                  (Some "group_2") Sample.ada "k3j9x0q2a")
                               (SampleMore.channelForm,
                                SampleMore.signedInWorld)))))
                 (SampleMore.channel "channel_1" "group_1" "general")))
    as [Hold | Hnew].
  - vm_compute. do 3 right. left. reflexivity.
  - exfalso. vm_compute in Hold.
    destruct Hold as [H | [H | [H | []]]]; discriminate H.
  - exact Hnew.
Defined.

(* ------------------------------------------------------------------ *)
(** ** Creating a workspace *)

(** [handleSubmit] of the workspace form with its three requests
    answered. *)
Lemma createWorkspace_answered :
  forall (u : User.t) (random1 random2 random3 : string)
         (d : CreateWorkspaceDialog.State) (w : World.t),
    truthy (trim (CreateWorkspaceDialog.name d)) = true ->
    (forall k, SpecMore.firstRejection (World.db w) = Some k -> 3 <= k) ->
    let r :=
      Local.exec
        (CreateWorkspaceDialog.handleSubmit u random1 random2 random3 None)
        (d, w) in
    (exists (g : Group.t) (m : GroupMember.t) (c : Channel.t),
        Remote.groups (World.db (snd r)) = Remote.groups (World.db w) ++ [g]
        /\ Remote.groupMembers (World.db (snd r))
           = Remote.groupMembers (World.db w) ++ [m]
        /\ Remote.channels (World.db (snd r))
           = Remote.channels (World.db w) ++ [c]
        /\ Group.name g = trim (CreateWorkspaceDialog.name d)
        /\ Group.createdBy g = User.id u
        /\ GroupMember.groupId m = Group.id g
        /\ GroupMember.userId m = User.id u
        /\ GroupMember.role m = "admin"
        /\ Channel.groupId c = Group.id g
        /\ Channel.name c = "general"
        /\ Channel.isPrivate c = false)
    /\ Remote.messages (World.db (snd r)) = Remote.messages (World.db w)
    /\ fst r
       = {| CreateWorkspaceDialog.name := EmptyString;
            CreateWorkspaceDialog.description := EmptyString;
            CreateWorkspaceDialog.isLoading := false;
            CreateWorkspaceDialog.open := false;
            CreateWorkspaceDialog.reloaded := true |}
    /\ World.toasts (snd r)
       = World.toasts w
         ++ [CreateWorkspaceDialog.createdToast
               (CreateWorkspaceDialog.name d)].
Proof.
  intros u random1 random2 random3 d w Hn Hf r. subst r.
  destruct w as [db clock ticks console toasts app chat item].
  destruct db as [groups members channels messages faults serverNow].
  destruct d as [name description isLoading open reloaded].
  unfold SpecMore.firstRejection in Hf.
  cbn [World.db Remote.faults] in Hf.
  cbn [CreateWorkspaceDialog.name] in Hn.
  unfold_createWorkspace. cbn [fst snd CreateWorkspaceDialog.name].
  rewrite Hn. cbn [negb].
  destruct faults as [|[] [|[] [|[] fs]]];
    try (exfalso;
         first [ pose proof (Hf 0 eq_refl) | pose proof (Hf 1 eq_refl)
               | pose proof (Hf 2 eq_refl) ]; lia);
    cbn; (split; [do 3 eexists; repeat split; reflexivity|]);
    repeat split; reflexivity.
Qed.

(** X23.  Submitting the workspace form with a name that is not blank,
    the three requests being answered, stores one workspace under the
    trimmed name, one membership that makes the user its admin and one
    public channel [general] in it; no message is touched; the form is
    emptied, the dialog closed, the page reloaded and a success toast
    shown. *)
Theorem createWorkspace_stores_workspace_member_channel :
  forall (u : User.t) (random1 random2 random3 : string)
         (d : CreateWorkspaceDialog.State) (w : World.t),
    truthy (trim (CreateWorkspaceDialog.name d)) = true ->
    (forall k, SpecMore.firstRejection (World.db w) = Some k -> 3 <= k) ->
    let r :=
      Local.exec
        (CreateWorkspaceDialog.handleSubmit u random1 random2 random3 None)
        (d, w) in
    (exists (g : Group.t) (m : GroupMember.t) (c : Channel.t),
        Remote.groups (World.db (snd r)) = Remote.groups (World.db w) ++ [g]
        /\ Remote.groupMembers (World.db (snd r))
           = Remote.groupMembers (World.db w) ++ [m]
        /\ Remote.channels (World.db (snd r))
           = Remote.channels (World.db w) ++ [c]
        /\ Group.name g = trim (CreateWorkspaceDialog.name d)
        /\ Group.createdBy g = User.id u
        /\ GroupMember.groupId m = Group.id g
        /\ GroupMember.userId m = User.id u
        /\ GroupMember.role m = "admin"
        /\ Channel.groupId c = Group.id g
        /\ Channel.name c = "general"
        /\ Channel.isPrivate c = false)
    /\ Remote.messages (World.db (snd r)) = Remote.messages (World.db w)
    /\ fst r
       = {| CreateWorkspaceDialog.name := EmptyString;
            CreateWorkspaceDialog.description := EmptyString;
            CreateWorkspaceDialog.isLoading := false;
            CreateWorkspaceDialog.open := false;
            CreateWorkspaceDialog.reloaded := true |}
    /\ World.toasts (snd r)
       = World.toasts w
         ++ [CreateWorkspaceDialog.createdToast
               (CreateWorkspaceDialog.name d)].
Proof. exact createWorkspace_answered. Qed.

Lemma createWorkspace_stores_workspace_member_channel_witness :
  Remote.messages
    (World.db
       (snd (Local.exec
               (CreateWorkspaceDialog.handleSubmit Sample.ada "a" "b" "c"
                  None)
               (SampleMore.workspaceForm, SampleMore.teamWorld))))
  = Remote.messages (World.db SampleMore.teamWorld).
Proof.
  refine (proj1 (proj2
            (createWorkspace_stores_workspace_member_channel Sample.ada
               "a" "b" "c" SampleMore.workspaceForm SampleMore.teamWorld
               _ _))).
  - reflexivity.
  - intros k H. vm_compute in H. discriminate H.
Defined.

Example createWorkspace_sample :
  map Group.name
    (Remote.groups
       (World.db
          (snd (Local.exec
                  (CreateWorkspaceDialog.handleSubmit Sample.ada "a" "b" "c"
                     None)
                  (SampleMore.workspaceForm, SampleMore.teamWorld)))))
  = ["Acme"; "Side project"; "Acme Corp"].
Proof. reflexivity. Qed.

(** X24.  The three requests of the workspace form are not undone when a
    later one is rejected.  Rejecting the first stores nothing;
    rejecting the second leaves a workspace without any member, so the
    memberships of the user are as before; rejecting the third leaves a
    workspace with its admin and without a channel.  In each case the
    entries of the form and the open dialog are kept, the loading flag
    is cleared and an error toast is shown. *)
Theorem createWorkspace_rejection_leaves_partial_workspace :
  forall (u : User.t) (random1 random2 random3 : string)
         (d : CreateWorkspaceDialog.State) (w : World.t) (k : nat),
    truthy (trim (CreateWorkspaceDialog.name d)) = true ->
    SpecMore.firstRejection (World.db w) = Some k ->
    k < 3 ->
    let r :=
      Local.exec
        (CreateWorkspaceDialog.handleSubmit u random1 random2 random3 None)
        (d, w) in
    match k with
    | 0 => Spec.sameTables (World.db (snd r)) (World.db w)
    | 1 =>
        (exists g : Group.t,
            Remote.groups (World.db (snd r))
            = Remote.groups (World.db w) ++ [g]
            /\ Group.name g = trim (CreateWorkspaceDialog.name d))
        /\ Remote.groupMembers (World.db (snd r))
           = Remote.groupMembers (World.db w)
        /\ Spec.membershipsOf (User.id u) (World.db (snd r))
           = Spec.membershipsOf (User.id u) (World.db w)
        /\ Remote.channels (World.db (snd r))
           = Remote.channels (World.db w)
    | _ =>
        (exists (g : Group.t) (m : GroupMember.t),
            Remote.groups (World.db (snd r))
            = Remote.groups (World.db w) ++ [g]
            /\ Remote.groupMembers (World.db (snd r))
               = Remote.groupMembers (World.db w) ++ [m]
            /\ GroupMember.groupId m = Group.id g
            /\ GroupMember.userId m = User.id u)
        /\ Remote.channels (World.db (snd r))
           = Remote.channels (World.db w)
    end
    /\ Remote.messages (World.db (snd r)) = Remote.messages (World.db w)
    /\ CreateWorkspaceDialog.name (fst r) = CreateWorkspaceDialog.name d
    /\ CreateWorkspaceDialog.description (fst r)
       = CreateWorkspaceDialog.description d
    /\ CreateWorkspaceDialog.open (fst r) = CreateWorkspaceDialog.open d
    /\ CreateWorkspaceDialog.reloaded (fst r)
       = CreateWorkspaceDialog.reloaded d
    /\ CreateWorkspaceDialog.isLoading (fst r) = false
    /\ World.toasts (snd r)
       = World.toasts w ++ [CreateWorkspaceDialog.failedToast].
Proof.
  intros u random1 random2 random3 d w k Hn Hf Hk r. subst r.
  destruct w as [db clock ticks console toasts app chat item].
  destruct db as [groups members channels messages faults serverNow].
  destruct d as [name description isLoading open reloaded].
  unfold SpecMore.firstRejection in Hf.
  cbn [World.db Remote.faults] in Hf.
  cbn [CreateWorkspaceDialog.name] in Hn.
  unfold_createWorkspace. cbn [fst snd CreateWorkspaceDialog.name].
  rewrite Hn. cbn [negb].
  unfold Spec.sameTables, Spec.membershipsOf.
  destruct faults as [|[] [|[] [|[] fs]]]; cbn in Hf;
    try discriminate Hf;
    try (injection Hf as <-; cbn;
         repeat split; try reflexivity;
         try (eexists; split; reflexivity);
         try (do 2 eexists; repeat split; reflexivity)).
  all: destruct (SpecMore.firstTrue fs); cbn in Hf;
    try discriminate Hf; injection Hf as <-; lia.
Qed.

Lemma createWorkspace_rejection_leaves_partial_workspace_witness :
  Spec.sameTables
    (World.db
       (snd (Local.exec
               (CreateWorkspaceDialog.handleSubmit Sample.ada "a" "b" "c"
                  None)
               (SampleMore.workspaceForm, Sample.offlineWorld))))
    (World.db Sample.offlineWorld).
Proof.
  refine (proj1
            (createWorkspace_rejection_leaves_partial_workspace Sample.ada
               "a" "b" "c" SampleMore.workspaceForm Sample.offlineWorld 0
               _ _ _)).
  - reflexivity.
  - reflexivity.
  - lia.
Defined.

(** X25.  Once the workspace form has gone through, the user has a
    membership, so no later sign-in of that user on the resulting store
    creates the default workspace: the store is not written to, whatever
    state the page is in and whichever requests are rejected. *)
Theorem created_workspace_prevents_bootstrap :
  forall (u : User.t) (random1 random2 random3 : string)
         (d : CreateWorkspaceDialog.State) (w : World.t),
    truthy (trim (CreateWorkspaceDialog.name d)) = true ->
    (forall k, SpecMore.firstRejection (World.db w) = Some k -> 3 <= k) ->
    let db' :=
      World.db
        (snd (Local.exec
                (CreateWorkspaceDialog.handleSubmit u random1 random2
                   random3 None)
                (d, w))) in
    Spec.membershipsOf (User.id u) db' <> []
    /\ forall (getTime : string -> option Z) (fuel : nat)
              (isLoading : bool) (later : World.t),
         Spec.sameTables (World.db later) db' ->
         Spec.sameTables
           (World.db
              (App.onAuthStateChanged getTime fuel (Some u) isLoading later))
           db'.
Proof.
  intros u random1 random2 random3 d w Hn Hf db'.
  destruct (createWorkspace_answered u random1 random2 random3 d w Hn Hf)
    as ((g & m & c & _ & Hm & _ & _ & _ & _ & Hu & _) & _).
  fold db' in Hm.
  assert (M : Spec.membershipsOf (User.id u) db' <> []).
  { unfold Spec.membershipsOf. rewrite Hm, filter_app. cbn [filter].
    rewrite Hu, String.eqb_refl. intro E. apply app_eq_nil in E.
    destruct E as [_ E]. discriminate E. }
  split; [exact M|].
  intros getTime fuel isLoading later T.
  apply (sameTables_trans _ (World.db later)); [|exact T].
  apply signIn_member_sameTables.
  now rewrite (membershipsOf_sameTables _ _ _ T).
Qed.

Lemma created_workspace_prevents_bootstrap_witness :
  Spec.membershipsOf (User.id Sample.ada)
    (World.db
       (snd (Local.exec
               (CreateWorkspaceDialog.handleSubmit Sample.ada "a" "b" "c"
                  None)
               (SampleMore.workspaceForm, Sample.freshWorld))))
  <> [].
Proof.
  refine (proj1
            (created_workspace_prevents_bootstrap Sample.ada "a" "b" "c"
               SampleMore.workspaceForm Sample.freshWorld _ _)).
  - reflexivity.
  - intros k H. vm_compute in H. discriminate H.
Defined.

(* ------------------------------------------------------------------ *)
(** ** The assistant panel *)

Section Assistant.
Variable generateText : string -> nat -> Completion string.

(** A send with a blank input, or while an answer is pending, does
    nothing. *)
Lemma assistant_guard (u : User.t) (d : AIAssistant.State) (w : World.t) :
  truthy (trim (AIAssistant.input d)) = false
  \/ AIAssistant.isLoading d = true ->
  Local.exec (AIAssistant.handleSendMessage generateText u) (d, w) = (d, w).
Proof.
  intro H. unfold AIAssistant.handleSendMessage.
  unfold Local.exec, Local.bind, Local.get. cbn [fst snd].
  destruct H as [-> | ->]; [reflexivity|].
  rewrite orb_true_r. reflexivity.
Qed.

(** A send that passes the guard: the question, then the text of the
    model or the apology. *)
Lemma assistant_exchange (u : User.t) (d : AIAssistant.State)
  (w : World.t) :
  truthy (trim (AIAssistant.input d)) = true ->
  AIAssistant.isLoading d = false ->
  exists question answer : AIAssistant.AIMessage,
    fst (Local.exec (AIAssistant.handleSendMessage generateText u) (d, w))
    = {| AIAssistant.messages :=
           AIAssistant.messages d ++ [question; answer];
         AIAssistant.input := EmptyString;
         AIAssistant.isLoading := false |}
    /\ AIAssistant.role question = AIAssistant.user
    /\ AIAssistant.content question = trim (AIAssistant.input d)
    /\ AIAssistant.role answer = AIAssistant.assistant
    /\ AIAssistant.content answer
       = match generateText (AIAssistant.prompt u (AIAssistant.input d)) 500
         with
         | Normal text => text
         | Throw _ => AIAssistant.apology
         end
    /\ World.db
         (snd (Local.exec (AIAssistant.handleSendMessage generateText u)
                 (d, w)))
       = World.db w
    /\ World.toasts
         (snd (Local.exec (AIAssistant.handleSendMessage generateText u)
                 (d, w)))
       = World.toasts w.
Proof.
  intros Hi Hl.
  destruct w as [db clock ticks console toasts app chat item].
  destruct d as [messages input isLoading].
  cbn [AIAssistant.input AIAssistant.isLoading] in Hi, Hl. subst isLoading.
  unfold_assistant. cbn [fst snd AIAssistant.input AIAssistant.isLoading].
  rewrite Hi. cbn [negb orb].
  destruct (generateText (AIAssistant.prompt u input) 500) as [text|e];
    cbn; rewrite <- app_assoc; cbn [List.app];
    do 2 eexists; repeat split; reflexivity.
Qed.

End Assistant.

(** X26.  A send in the assistant panel, with an input that is not blank
    and no answer pending, adds exactly two messages at the end of the
    conversation: the trimmed input as the user's, then the model's text
    as the assistant's, or the apology when the model call is rejected.
    The input is emptied, the loading flag is off again, and neither the
    store nor the toasts are touched. *)
Theorem assistant_send_appends_question_and_answer :
  forall (generateText : string -> nat -> Completion string) (u : User.t)
         (d : AIAssistant.State) (w : World.t),
    truthy (trim (AIAssistant.input d)) = true ->
    AIAssistant.isLoading d = false ->
    exists question answer : AIAssistant.AIMessage,
      fst (Local.exec (AIAssistant.handleSendMessage generateText u) (d, w))
      = {| AIAssistant.messages :=
             AIAssistant.messages d ++ [question; answer];
           AIAssistant.input := EmptyString;
           AIAssistant.isLoading := false |}
      /\ AIAssistant.role question = AIAssistant.user
      /\ AIAssistant.content question = trim (AIAssistant.input d)
      /\ AIAssistant.role answer = AIAssistant.assistant
      /\ AIAssistant.content answer
         = match
             generateText (AIAssistant.prompt u (AIAssistant.input d)) 500
           with
           | Normal text => text
           | Throw _ => AIAssistant.apology
           end
      /\ World.db
           (snd (Local.exec (AIAssistant.handleSendMessage generateText u)
                   (d, w)))
         = World.db w
      /\ World.toasts
           (snd (Local.exec (AIAssistant.handleSendMessage generateText u)
                   (d, w)))
         = World.toasts w.
Proof. exact assistant_exchange. Qed.

Lemma assistant_send_appends_question_and_answer_witness :
  exists question answer : AIAssistant.AIMessage,
    fst (Local.exec
           (AIAssistant.handleSendMessage SampleMore.brokenModel Sample.ada)
           (SampleMore.panel, Sample.freshWorld))
    = {| AIAssistant.messages :=
           AIAssistant.messages SampleMore.panel ++ [question; answer];
         AIAssistant.input := EmptyString;
         AIAssistant.isLoading := false |}
    /\ AIAssistant.role question = AIAssistant.user
    /\ AIAssistant.content question
       = trim (AIAssistant.input SampleMore.panel)
    /\ AIAssistant.role answer = AIAssistant.assistant
    /\ AIAssistant.content answer
       = match
           SampleMore.brokenModel
             (AIAssistant.prompt Sample.ada
                (AIAssistant.input SampleMore.panel)) 500
         with
         | Normal text => text
         | Throw _ => AIAssistant.apology
         end
    /\ World.db
         (snd (Local.exec
                 (AIAssistant.handleSendMessage SampleMore.brokenModel
                    Sample.ada)
                 (SampleMore.panel, Sample.freshWorld)))
       = World.db Sample.freshWorld
    /\ World.toasts
         (snd (Local.exec
                 (AIAssistant.handleSendMessage SampleMore.brokenModel
                    Sample.ada)
                 (SampleMore.panel, Sample.freshWorld)))
       = World.toasts Sample.freshWorld.
Proof.
  apply (assistant_send_appends_question_and_answer SampleMore.brokenModel
           Sample.ada SampleMore.panel Sample.freshWorld);
    reflexivity.
Defined.

Example assistant_sample :
  map AIAssistant.content
    (AIAssistant.messages
       (fst (Local.exec
               (AIAssistant.handleSendMessage SampleMore.echoModel
                  Sample.ada)
               (SampleMore.panel, Sample.freshWorld))))
  = ["Hi Ada!"; "what is a monad?";
     "A monoid in the category of endofunctors."].
Proof. reflexivity. Qed.

(** X27.  The conversation of the assistant panel keeps its shape: if it
    is a greeting of the assistant followed by pairs of a user message
    and an assistant answer, it still is after a send, after any key
    event and after a quick prompt, whatever the input, the loading
    flag and the model do. *)
Theorem assistant_conversation_stays_a_dialogue :
  forall (generateText : string -> nat -> Completion string) (u : User.t)
         (key : string) (shiftKey : bool) (quick : string)
         (d : AIAssistant.State) (w : World.t),
    SpecMore.Dialogue (AIAssistant.messages d) ->
    SpecMore.Dialogue
      (AIAssistant.messages
         (fst (Local.exec (AIAssistant.handleSendMessage generateText u)
                 (d, w))))
    /\ SpecMore.Dialogue
         (AIAssistant.messages
            (fst (Local.exec
                    (AIAssistant.handleKeyDown generateText u key shiftKey)
                    (d, w))))
    /\ SpecMore.Dialogue
         (AIAssistant.messages
            (fst (Local.exec (AIAssistant.handleQuickPrompt quick) (d, w)))).
Proof.
  intros generateText u key shiftKey quick d w D.
  assert (S : SpecMore.Dialogue
                (AIAssistant.messages
                   (fst (Local.exec
                           (AIAssistant.handleSendMessage generateText u)
                           (d, w))))).
  { destruct (truthy (trim (AIAssistant.input d))) eqn:Hi.
    - destruct (AIAssistant.isLoading d) eqn:Hl.
      + rewrite assistant_guard by now right. exact D.
      + destruct (assistant_exchange generateText u d w Hi Hl)
          as (q & a & -> & Hq & _ & Ha & _).
        cbn [AIAssistant.messages]. now apply SpecMore.Dialogue_exchange.
    - rewrite assistant_guard by now left. exact D. }
  split; [exact S | split].
  - unfold AIAssistant.handleKeyDown.
    destruct ((key =? "Enter") && negb shiftKey); [exact S | exact D].
  - destruct d. exact D.
Qed.

Lemma assistant_conversation_stays_a_dialogue_witness :
  SpecMore.Dialogue
    (AIAssistant.messages
       (fst (Local.exec
               (AIAssistant.handleSendMessage SampleMore.echoModel
                  Sample.ada)
               (SampleMore.panel, Sample.freshWorld)))).
Proof.
  refine (proj1
            (assistant_conversation_stays_a_dialogue SampleMore.echoModel
               Sample.ada "Enter" false "Summarize" SampleMore.panel
               Sample.freshWorld _)).
  apply SpecMore.Dialogue_greeting. reflexivity.
Defined.

(** X28.  A quick prompt followed by a send: the blank that the quick
    prompt appends reaches neither the conversation nor the model.  The
    user message is the trimmed prompt text, and the model is asked what
    it would be asked for the prompt text itself. *)
Theorem quick_prompt_then_send_drops_the_padding :
  forall (generateText : string -> nat -> Completion string) (u : User.t)
         (quick : string) (d : AIAssistant.State) (w : World.t),
    truthy (trim quick) = true ->
    AIAssistant.isLoading d = false ->
    exists question answer : AIAssistant.AIMessage,
      fst (Local.exec (AIAssistant.handleSendMessage generateText u)
             (Local.exec (AIAssistant.handleQuickPrompt quick) (d, w)))
      = {| AIAssistant.messages :=
             AIAssistant.messages d ++ [question; answer];
           AIAssistant.input := EmptyString;
           AIAssistant.isLoading := false |}
      /\ AIAssistant.content question = trim quick
      /\ AIAssistant.content answer
         = match generateText (AIAssistant.prompt u quick) 500 with
           | Normal text => text
           | Throw _ => AIAssistant.apology
           end.
Proof.
  intros generateText u quick d w Hq Hl.
  assert (T : trim (quick ++ " ") = trim quick)
    by (apply trim_append_blank; reflexivity).
  assert (P : AIAssistant.prompt u (quick ++ " ") = AIAssistant.prompt u quick)
    by (unfold AIAssistant.prompt; now rewrite T).
  destruct d as [messages input isLoading].
  cbn [AIAssistant.isLoading] in Hl. subst isLoading.
  change (Local.exec (AIAssistant.handleQuickPrompt quick)
            ({| AIAssistant.messages := messages;
                AIAssistant.input := input;
                AIAssistant.isLoading := false |}, w))
    with ({| AIAssistant.messages := messages;
             AIAssistant.input := (quick ++ " ")%string;
             AIAssistant.isLoading := false |}, w).
  destruct (assistant_exchange generateText u
              {| AIAssistant.messages := messages;
                 AIAssistant.input := (quick ++ " ")%string;
                 AIAssistant.isLoading := false |} w)
    as (q & a & E & _ & Cq & _ & Ca & _).
  - cbn [AIAssistant.input]. now rewrite T.
  - reflexivity.
  - exists q, a. cbn [AIAssistant.input AIAssistant.messages] in *.
    rewrite E, Cq, Ca, T, P. repeat split; reflexivity.
Qed.

Lemma quick_prompt_then_send_drops_the_padding_witness :
  exists question answer : AIAssistant.AIMessage,
    fst (Local.exec
           (AIAssistant.handleSendMessage SampleMore.echoModel Sample.ada)
           (Local.exec
              (AIAssistant.handleQuickPrompt "Help me brainstorm ideas for:")
              (SampleMore.panel, Sample.freshWorld)))
    = {| AIAssistant.messages :=
           AIAssistant.messages SampleMore.panel ++ [question; answer];
         AIAssistant.input := EmptyString;
         AIAssistant.isLoading := false |}
    /\ AIAssistant.content question = trim "Help me brainstorm ideas for:"
    /\ AIAssistant.content answer
       = match
           SampleMore.echoModel
             (AIAssistant.prompt Sample.ada "Help me brainstorm ideas for:")
             500
         with
         | Normal text => text
         | Throw _ => AIAssistant.apology
         end.
Proof.
  apply (quick_prompt_then_send_drops_the_padding SampleMore.echoModel
           Sample.ada "Help me brainstorm ideas for:" SampleMore.panel
           Sample.freshWorld);
    reflexivity.
Defined.

(** Every quick prompt of the panel passes the guard of the send. *)
Example quick_prompts_are_not_blank :
  forallb (fun p => truthy (trim (snd p))) AIAssistant.QUICK_PROMPTS = true.
Proof. reflexivity. Qed.
